(* ===== verification/_CoqProject ===== *)
-Q . S2P
Prelude.v
PyStr.v
StrLoops.v
Regex.v
TimeFormat.v
TaskStore.v
Scheduler.v
FactLookup.v
Api.v
Client.v
Service.v
Process.v
Http.v
Session.v
