(* ===== verification/Prelude.v ===== *)
(** * FactBuddy: a verification development of [src/api.py]

    ** The program

    [src/api.py] is a FastAPI service with a Streamlit front end.  Its
    server side has three request handlers that share one MongoDB
    collection ([db["taskab"]["schedules"]]):

    - [schedule_task] (POST /schedule_task/, lines 28-47) lower-cases the
      query and classifies it by substring tests: the words "task",
      "schedule", "scheduler" route to [task_scheduler]; a dead "hello"
      branch; "hey" and "your purpose" return fixed greetings; anything else
      goes to [wiki_answer].  A [ValueError] raised below becomes HTTP 400.
    - [task_scheduler] (lines 99-115) extracts a task label with
      [re.search(r'-(.*?)\sat', ques)], finds a clock time with
      [re.search(r'\b\d{1,2}:\d{2}\s*[APMapm]{2}\b', ques.upper())],
      normalises it with [datetime.strptime(.., '%I:%M %p')] and
      [strftime('%I:%M %p')], and inserts [{task, time}] into the
      collection.
    - [wiki_answer] / [get_wikipedia_summary] (lines 50-97) strip a
      question prefix, call the Wikipedia summary service and keep the
      first two sentences of its [extract]; every failure becomes a string.
    - [get_tasks] (GET /tasks/, lines 118-123) lists the collection with
      the object ids turned into strings; [delete_task]
      (DELETE /delete_task/, lines 125-130) removes one document by exact
      task name, answering 404 when none matches.

    The Streamlit page ([main], lines 150-199) is the client: its query
    form posts to [schedule_task] and shows the answer, and its task
    section lists [get_tasks], shows one checkbox per task and deletes
    the checked ones with [delete_task].

    ** The library (files in dependency order)

    - [Prelude] (this file): the Python string type [pystr], the
      exception type [pyexn] and the result type [res] with its notation,
      the backtracking "or else" notation, tactics, the hint database
      [fb] and generic lemmas on lists and options.
    - [PyStr]: the Python [str] methods the code calls ([lower], [upper],
      [in], [replace] with a count, [strip], [split], [join], [len]) and
      their laws (idempotence, split/join round trip, substring lemmas).
    - [StrLoops]: [str.split] and [str.replace] as CPython's unbounded
      loops, by well-founded recursion (Equations), including the empty
      separator cases, and the proof that the fuelled versions of
      [PyStr] compute them.
    - [Regex]: Python's backtracking regular-expression semantics as
      continuation-passing matcher combinators (character classes,
      concatenation, ordered alternation, greedy and lazy stars, word
      boundary, capturing groups, [re.match] and [re.search]), with the
      laws of the stars and of the leftmost search, and the soundness
      and completeness of the matchers.
    - [TimeFormat]: the time pattern of [task_scheduler], CPython's
      [_strptime] regular expression for ['%I:%M %p'], the hour
      conversion of [_strptime], [strftime('%I:%M %p')], the canonical
      form predicate, and their theorems (canonical output, round trip,
      only valid times returned, the error message).
    - [TaskStore]: the collection interface the handlers use
      ([insert_one], [find], [delete_one]) as a type class with its laws,
      and the in-memory implementation with its id invariant.
    - [Scheduler]: [task_scheduler], the label extraction and its
      characterisation, success and failure behaviour.
    - [FactLookup]: [wiki_answer], [get_wikipedia_summary] over a JSON
      response model and an abstract fetch function; totality and the
      two-sentence truncation.
    - [Api]: [schedule_task], [get_tasks], [delete_task], the request
      step relation over the shared collection, and the end-to-end
      invariants (every stored time is canonical; failed requests leave
      the store unchanged; one document per successful schedule).
    - [Client]: the Streamlit page ([main], lines 161-199): the query
      form, the task section (listing, checkboxes, "Completed Task"
      delete loop) and one run of the page, as requests to [Api]'s
      handlers on the shared collection.
    - [Service]: the specification of the service on task records (spec
      sections 3, 4.4, 6) as a step relation, and the refinement: the
      handlers over any lawful collection only take specified steps.
    - [Process]: the script as [streamlit run] executes it: the page
      settings, header, instructions text and footer (lines 133-159,
      201-204), [main()] with and without a listening server, and the
      process as a step relation whose steps are a rerun of the script
      (which starts one more [uvicorn] thread, line 207), a run of
      [main()] (line 208) and a pending thread's attempt to bind the
      port.
    - [Http]: FastAPI's layer in front of the handlers: the route table
      of the decorators (lines 28, 118, 125), validation of the [Query]
      body (lines 24-25) and of the [task_name] parameter with their 422
      answers, 405 for a known path with another method, Starlette's
      trailing-slash redirect and 404, and the requests the page builds
      from its URLs (lines 170, 178, 191).
    - [Session]: the page over several reruns of one browser session:
      the widget state the checkboxes keyed [task_{index}] read back
      (line 186), by key or by key and label as Streamlit versions
      differ, its clean-up of unrendered widgets, the events that rerun
      the script (instructions button, a click on a box, the form's
      submit, "Completed Task"), and several sessions interleaving
      their reruns on the shared collection ([sys_step]).

    ** What the theorems show
    - Store invariant ([Api]): after any sequence of requests from an
      empty collection every stored time is canonical
      ([reachable_times_canonical]); a failed [schedule_task] answers 400
      and leaves the collection unchanged; a successful one adds at most
      one document.
    - Extraction ([Scheduler]): success and failure of [task_scheduler]
      on every branch, the label search equal to a plain scan
      ([task_label_spec]), the "no time" error raised exactly when the
      query has no time text between word boundaries
      ([task_scheduler_no_time], from the completeness of the
      backtracking matchers), and concrete runs of the specification's
      examples.
    - Time normalisation ([TimeFormat]): [strftime] output is canonical,
      [strptime] of it gives the time back, canonical strings are fixed
      points, [strptime] returns only valid times and rejects strings
      without whitespace.  The universal statements over times of day are
      proved by checking the finite tables [all_datetimes] (24 x 60
      entries) and [all_canon] (12 x 60 x 2) with [vm_compute] and
      lifting them with completeness lemmas.
    - Handlers ([Api]): [delete_task] removes the first exact match or
      answers 404; insert/list and insert/delete round trips; the fact
      path always answers.
    - Fact lookup ([FactLookup]): the chain of prefix tests equals the
      first-match table of spec 4.3 ([wiki_answer_table]); the answer is
      a prefix of the service's [extract]; without a prefix the service
      is not consulted.
    - Client ([Client]): the delete loop deletes exactly the checked
      tasks with a 200 answer each; the task section never raises; one
      run of the page lists the task its form just scheduled, and shows a
      rejected query's 400 detail.
    - HTTP ([Http]): the service never answers 500; every request is
      redirected or answered 200, 400, 404, 405 or 422, and only a 200
      of the POST or DELETE route changes the collection
      ([dispatch_answers]); the page's three requests pass validation
      and reach the handlers as [Client] calls them
      ([client_requests_routed]).
    - Refinement ([Service]): every request, and every sequence of
      requests, is a step or run of the specification, with [contents]
      as the abstraction of the collection.
    - Process ([Process]): in every state reachable from the start, the
      uvicorn threads started are exactly the script runs started, and
      they are the pending ones, the ones that failed
      to bind, and at most one listening server; until one listens, every
      run stops on an uncaught [ConnectionError] and the collection is
      untouched ([proc_threads_accounted]).
    - Sessions ([Session]): in every reachable state of the browser
      sessions a "Completed Task" press on an unchanged listing deletes
      exactly the tasks shown checked ([complete_deletes_shown]); a click
      flips one mark ([click_flips_box]); marks stay with
      positions, not tasks ([marks_follow_position]), so with key-only
      identities a deletion moves a mark onto another task and a second
      press deletes a task nobody checked, and a press after another
      session's deletion removes the wrong task or none.
    - Shapes ([Api]): the [/tasks/] answer has exactly the fields
      [_id], [task], [time] with 24-digit hex ids.
    - Supporting lemmas about the models of libraries, not claims about
      the program: the fuelled [split] and [replace] equal CPython's
      loops ([StrLoops]); [str(ObjectId)] is injective; the list
      implementation of the collection keeps distinct ids; a session's
      widget state holds at most one value per box shown.
    - Findings, each proved on a concrete input: the dead "hello" branch,
      "hey" matching "they", [re.IGNORECASE] passed as a replace count,
      "5:30pm" found but rejected by [strptime], "13:70 am" rejected with
      [strptime]'s message, and the label stopping at " athena".

    ** Fuel and bounds
    - [split] and [replace] recurse on the rest of the string after each
      cut; each cut removes at least one character, so [S (length s)]
      rounds are always enough: [StrLoops] proves them equal to the
      loops defined by well-founded recursion on the length of the rest,
      for any fuel above the length ([replace_fuel_stable]).
    - The regex matchers recurse structurally on the remaining text; the
      search tries each start position once.  No other definition needs
      fuel.
    - ObjectIds are 96-bit numbers, printed as 24 hex digits.

    ** Not modelled
    - How Streamlit renders the elements the page writes is a library's
      work: the page is the list of elements written, in order; the
      layout columns of lines 164 and 184 only place them and are not
      kept.  The non-ASCII
      characters of the instructions label are kept as UTF-8 bytes.
    - The connection to MongoDB and the creation of the FastAPI app
      (lines 12-18) are I/O with no logic; the model starts from the
      collection and the route table.  The imports (lines 1-10) and the
      [Task] model (lines 20-22), which no route uses, have no
      behaviour.  HTTP transport (sockets, headers, JSON encoding of
      answers) is the libraries' work; [Http] starts from the parsed
      request.  Which moment a server thread binds the port is the
      scheduler's choice: [Process] lets a bind happen between any two
      steps.
    - Streamlit's widget identity: a keyed checkbox is found again by
      its key in some versions and by its key and label in others; the
      [Session] model takes the scheme as a parameter and proves its
      general theorems for both.  Browser and network delays are not
      modelled: a rerun is one step.
    - MongoDB itself: the collection is the [Collection] interface and
      its laws, not a database.
    - The network: the summary service is an argument of the fact
      lookup.

    ** Modelling choices
    - A Python [str] is a [list ascii]; the model is faithful for 7-bit
      ASCII text.  Python's Unicode case mapping and Unicode character
      classes beyond ASCII are not modelled.
    - Regular expressions are modelled by the backtracking order of
      CPython's [sre] engine: alternatives left to right, greedy stars
      longest first, lazy stars shortest first, search from the leftmost
      start position.
    - Exceptions are values of [pyexn]; a function that may raise
      returns [res A].
    - A request is one call of a handler on the shared collection;
      requests run one after the other ([serve], [reachable]). *)

From stdpp Require Export base list strings decidable.
From Stdlib Require Export Ascii.

(** ** Python strings *)

Definition pystr := list ascii.

(** A Python string literal, written as a Rocq string. *)
Definition py (s : string) : pystr := String.list_ascii_of_string s.

(** The code point of a character. *)
Definition code (c : ascii) : nat := nat_of_ascii c.

Definition chr (n : nat) : ascii := ascii_of_nat n.

(** ** Python exceptions and the result type *)

Inductive pyexn :=
| ValueError (msg : pystr)
| TypeError (msg : pystr)
| AttributeError (msg : pystr)
| KeyError (msg : pystr)
| RequestException (msg : pystr).

(** [str(e)] of an exception. *)
Definition exn_str (e : pyexn) : pystr :=
  match e with
  | ValueError m | TypeError m | AttributeError m | KeyError m | RequestException m => m
  end.

Inductive res (A : Type) :=
| Ok (a : A)
| Raise (e : pyexn).
Arguments Ok {A} a.
Arguments Raise {A} e.

Definition res_bind {A B} (r : res A) (f : A -> res B) : res B :=
  match r with Ok a => f a | Raise e => Raise e end.

Declare Scope fb_scope.
Delimit Scope fb_scope with fb.
Open Scope fb_scope.

(** [res] is a monad in stdpp's sense, so [x ← r; k] is the bind. *)
#[export] Instance res_mret : MRet res := fun A a => Ok a.
#[export] Instance res_mbind : MBind res := fun A B f r => res_bind r f.

(** Ordered alternation of backtracking: the first success, evaluated
    lazily (the second alternative is only computed when the first fails). *)
Notation "a <||> b" := (match a with Some x => Some x | None => b end)
  (at level 50, left associativity) : fb_scope.

(** The Python values the handlers return to FastAPI, which serialises
    them to JSON: strings, sets of strings (as a list of their elements),
    lists and dicts (as lists of key/value pairs). *)
Inductive pyval :=
| PStr (s : pystr)
| PSet (l : list pystr)
| PList (l : list pyval)
| PDict (l : list (pystr * pyval)).

#[export] Instance pyexn_eq_dec : EqDecision pyexn.
Proof. solve_decision. Defined.

#[export] Instance res_eq_dec {A} `{EqDecision A} : EqDecision (res A).
Proof. solve_decision. Defined.

(** ** Booleans on characters and prefixes *)

Definition char_eqb (a b : ascii) : bool := bool_decide (a = b).

Fixpoint is_prefix (p s : pystr) : bool :=
  match p, s with
  | [], _ => true
  | a :: p', b :: s' => char_eqb a b && is_prefix p' s'
  | _ :: _, [] => false
  end.

(** ** Automation *)

Create HintDb fb discriminated.
Create Rewrite HintDb fb_rw.

(** Case analysis on the first [if] or [match] on a boolean, option or
    result in the goal, remembering the equation. *)
Ltac case_if :=
  match goal with
  | |- context [if ?b then _ else _] =>
      let E := fresh "E" in destruct b eqn:E
  | |- context [match ?o with Some _ => _ | None => _ end] =>
      let E := fresh "E" in destruct o eqn:E
  end.

(** A fact about one character, checked on each of the 256 values. *)
Ltac by_chars c := destruct c as [[] [] [] [] [] [] [] []]; vm_compute; reflexivity.

Ltac bool_to_prop :=
  repeat match goal with
  | H : (_ && _) = true |- _ => apply andb_true_iff in H as [? ?]
  | H : (_ || _) = false |- _ => apply orb_false_iff in H as [? ?]
  | H : char_eqb _ _ = true |- _ => apply bool_decide_eq_true in H
  | H : negb _ = true |- _ => apply negb_true_iff in H
  | H : negb _ = false |- _ => apply negb_false_iff in H
  end.

(** ** Generic lemmas *)

Lemma char_eqb_refl a : char_eqb a a = true.
Proof. unfold char_eqb. by apply bool_decide_eq_true. Qed.

Lemma char_eqb_true a b : char_eqb a b = true <-> a = b.
Proof. unfold char_eqb. apply bool_decide_eq_true. Qed.

Lemma is_prefix_spec p s : is_prefix p s = true <-> exists r, s = p ++ r.
Proof.
  revert s; induction p as [|a p IH]; intros [|b s]; simpl.
  - split; eauto.
  - split; eauto.
  - split; [done|]. intros [r Hr]. done.
  - rewrite andb_true_iff, char_eqb_true, IH. split.
    + intros [-> [r ->]]. eauto.
    + intros [r Hr]. injection Hr as -> ->. eauto.
Qed.

Lemma is_prefix_app p r : is_prefix p (p ++ r) = true.
Proof. apply is_prefix_spec. eauto. Qed.

Lemma is_prefix_length p s : is_prefix p s = true -> length p <= length s.
Proof. intros [r ->]%is_prefix_spec. rewrite length_app. lia. Qed.

Lemma orelse_Some {A} (a b : option A) x :
  (a <||> b) = Some x <-> a = Some x \/ (a = None /\ b = Some x).
Proof. destruct a; naive_solver. Qed.

Lemma orelse_None {A} (a b : option A) :
  (a <||> b) = None <-> a = None /\ b = None.
Proof. destruct a; naive_solver. Qed.

Lemma res_bind_Ok {A B} (r : res A) (f : A -> res B) b :
  res_bind r f = Ok b <-> exists a, r = Ok a /\ f a = Ok b.
Proof. destruct r; simpl; naive_solver. Qed.

Lemma res_bind_Raise {A B} (r : res A) (f : A -> res B) e :
  res_bind r f = Raise e <-> r = Raise e \/ exists a, r = Ok a /\ f a = Raise e.
Proof. destruct r; simpl; naive_solver. Qed.

#[export] Hint Resolve char_eqb_refl is_prefix_app : fb.

(** Take apart the existentials, conjunctions and disjunctions of the
    hypotheses, turning character tests into equations. *)
Ltac unpack :=
  repeat match goal with
  | H : exists _, _ |- _ => destruct H
  | H : _ /\ _ |- _ => destruct H
  | H : _ \/ _ |- _ => destruct H
  | H : char_eqb _ _ = true |- _ => apply char_eqb_true in H
  end; subst.

