(* ===== verification/StrLoops.v ===== *)
(** * StrLoops: [str.split] and [str.replace] as unbounded loops

    [PyStr] computes [split] and [replace] with fuel, [S (length s)]
    rounds.  Here the same two methods are written the way CPython runs
    them: a loop that searches the next occurrence and continues after it
    until there is none (or the count is used up), by well-founded
    recursion on the length of the rest (Equations, with the [inspect]
    pattern to keep the equation of the search).  They also cover the
    cases [PyStr] leaves out: an empty separator makes [split] raise
    [ValueError("empty separator")], and an empty [old] makes [replace]
    insert [new] before every character and at the end.  The theorems
    show that the fuelled definitions used by the model compute the
    loops: the fuel bound is enough, and any larger fuel gives the same
    result. *)

From S2P Require Import Prelude PyStr.
From Equations Require Import Equations.

Definition inspect {A} (a : A) : {b | a = b} := exist _ a eq_refl.
Notation "x 'eqn:' p" := (exist _ x p) (only parsing, at level 20).

(** ** The loops, for a non-empty separator [c :: sep'] *)

Equations? split_loop (c : ascii) (sep' : pystr) (s : pystr) : list pystr
  by wf (length s) lt :=
  split_loop c sep' s with inspect (find_sub (c :: sep') s) := {
    | Some (b, a) eqn: E => b :: split_loop c sep' a;
    | None eqn: En => [s] }.
Proof. exact (find_sub_length (c :: sep') s b a ltac:(done) E). Qed.

Equations? replace_loop (c : ascii) (old' new s : pystr) (count : Z) : pystr
  by wf (length s) lt :=
  replace_loop c old' new s count with inspect (find_sub (c :: old') s) := {
    | Some (b, a) eqn: E =>
        if (count =? 0)%Z then s else b ++ new ++ replace_loop c old' new a (count - 1);
    | None eqn: En => s }.
Proof. exact (find_sub_length (c :: old') s b a ltac:(done) E). Qed.

(** [s.replace('', new, count)]: [new] before each of the first [count]
    characters, and once more at the end when the count allows. *)
Fixpoint replace_empty (new s : pystr) (count : Z) : pystr :=
  if (count =? 0)%Z then s
  else match s with
       | [] => new
       | x :: r => new ++ x :: replace_empty new r (count - 1)
       end.

(** ** The methods *)

(** [s.split(sep)] *)
Definition py_split (sep s : pystr) : res (list pystr) :=
  match sep with
  | [] => Raise (ValueError (py "empty separator"))
  | c :: sep' => Ok (split_loop c sep' s)
  end.

(** [s.replace(old, new, count)] *)
Definition py_replace (old new s : pystr) (count : Z) : pystr :=
  match old with
  | [] => replace_empty new s count
  | c :: old' => replace_loop c old' new s count
  end.

(** ** The fuelled definitions compute the loops *)

Lemma split_fuel_loop c sep' s f :
  length s < f -> split_fuel f (c :: sep') s = split_loop c sep' s.
Proof.
  revert f. funelim (split_loop c sep' s); intros [|f] Hf; try lia.
  - simpl. rewrite E. f_equal. apply H.
    pose proof (find_sub_length (c :: sep') s b a ltac:(done) E). lia.
  - simpl. by rewrite En.
Qed.

Lemma replace_fuel_loop c old' new s count f :
  length s < f -> replace_fuel f (c :: old') new s count = replace_loop c old' new s count.
Proof.
  revert f. funelim (replace_loop c old' new s count); intros [|f] Hf; try lia.
  - simpl. case_if; [done|]. rewrite E. do 2 f_equal. apply H.
    pose proof (find_sub_length (c :: old') s b a ltac:(done) E). lia.
  - simpl. case_if; [done|]. by rewrite En.
Qed.

(** ** Theorems *)

(** For the non-empty separators the code uses, the fuelled
    [split] of the model is CPython's [str.split] loop. *)
Theorem split_equiv sep s : sep <> [] -> py_split sep s = Ok (split sep s).
Proof.
  destruct sep as [|c sep']; [done|]. intros _. unfold py_split, split. f_equal.
  symmetry. apply split_fuel_loop. lia.
Qed.

(** For a non-empty [old], the fuelled [replace] of the model is
    CPython's [str.replace] loop, for every count. *)
Theorem replace_equiv old new s count :
  old <> [] -> replace old new s count = py_replace old new s count.
Proof.
  destruct old as [|c old']; [done|]. intros _. unfold replace, py_replace.
  apply replace_fuel_loop. lia.
Qed.

(** The replace loop ends within [length s + 1] rounds: with any
    fuel beyond the length of the string the fuelled loop computes
    CPython's [str.replace], so the bound chosen in [replace] never cuts
    the loop short. *)
Theorem replace_fuel_stable old new s count f :
  old <> [] -> length s < f -> replace_fuel f old new s count = py_replace old new s count.
Proof.
  destruct old as [|c old']; [done|]. intros _ Hf. unfold py_replace.
  by apply replace_fuel_loop.
Qed.

(** ** Witnesses *)

Lemma split_equiv_witness :
  py ". " <> [] /\ py_split (py ". ") (py "A. B. C") = Ok (split (py ". ") (py "A. B. C")).
Proof.
  assert (H : py ". " <> []) by discriminate.
  split; [exact H | exact (split_equiv _ (py "A. B. C") H)].
Defined.

Lemma replace_equiv_witness :
  py "define" <> [] /\
  replace (py "define") [] (py "define define define x") 2 =
    py_replace (py "define") [] (py "define define define x") 2.
Proof.
  assert (H : py "define" <> []) by discriminate.
  split; [exact H | exact (replace_equiv _ [] (py "define define define x") 2 H)].
Defined.

Lemma replace_fuel_stable_witness :
  py "who is" <> [] /\ length (py "who is x") < 100 /\
  replace_fuel 100 (py "who is") [] (py "who is x") (-1) = py_replace (py "who is") [] (py "who is x") (-1).
Proof.
  assert (H1 : py "who is" <> []) by discriminate.
  assert (H2 : length (py "who is x") < 100) by (simpl; lia).
  split; [exact H1 | split; [exact H2 | exact (replace_fuel_stable _ [] _ (-1) 100 H1 H2)]].
Defined.
