(* ===== verification/Regex.v ===== *)
(** * Regex: the backtracking semantics of CPython's [re] module

    A regular expression is modelled by its matcher: a function that takes
    the continuation (the rest of the pattern) and the current state, and
    returns the first successful final state in the order CPython's [sre]
    engine explores them.  The constructs are those of the two patterns of
    [task_scheduler] (src/api.py lines 100 and 102) and of the pattern
    that [_strptime] builds for ['%I:%M %p']: character classes,
    concatenation, ordered alternation, the greedy [?] and [*] and the
    lazy [*?] over a character class, [\b], capturing groups, and
    [re.match] / [re.search].  Stars consume the remaining input
    structurally, so every matcher terminates.  Two readings of a
    matcher are proved: soundness (what a success consumed belongs to
    the pattern's language, [sound]) and completeness (when some way of
    consuming the input lets the continuation succeed, the matcher
    succeeds: backtracking misses nothing, [class_complete] to
    [search_go_complete]). *)

From S2P Require Import Prelude PyStr.

(** ** Matcher states *)

(** [ms_done] is the text already consumed, most recent character first
    (so that [\b] sees the previous character); [ms_groups] holds the
    captured groups, the latest capture of a group first. *)
Record mstate := MS {
  ms_done : pystr;
  ms_rest : pystr;
  ms_groups : list (nat * pystr)
}.

Definition cont := mstate -> option mstate.
Definition matcher := cont -> cont.

(** ** Combinators *)

Definition m_class (p : ascii -> bool) : matcher := fun k st =>
  match ms_rest st with
  | c :: r => if p c then k (MS (c :: ms_done st) r (ms_groups st)) else None
  | [] => None
  end.

Definition m_char (c : ascii) : matcher := m_class (char_eqb c).

(** A literal under [re.IGNORECASE]. *)
Definition m_char_ci (c : ascii) : matcher :=
  m_class (fun d => char_eqb (lower_char c) (lower_char d)).

Definition m_seq (m1 m2 : matcher) : matcher := fun k => m1 (m2 k).

Definition m_alt (m1 m2 : matcher) : matcher := fun k st => m1 k st <||> m2 k st.

Definition m_empty : matcher := fun k => k.

(** [x?], greedy: try [x] first. *)
Definition m_opt (m : matcher) : matcher := m_alt m m_empty.

(** [[p]*], greedy: the longest run first, then shorter ones. *)
Fixpoint greedy_go (p : ascii -> bool) (k : cont) (done rest : pystr)
    (g : list (nat * pystr)) : option mstate :=
  match rest with
  | c :: r =>
      if p c then greedy_go p k (c :: done) r g <||> k (MS done rest g)
      else k (MS done rest g)
  | [] => k (MS done [] g)
  end.

Definition m_star (p : ascii -> bool) : matcher := fun k st =>
  greedy_go p k (ms_done st) (ms_rest st) (ms_groups st).

(** [[p]+] is [[p][p]*]. *)
Definition m_plus (p : ascii -> bool) : matcher := m_seq (m_class p) (m_star p).

(** [[p]*?], lazy: the shortest run first. *)
Fixpoint lazy_go (p : ascii -> bool) (k : cont) (done rest : pystr)
    (g : list (nat * pystr)) : option mstate :=
  k (MS done rest g) <||>
  match rest with
  | c :: r => if p c then lazy_go p k (c :: done) r g else None
  | [] => None
  end.

Definition m_star_lazy (p : ascii -> bool) : matcher := fun k st =>
  lazy_go p k (ms_done st) (ms_rest st) (ms_groups st).

(** [\b]: a word character on exactly one side. *)
Definition word_before (done : pystr) : bool :=
  match done with c :: _ => is_word c | [] => false end.

Definition word_after (rest : pystr) : bool :=
  match rest with c :: _ => is_word c | [] => false end.

Definition m_boundary : matcher := fun k st =>
  if xorb (word_before (ms_done st)) (word_after (ms_rest st)) then k st else None.

(** The text consumed between a state whose consumed text is [d0] and a
    later state whose consumed text is [d1]. *)
Definition consumed (d0 d1 : pystr) : pystr := rev (take (length d1 - length d0) d1).

(** [(?P<n>m)] / [(m)]: a capturing group, recorded when [m] succeeds. *)
Definition m_group (n : nat) (m : matcher) : matcher := fun k st =>
  m (fun st' => k (MS (ms_done st') (ms_rest st')
                      ((n, consumed (ms_done st) (ms_done st')) :: ms_groups st'))) st.

(** ** Match objects, [re.match] and [re.search] *)

Record match_obj := MO {
  mo_start : nat;
  mo_end : nat;
  mo_text : pystr;                    (* group(0) *)
  mo_groups : list (nat * pystr)
}.

Definition mk_match (start : pystr) (st : mstate) : match_obj :=
  MO (length start) (length (ms_done st)) (consumed start (ms_done st)) (ms_groups st).

Fixpoint group_lookup (n : nat) (gs : list (nat * pystr)) : option pystr :=
  match gs with
  | [] => None
  | (m, t) :: r => if decide (m = n) then Some t else group_lookup n r
  end.

(** [m.group(n)]. *)
Definition group (mo : match_obj) (n : nat) : option pystr :=
  if decide (n = 0) then Some (mo_text mo) else group_lookup n (mo_groups mo).

(** [re.match(pattern, s)]: anchored at the start, not at the end. *)
Definition re_match (m : matcher) (s : pystr) : option match_obj :=
  mk_match [] <$> m Some (MS [] s []).

(** [re.search(pattern, s)]: the first start position, left to right
    (including the empty suffix), at which the pattern matches. *)
Fixpoint search_go (m : matcher) (done rest : pystr) : option match_obj :=
  (mk_match done <$> m Some (MS done rest [])) <||>
  match rest with
  | c :: r => search_go m (c :: done) r
  | [] => None
  end.

Definition re_search (m : matcher) (s : pystr) : option match_obj := search_go m [] s.

Declare Scope re_scope.
Delimit Scope re_scope with re.
Notation "m1 ;; m2" := (m_seq m1 m2) (at level 100, m2 at level 200, right associativity) : re_scope.
Notation "m1 || m2" := (m_alt m1 m2) : re_scope.

(** ** Laws *)

Lemma consumed_app (x d : pystr) : consumed d (rev x ++ d) = x.
Proof.
  unfold consumed. rewrite length_app, length_rev.
  replace (length x + length d - length d) with (length (rev x)) by (rewrite length_rev; lia).
  by rewrite take_app_length, rev_involutive.
Qed.

Lemma consumed_cons c d : consumed d (c :: d) = [c].
Proof. apply (consumed_app [c]). Qed.

(** ** Soundness: a relational reading of the matchers

    [sound m P] says that whenever [m] succeeds with continuation [k]
    from [st], it handed [k] some state [st'] with [P st st'].  The
    combinators compose these relations, so the shape of every match is
    read off the pattern. *)

Definition sound (m : matcher) (P : mstate -> mstate -> Prop) : Prop :=
  forall k st r, m k st = Some r -> exists st', P st st' /\ k st' = Some r.

(** A pattern's language: the texts [w] it can consume together with the
    groups [gs] it captures on the way (the latest capture first). *)
Definition lang := pystr -> list (nat * pystr) -> Prop.

(** [st'] is [st] after consuming [w] and capturing [gs]. *)
Definition step (L : lang) (st st' : mstate) : Prop :=
  exists w gs, L w gs /\ ms_rest st = w ++ ms_rest st' /\
    ms_done st' = rev w ++ ms_done st /\ ms_groups st' = gs ++ ms_groups st.

Definition L_class (p : ascii -> bool) : lang := fun w gs =>
  exists c, w = [c] /\ p c = true /\ gs = [].

Definition L_empty : lang := fun w gs => w = [] /\ gs = [].

Definition L_seq (L1 L2 : lang) : lang := fun w gs =>
  exists w1 w2 gs1 gs2, w = w1 ++ w2 /\ gs = gs2 ++ gs1 /\ L1 w1 gs1 /\ L2 w2 gs2.

Definition L_alt (L1 L2 : lang) : lang := fun w gs => L1 w gs \/ L2 w gs.

Definition L_star (p : ascii -> bool) : lang := fun w gs =>
  Forall (fun c => p c = true) w /\ gs = [].

Definition L_group (n : nat) (L : lang) : lang := fun w gs =>
  exists gs', L w gs' /\ gs = (n, w) :: gs'.

Lemma sound_weaken m P Q :
  sound m P -> (forall st st', P st st' -> Q st st') -> sound m Q.
Proof. intros Hm HPQ k st r H. destruct (Hm k st r H) as (st' & HP & Hk). eauto. Qed.

Lemma step_refl st : step L_empty st st.
Proof. exists [], []. by repeat split. Qed.

Lemma sound_class p : sound (m_class p) (step (L_class p)).
Proof.
  intros k [d [|c s] g] r; unfold m_class; simpl; [done|].
  destruct (p c) eqn:Hp; [|congruence]. intros H.
  eexists; split; [|exact H]. exists [c], []. repeat split; simpl; try done. by exists c.
Qed.

Lemma sound_seq m1 m2 L1 L2 :
  sound m1 (step L1) -> sound m2 (step L2) -> sound (m_seq m1 m2) (step (L_seq L1 L2)).
Proof.
  intros H1 H2 k st r H. destruct (H1 _ _ _ H) as (st' & (w1 & g1 & HL1 & R1 & D1 & G1) & H').
  destruct (H2 _ _ _ H') as (st'' & (w2 & g2 & HL2 & R2 & D2 & G2) & Hk).
  exists st''. split; [|done]. exists (w1 ++ w2), (g2 ++ g1). repeat split.
  - by exists w1, w2, g1, g2.
  - by rewrite R1, R2, app_assoc.
  - by rewrite D2, D1, rev_app_distr, app_assoc.
  - by rewrite G2, G1, app_assoc.
Qed.

Lemma sound_alt m1 m2 L1 L2 :
  sound m1 (step L1) -> sound m2 (step L2) -> sound (m_alt m1 m2) (step (L_alt L1 L2)).
Proof.
  intros H1 H2 k st r H. unfold m_alt in H.
  destruct (m1 k st) eqn:E1.
  - injection H as ->. destruct (H1 _ _ _ E1) as (st' & (w & g & ? & ?) & ?).
    exists st'. split; [|done]. exists w, g. split; [by left | done].
  - destruct (H2 _ _ _ H) as (st' & (w & g & ? & ?) & ?).
    exists st'. split; [|done]. exists w, g. split; [by right | done].
Qed.

Lemma sound_empty : sound m_empty (step L_empty).
Proof. intros k st r H. exists st. split; [apply step_refl | done]. Qed.

Lemma sound_opt m L : sound m (step L) -> sound (m_opt m) (step (L_alt L L_empty)).
Proof. intros H. apply sound_alt; [done | apply sound_empty]. Qed.

(** [\b] consumes nothing; its condition on the neighbours is kept
    apart in [sound_boundary_cond]. *)
Lemma sound_boundary : sound m_boundary (step L_empty).
Proof.
  intros k st r. unfold m_boundary. destruct (xorb _ _) eqn:E; [|congruence].
  intros H. exists st. split; [apply step_refl | done].
Qed.

Lemma sound_boundary_cond :
  sound m_boundary (fun st st' => st' = st /\
    xorb (word_before (ms_done st)) (word_after (ms_rest st)) = true).
Proof.
  intros k st r. unfold m_boundary. destruct (xorb _ _) eqn:E; [|congruence]. eauto.
Qed.

Lemma step_star_refl p st : step (L_star p) st st.
Proof. exists [], []. repeat split; by try constructor. Qed.

Lemma step_star_cons p c d s g st' :
  p c = true -> step (L_star p) (MS (c :: d) s g) st' -> step (L_star p) (MS d (c :: s) g) st'.
Proof.
  intros Hp (w & gs & [Hw ->] & R & D & G). simpl in *.
  exists (c :: w), []. repeat split; simpl.
  - by constructor.
  - by rewrite R.
  - by rewrite D, <- app_assoc.
  - done.
Qed.

Lemma sound_star p : sound (m_star p) (step (L_star p)).
Proof.
  intros k [d s g] r. unfold m_star; simpl. revert d.
  induction s as [|c s IH]; intros d; simpl.
  - intros H. eexists; split; [apply step_star_refl | exact H].
  - destruct (p c) eqn:Hp.
    + destruct (greedy_go p k (c :: d) s g) eqn:E.
      * intros [= <-]. destruct (IH _ E) as (st' & Hst & Hk).
        exists st'. split; [by apply step_star_cons | done].
      * intros H. eexists; split; [apply step_star_refl | exact H].
    + intros H. eexists; split; [apply step_star_refl | exact H].
Qed.

Lemma sound_star_lazy p : sound (m_star_lazy p) (step (L_star p)).
Proof.
  intros k [d s g] r. unfold m_star_lazy; simpl. revert d.
  induction s as [|c s IH]; intros d; simpl.
  - destruct (k (MS d [] g)) eqn:E; [|done]. intros [= <-].
    eexists; split; [apply step_star_refl | exact E].
  - destruct (k (MS d (c :: s) g)) eqn:E.
    + intros [= <-]. eexists; split; [apply step_star_refl | exact E].
    + destruct (p c) eqn:Hp; [|done]. intros H.
      destruct (IH _ H) as (st' & Hst & Hk).
      exists st'. split; [by apply step_star_cons | done].
Qed.

Lemma sound_plus p : sound (m_plus p) (step (L_seq (L_class p) (L_star p))).
Proof. apply sound_seq; [apply sound_class | apply sound_star]. Qed.

Lemma sound_group n m L : sound m (step L) -> sound (m_group n m) (step (L_group n L)).
Proof.
  intros Hm k st r H. unfold m_group in H.
  destruct (Hm _ _ _ H) as (st' & (w & gs & HL & R & D & G) & Hk).
  eexists; split; [|exact Hk]. exists w, ((n, w) :: gs). simpl.
  rewrite D, consumed_app. repeat split; [by exists gs | done | by rewrite G].
Qed.
(** [re.match] and [re.search] return a match of the pattern from their
    start state. *)
Lemma re_match_sound m P s mo :
  sound m P -> re_match m s = Some mo ->
  exists st', P (MS [] s []) st' /\ mo = mk_match [] st'.
Proof.
  intros Hm. unfold re_match. destruct (m Some (MS [] s [])) eqn:E; [|done].
  intros [= <-]. destruct (Hm _ _ _ E) as (st' & HP & [= <-]). eauto.
Qed.

Lemma search_go_sound m P d s mo :
  sound m P -> search_go m d s = Some mo ->
  exists a b st', s = a ++ b /\ P (MS (rev a ++ d) b []) st' /\ mo = mk_match (rev a ++ d) st'.
Proof.
  intros Hm. revert d; induction s as [|c s IH]; intros d; simpl.
  - destruct (m Some (MS d [] [])) eqn:E; [|done]. intros [= <-].
    destruct (Hm _ _ _ E) as (st' & HP & [= <-]). by exists [], [], st'.
  - destruct (m Some (MS d (c :: s) [])) eqn:E.
    + intros [= <-]. destruct (Hm _ _ _ E) as (st' & HP & [= <-]). by exists [], (c :: s), st'.
    + intros H. destruct (IH _ H) as (a & b & st' & -> & HP & ->).
      exists (c :: a), b, st'. simpl. by rewrite <- !app_assoc.
Qed.

Lemma re_search_sound m P s mo :
  sound m P -> re_search m s = Some mo ->
  exists a b st', s = a ++ b /\ P (MS (rev a) b []) st' /\ mo = mk_match (rev a) st'.
Proof.
  intros Hm H. destruct (search_go_sound m P [] s mo Hm H) as (a & b & st' & Hs & HP & Hmo).
  rewrite app_nil_r in HP, Hmo. by exists a, b, st'.
Qed.

(** [re.search] fails only when the pattern fails at every start. *)
Lemma search_go_None m d s :
  search_go m d s = None ->
  forall a b, s = a ++ b -> m Some (MS (rev a ++ d) b []) = None.
Proof.
  revert d; induction s as [|c s IH]; intros d; simpl.
  - destruct (m Some (MS d [] [])) eqn:E; [done|]. intros _ a b Hab.
    symmetry in Hab. apply app_nil in Hab as [-> ->]. done.
  - destruct (m Some (MS d (c :: s) [])) eqn:E; [done|]. intros H [|c' a] b Hab.
    + simpl in Hab. by subst.
    + injection Hab as -> ->. simpl. rewrite <- app_assoc. by apply IH.
Qed.

#[export] Hint Resolve sound_class sound_empty sound_boundary sound_star
  sound_star_lazy sound_plus sound_seq sound_alt sound_opt sound_group : fb.

(** The match object of [re.match] in terms of the pattern's language. *)
Lemma re_match_lang m L s mo :
  sound m (step L) -> re_match m s = Some mo ->
  exists w gs rest, s = w ++ rest /\ L w gs /\ mo = MO 0 (length w) w gs.
Proof.
  intros Hm H. destruct (re_match_sound _ _ _ _ Hm H) as (st' & (w & gs & HL & R & D & G) & ->).
  simpl in *. exists w, gs, (ms_rest st'). split; [done|]. split; [done|].
  unfold mk_match. rewrite D, G, consumed_app, !app_nil_r, length_rev. done.
Qed.

(** The match object of [re.search] in terms of the pattern's language. *)
Lemma re_search_lang m L s mo :
  sound m (step L) -> re_search m s = Some mo ->
  exists a w gs rest, s = a ++ w ++ rest /\ L w gs /\
    mo = MO (length a) (length a + length w) w gs.
Proof.
  intros Hm H. destruct (re_search_sound _ _ _ _ Hm H) as (a & b & st' & -> & (w & gs & HL & R & D & G) & ->).
  simpl in *. exists a, w, gs, (ms_rest st'). rewrite R. split; [done|]. split; [done|].
  unfold mk_match. rewrite D, G, app_nil_r, consumed_app, !length_app, !length_rev. f_equal. lia.
Qed.

Lemma sound_char c : sound (m_char c) (step (L_class (char_eqb c))).
Proof. apply sound_class. Qed.

Lemma sound_char_ci c :
  sound (m_char_ci c) (step (L_class (fun d => char_eqb (lower_char c) (lower_char d)))).
Proof. apply sound_class. Qed.

#[export] Hint Resolve sound_char sound_char_ci : fb.

(** ** Relational composition

    Soundness for relations that are not [step]s, such as the condition
    [\b] puts on the neighbours. *)

Lemma sound_seq_rel m1 m2 P Q :
  sound m1 P -> sound m2 Q -> sound (m_seq m1 m2) (fun st st'' => exists st', P st st' /\ Q st' st'').
Proof.
  intros H1 H2 k st r H. destruct (H1 _ _ _ H) as (st' & HP & H').
  destruct (H2 _ _ _ H') as (st'' & HQ & Hk). eauto.
Qed.

(** ** Completeness

    A matcher succeeds as soon as one of the ways its pattern can consume
    the input lets the continuation succeed: backtracking explores every
    way before failing.  Stated in continuation-passing form, one
    combinator at a time. *)

Lemma class_complete p k c d s g :
  p c = true -> k (MS (c :: d) s g) <> None -> m_class p k (MS d (c :: s) g) <> None.
Proof. intros Hp Hk. unfold m_class; simpl. by rewrite Hp. Qed.

Lemma alt_complete_l m1 m2 k st : m1 k st <> None -> m_alt m1 m2 k st <> None.
Proof. unfold m_alt. by destruct (m1 k st). Qed.

Lemma alt_complete_r m1 m2 k st : m2 k st <> None -> m_alt m1 m2 k st <> None.
Proof. unfold m_alt. by destruct (m1 k st). Qed.

Lemma boundary_complete k st :
  xorb (word_before (ms_done st)) (word_after (ms_rest st)) = true -> k st <> None ->
  m_boundary k st <> None.
Proof. intros Hb Hk. unfold m_boundary. by rewrite Hb. Qed.

(** The greedy star tries the continuation at its start state last. *)
Lemma greedy_go_last p k d s g : k (MS d s g) <> None -> greedy_go p k d s g <> None.
Proof.
  destruct s as [|c s]; simpl; [done|]. intros Hk.
  destruct (p c); [|done]. destruct (greedy_go p k (c :: d) s g); [done|]. done.
Qed.

Lemma star_complete p k d w s g :
  Forall (fun c => p c = true) w -> k (MS (rev w ++ d) s g) <> None ->
  m_star p k (MS d (w ++ s) g) <> None.
Proof.
  unfold m_star; simpl. intros Hw. revert d; induction Hw as [|c w Hc Hw IH]; intros d Hk.
  - by apply greedy_go_last.
  - simpl. rewrite Hc. simpl in Hk. rewrite <- app_assoc in Hk.
    pose proof (IH (c :: d) Hk) as H. by destruct (greedy_go p k (c :: d) (w ++ s) g).
Qed.

(** [re.search] finds a match when the pattern matches at some start. *)
Lemma search_go_complete m d a b :
  m Some (MS (rev a ++ d) b []) <> None -> search_go m d (a ++ b) <> None.
Proof.
  intros Hm Hs. by rewrite (search_go_None m d (a ++ b) Hs a b eq_refl) in Hm.
Qed.
