(* ===== verification/TimeFormat.v ===== *)
(** * TimeFormat: finding and normalising the time of a task

    [task_scheduler] (src/api.py lines 102-109) finds the first substring
    of [ques.upper()] that matches [\b\d{1,2}:\d{2}\s*[APMapm]{2}\b],
    parses it with [datetime.strptime(time_str, '%I:%M %p')] and prints it
    back with [strftime('%I:%M %p')].  This file models the pattern, the
    regular expression that CPython's [_strptime] compiles for
    ['%I:%M %p'] ([(?P<I>1[0-2]|0[1-9]|[1-9]):(?P<M>[0-5]\d|\d)\s+(?P<p>am|pm)]
    under [re.IGNORECASE]), its hour conversion and error messages, and
    the C library's [%I], [%M] and [%p]. *)

From S2P Require Import Prelude PyStr Regex.

Local Open Scope re_scope.

(** ** The time pattern of [task_scheduler] *)

Definition is_APMapm (c : ascii) : bool := existsb (char_eqb c) (py "APMapm").

(** [\b\d{1,2}:\d{2}\s*[APMapm]{2}\b]; [{1,2}] is greedy: two digits are
    tried before one. *)
Definition time_pattern : matcher :=
  m_boundary ;; m_class is_digit ;; m_opt (m_class is_digit) ;; m_char ":" ;;
  m_class is_digit ;; m_class is_digit ;; m_star is_space ;;
  m_class is_APMapm ;; m_class is_APMapm ;; m_boundary.

(** ** [_strptime] for ['%I:%M %p'] *)

Definition in_range (lo hi : nat) (c : ascii) : bool := (lo <=? code c) && (code c <=? hi).

Definition strptime_pattern : matcher :=
  m_group 1 ((m_char "1" ;; m_class (in_range 48 50))
             || (m_char "0" ;; m_class (in_range 49 57))
             || m_class (in_range 49 57)) ;;
  m_char ":" ;;
  m_group 2 ((m_class (in_range 48 53) ;; m_class is_digit) || m_class is_digit) ;;
  m_plus is_space ;;
  m_group 3 ((m_char_ci "a" ;; m_char_ci "m") || (m_char_ci "p" ;; m_char_ci "m")).

(** [datetime(1900, 1, 1, hour, minute)]: the date part is constant. *)
Record datetime := DT { dt_hour : nat; dt_minute : nat }.

#[export] Instance datetime_eq_dec : EqDecision datetime.
Proof. solve_decision. Defined.

(** [int(s)] for a string of decimal digits (the only strings the
    pattern's groups capture); anything else raises [ValueError]. *)
Definition digits_value (s : pystr) : nat :=
  fold_left (fun acc c => 10 * acc + (code c - 48)) s 0.

Definition py_int (s : pystr) : res nat :=
  if bool_decide (s <> []) && forallb is_digit s then Ok (digits_value s)
  else Raise (ValueError (py "invalid literal for int() with base 10: " ++ py_repr s)).

Definition time_format : pystr := py "%I:%M %p".

(** The hour conversion of [_strptime] for the [I] key, with the C
    locale's [am_pm = ['am', 'pm']]. *)
Definition hour_of_I (hour : nat) (ampm : pystr) : nat :=
  if bool_decide (ampm = [] \/ ampm = py "am") then (if hour =? 12 then 0 else hour)
  else if bool_decide (ampm = py "pm") then (if hour =? 12 then hour else hour + 12)
  else hour.

Definition strptime_IMp (data : pystr) : res datetime :=
  match re_match strptime_pattern data with
  | None =>
      Raise (ValueError (py "time data " ++ py_repr data ++ py " does not match format "
                         ++ py_repr time_format))
  | Some found =>
      if negb (length data =? mo_end found) then
        Raise (ValueError (py "unconverted data remains: " ++ drop (mo_end found) data))
      else
        hour ← py_int (default [] (group found 1));
        minute ← py_int (default [] (group found 2));
        let ampm := lower (default [] (group found 3)) in
        mret (DT (hour_of_I hour ampm) minute)
  end.

(** ** [strftime('%I:%M %p')] *)

Definition two_digits (n : nat) : pystr := [chr (48 + n / 10); chr (48 + n mod 10)].

(** [%I]: the hour on a 12-hour clock, [12] for hours 0 and 12. *)
Definition hour12 (h : nat) : nat := if h mod 12 =? 0 then 12 else h mod 12.

Definition strftime_IMp (d : datetime) : pystr :=
  two_digits (hour12 (dt_hour d)) ++ py ":" ++ two_digits (dt_minute d) ++ py " "
  ++ (if dt_hour d <? 12 then py "AM" else py "PM").

(** ** The canonical display form ["HH:MM AM"] of the specification *)

Definition digit_val (c : ascii) : nat := code c - 48.

Definition is_canonical_time (s : pystr) : bool :=
  match s with
  | [h1; h2; colon; m1; m2; sp; a; m] =>
      forallb is_digit [h1; h2; m1; m2]
      && (1 <=? 10 * digit_val h1 + digit_val h2) && (10 * digit_val h1 + digit_val h2 <=? 12)
      && (digit_val m1 <=? 5)
      && char_eqb colon ":" && char_eqb sp " "
      && (char_eqb a "A" || char_eqb a "P") && char_eqb m "M"
  | _ => false
  end.

Definition valid_datetime (d : datetime) : bool := (dt_hour d <? 24) && (dt_minute d <? 60).

(** Every time of day, as a list to check properties on. *)
Definition all_datetimes : list datetime :=
  flat_map (fun h => map (DT h) (seq 0 60)) (seq 0 24).

(** The canonical string with hour [h12] (1-12), minute [mi], and the
    suffix [PM] when [pm]. *)
Definition canon_time (h12 mi : nat) (pm : bool) : pystr :=
  two_digits h12 ++ py ":" ++ two_digits mi ++ py " " ++ (if pm then py "PM" else py "AM").

(** Every canonical string, as a list to check properties on. *)
Definition all_canon : list (nat * nat * bool) :=
  flat_map (fun h => flat_map (fun m => [(h, m, false); (h, m, true)]) (seq 0 60)) (seq 1 12).

(** ** The languages of the two patterns *)

Definition L_hour : lang :=
  L_alt (L_alt (L_seq (L_class (char_eqb "1")) (L_class (in_range 48 50)))
               (L_seq (L_class (char_eqb "0")) (L_class (in_range 49 57))))
        (L_class (in_range 49 57)).

Definition L_minute : lang :=
  L_alt (L_seq (L_class (in_range 48 53)) (L_class is_digit)) (L_class is_digit).

Definition L_ampm : lang :=
  L_alt (L_seq (L_class (fun d => char_eqb (lower_char "a") (lower_char d)))
               (L_class (fun d => char_eqb (lower_char "m") (lower_char d))))
        (L_seq (L_class (fun d => char_eqb (lower_char "p") (lower_char d)))
               (L_class (fun d => char_eqb (lower_char "m") (lower_char d)))).

Definition L_strptime : lang :=
  L_seq (L_group 1 L_hour) (L_seq (L_class (char_eqb ":")) (L_seq (L_group 2 L_minute)
    (L_seq (L_seq (L_class is_space) (L_star is_space)) (L_group 3 L_ampm)))).

(** ** Values of the captured groups *)

Lemma in_range_spec lo hi c : in_range lo hi c = true <-> lo <= code c <= hi.
Proof. unfold in_range. rewrite andb_true_iff, !Nat.leb_le. done. Qed.

Lemma py_int_ok s : s <> [] -> forallb is_digit s = true -> py_int s = Ok (digits_value s).
Proof. intros Hne Hd. unfold py_int. rewrite Hd, andb_true_r. by case_bool_decide. Qed.

Lemma py_int_1 a : is_digit a = true -> py_int [a] = Ok (code a - 48).
Proof. intros Ha. rewrite py_int_ok; [done | done | by simpl; rewrite Ha]. Qed.

Lemma py_int_2 a b :
  is_digit a = true -> is_digit b = true -> py_int [a; b] = Ok (10 * (code a - 48) + (code b - 48)).
Proof.
  intros Ha Hb. rewrite py_int_ok; [| done | by simpl; rewrite Ha, Hb].
  all: f_equal; unfold digits_value; simpl; lia.
Qed.

Lemma digit_of_range lo hi c :
  in_range lo hi c = true -> 48 <= lo -> hi <= 57 -> is_digit c = true.
Proof. rewrite in_range_spec, is_digit_spec. lia. Qed.

(** Turn the character tests of the hypotheses into bounds on code points. *)
Ltac codes :=
  repeat match goal with
  | H : in_range _ _ _ = true |- _ => apply in_range_spec in H
  | H : is_digit _ = true |- _ => apply is_digit_spec in H
  end.

(** Close a goal about the value of a captured group from the code-point
    bounds of its characters. *)
Ltac group_value :=
  eexists; split; [done|]; codes;
  try change (code "1") with 49; try change (code "0") with 48; lia.

Ltac digit_side := reflexivity || (eapply digit_of_range; [eassumption | lia | lia]).

Lemma L_hour_value h gs :
  L_hour h gs -> gs = [] /\ exists v, py_int h = Ok v /\ 1 <= v <= 12.
Proof.
  unfold L_hour, L_alt, L_seq, L_class. intros H; unpack; cbn [app]; split; try done.
  - rewrite py_int_2 by digit_side. group_value.
  - rewrite py_int_2 by digit_side. group_value.
  - rewrite py_int_1 by digit_side. group_value.
Qed.

Lemma L_minute_value m gs :
  L_minute m gs -> gs = [] /\ exists v, py_int m = Ok v /\ v < 60.
Proof.
  unfold L_minute, L_alt, L_seq, L_class. intros H; unpack; cbn [app]; split; try done.
  - rewrite py_int_2 by (done || digit_side). group_value.
  - rewrite py_int_1 by done. group_value.
Qed.

Lemma L_ampm_value p gs :
  L_ampm p gs -> gs = [] /\ (lower p = py "am" \/ lower p = py "pm").
Proof.
  unfold L_ampm, L_alt, L_seq, L_class. intros H; unpack; cbn [app]; split; try done.
  all: unfold lower; simpl;
    repeat match goal with H : lower_char _ = lower_char _ |- _ => rewrite <- H; clear H end.
  - by left.
  - by right.
Qed.

Lemma strptime_pattern_sound : sound strptime_pattern (step L_strptime).
Proof.
  unfold strptime_pattern, L_strptime, L_hour, L_minute, L_ampm.
  repeat first [apply sound_seq | apply sound_alt | apply sound_group | apply sound_plus
               | apply sound_char_ci | apply sound_char | apply sound_class | apply sound_star].
Qed.

(** What [_strptime]'s pattern consumes: the hour, a colon, the minute,
    at least one whitespace character and [am] or [pm] in any case. *)
Lemma L_strptime_shape w gs :
  L_strptime w gs ->
  exists h m sp ap vh vm,
    w = h ++ [":"%char] ++ m ++ sp ++ ap /\ gs = [(3, ap); (2, m); (1, h)] /\
    py_int h = Ok vh /\ 1 <= vh <= 12 /\ py_int m = Ok vm /\ vm < 60 /\
    sp <> [] /\ Forall (fun c => is_space c = true) sp /\
    (lower ap = py "am" \/ lower ap = py "pm").
Proof.
  unfold L_strptime, L_seq, L_group, L_class, L_star. intros H. unpack.
  match goal with
  | H1 : L_hour _ _, H2 : L_minute _ _, H3 : L_ampm _ _ |- _ =>
      destruct (L_hour_value _ _ H1) as [-> (vh & Hh & Bh)];
      destruct (L_minute_value _ _ H2) as [-> (vm & Hm & Bm)];
      destruct (L_ampm_value _ _ H3) as [-> Ha]
  end.
  eexists _, _, _, _, vh, vm. split; [reflexivity|]. split; [reflexivity|].
  repeat split; try done; try lia. simpl. by constructor.
Qed.

Lemma hour_of_I_bound v ampm : v <= 12 -> hour_of_I v ampm < 24.
Proof.
  intros Hv. unfold hour_of_I.
  repeat case_bool_decide; destruct (Nat.eqb_spec v 12); lia.
Qed.

(** [strptime] either fails or succeeds with the match of its pattern
    covering the whole string; its value is then read off the groups. *)
Lemma strptime_IMp_Ok s d :
  strptime_IMp s = Ok d ->
  exists h m sp ap vh vm,
    s = h ++ [":"%char] ++ m ++ sp ++ ap /\
    py_int h = Ok vh /\ 1 <= vh <= 12 /\ py_int m = Ok vm /\ vm < 60 /\
    sp <> [] /\ Forall (fun c => is_space c = true) sp /\
    (lower ap = py "am" \/ lower ap = py "pm") /\
    d = DT (hour_of_I vh (lower ap)) vm.
Proof.
  unfold strptime_IMp. destruct (re_match strptime_pattern s) as [found|] eqn:E; [|done].
  destruct (re_match_lang _ _ _ _ strptime_pattern_sound E)
    as (w & gs & rest & -> & HL & ->).
  destruct (L_strptime_shape _ _ HL) as (h & m & sp & ap & vh & vm & -> & -> & Hh & Bh & Hm & Bm & Hsp & Fsp & Ha).
  simpl mo_end. destruct (negb _) eqn:Hend; [congruence|].
  apply negb_false_iff, Nat.eqb_eq in Hend.
  rewrite !length_app in Hend; simpl in Hend; rewrite ?length_app in Hend.
  assert (rest = []) as -> by (apply length_zero_iff_nil; lia).
  unfold group. simpl. rewrite Hh, Hm. simpl. intros [= <-].
  exists h, m, sp, ap, vh, vm. rewrite app_nil_r. repeat split; (done || lia).
Qed.

(** ** Checking a property on every time of day *)

Lemma all_datetimes_complete d : valid_datetime d = true -> In d all_datetimes.
Proof.
  destruct d as [h m]. unfold valid_datetime; cbn [dt_hour dt_minute].
  intros [Hh Hm]%andb_true_iff. apply Nat.ltb_lt in Hh, Hm.
  unfold all_datetimes. rewrite in_flat_map. exists h.
  rewrite in_seq, in_map_iff. split; [lia|]. exists m. rewrite in_seq. split; [done | lia].
Qed.

Lemma forall_valid (P : datetime -> bool) :
  forallb P all_datetimes = true -> forall d, valid_datetime d = true -> P d = true.
Proof. intros H d Hd. rewrite forallb_forall in H. by apply H, all_datetimes_complete. Qed.

(** ** Canonical strings *)

Lemma digit_chr c : is_digit c = true -> c = chr (48 + digit_val c).
Proof. destruct c as [[] [] [] [] [] [] [] []]; vm_compute; intros H; first [discriminate | reflexivity]. Qed.

Lemma digit_val_bound c : is_digit c = true -> digit_val c <= 9.
Proof. rewrite is_digit_spec. unfold digit_val. lia. Qed.

Lemma two_digits_split a b : b < 10 -> two_digits (10 * a + b) = [chr (48 + a); chr (48 + b)].
Proof.
  intros Hb. unfold two_digits.
  rewrite <- (Nat.div_unique (10 * a + b) 10 a b), <- (Nat.mod_unique (10 * a + b) 10 a b)
    by lia.
  done.
Qed.

Lemma all_canon_complete h mi pm : 1 <= h <= 12 -> mi < 60 -> In (h, mi, pm) all_canon.
Proof.
  intros Hh Hm. unfold all_canon. rewrite in_flat_map. exists h.
  rewrite in_seq, in_flat_map. split; [lia|]. exists mi. rewrite in_seq.
  split; [lia|]. destruct pm; simpl; tauto.
Qed.

Lemma canonical_canon s :
  is_canonical_time s = true ->
  exists h12 mi pm, In (h12, mi, pm) all_canon /\ s = canon_time h12 mi pm.
Proof.
  intros H. destruct s as [|h1 [|h2 [|c [|m1 [|m2 [|sp [|a [|m [|]]]]]]]]]; try discriminate H.
  cbn [is_canonical_time forallb] in H. rewrite andb_true_r in H. bool_to_prop.
  repeat match goal with Hl : (_ <=? _) = true |- _ => apply Nat.leb_le in Hl end.
  pose proof (digit_val_bound h2 ltac:(done)). pose proof (digit_val_bound m2 ltac:(done)).
  exists (10 * digit_val h1 + digit_val h2), (10 * digit_val m1 + digit_val m2), (char_eqb a "P").
  split; [apply all_canon_complete; lia|]. subst.
  unfold canon_time. rewrite !two_digits_split by lia.
  rewrite <- (digit_chr h1), <- (digit_chr h2), <- (digit_chr m1), <- (digit_chr m2) by done.
  match goal with Ha : (char_eqb a "A" || char_eqb a "P")%bool = true |- _ =>
    apply orb_true_iff in Ha as [Ha | Ha]; apply char_eqb_true in Ha; subst a end; done.
Qed.

(** The two directions of the round trip, checked on every time of day
    and on every canonical string. *)
Lemma roundtrip_table :
  forallb (fun d => bool_decide (strptime_IMp (strftime_IMp d) = Ok d)) all_datetimes = true.
Proof. vm_compute. reflexivity. Qed.

Lemma canonical_table :
  forallb (fun d => is_canonical_time (strftime_IMp d)) all_datetimes = true.
Proof. vm_compute. reflexivity. Qed.

Lemma canon_table :
  forallb (fun '(h, mi, pm) =>
    match strptime_IMp (canon_time h mi pm) with
    | Ok d => bool_decide (strftime_IMp d = canon_time h mi pm)
    | Raise _ => false
    end) all_canon = true.
Proof. vm_compute. reflexivity. Qed.

(** ** Theorems *)

(** C4. Round trip: parsing the canonical rendering of any time of day
    with [strptime(.., '%I:%M %p')] gives that time back. *)
Theorem strptime_strftime d :
  valid_datetime d = true -> strptime_IMp (strftime_IMp d) = Ok d.
Proof.
  intros Hd. apply (bool_decide_eq_true _).
  exact (forall_valid _ roundtrip_table d Hd).
Qed.

(** C5. Normalisation fixes canonical strings: a time already written
    ["HH:MM AM"] parses, and printing it back gives the same string, so
    [task_scheduler]'s normalisation is idempotent. *)
Theorem normalize_canonical s :
  is_canonical_time s = true -> exists d, strptime_IMp s = Ok d /\ strftime_IMp d = s.
Proof.
  intros (h & mi & pm & Hin & ->)%canonical_canon.
  pose proof canon_table as T. rewrite forallb_forall in T. specialize (T _ Hin).
  cbv beta iota in T.
  destruct (strptime_IMp (canon_time h mi pm)) as [d|]; [|done].
  exists d. split; [done|]. by apply bool_decide_eq_true in T.
Qed.

Lemma strftime_is_canonical d :
  valid_datetime d = true -> is_canonical_time (strftime_IMp d) = true.
Proof. exact (forall_valid _ canonical_table d). Qed.

Lemma strptime_Ok_valid s d : strptime_IMp s = Ok d -> valid_datetime d = true.
Proof.
  intros (h & m & sp & ap & vh & vm & _ & _ & Bh & _ & Bm & _ & _ & _ & ->)%strptime_IMp_Ok.
  unfold valid_datetime; cbn [dt_hour dt_minute].
  apply andb_true_iff; split; apply Nat.ltb_lt; [apply hour_of_I_bound|]; lia.
Qed.

(** C6. [strftime('%I:%M %p')] of any time of day is in the canonical
    form: two-digit hour 01-12, colon, two-digit minute 00-59, a space,
    [AM] or [PM]. *)
Theorem strftime_canonical d :
  valid_datetime d = true -> is_canonical_time (strftime_IMp d) = true.
Proof. apply strftime_is_canonical. Qed.

(** C7. Whatever string [strptime(.., '%I:%M %p')] accepts, the time it
    returns is a valid time of day (hour below 24, minute below 60). *)
Theorem strptime_valid s d : strptime_IMp s = Ok d -> valid_datetime d = true.
Proof. apply strptime_Ok_valid. Qed.

(** C12. [strptime(.., '%I:%M %p')] needs whitespace between the minutes
    and the AM/PM marker (the space of the format becomes [\s+]): a
    string without whitespace is rejected with the "does not match
    format" [ValueError], although the search pattern of
    [task_scheduler] allows zero spaces ([\s*]). *)
Theorem strptime_no_space s :
  Forall (fun c => is_space c = false) s ->
  strptime_IMp s = Raise (ValueError (py "time data " ++ py_repr s ++
                            py " does not match format " ++ py_repr time_format)).
Proof.
  intros Hs. unfold strptime_IMp.
  destruct (re_match strptime_pattern s) as [found|] eqn:E; [|done]. exfalso.
  destruct (re_match_lang _ _ _ _ strptime_pattern_sound E) as (w & gs & rest & -> & HL & _).
  destruct (L_strptime_shape _ _ HL) as (h & m & [|c sp] & ap & _ & _ & -> & _ & _ & _ & _ & _ & Hsp & Fsp & _);
    [done|].
  inversion Fsp as [|? ? Hc _]; subst.
  rewrite !Forall_app in Hs. destruct Hs as [[_ [_ [_ [Hs _]]]] _].
  inversion Hs. congruence.
Qed.

(** ** Witnesses *)

Lemma strptime_strftime_witness :
  valid_datetime (DT 17 30) = true /\ strptime_IMp (strftime_IMp (DT 17 30)) = Ok (DT 17 30).
Proof. split; [reflexivity | apply strptime_strftime; reflexivity]. Defined.

Lemma normalize_canonical_witness :
  is_canonical_time (py "05:30 PM") = true /\
  exists d, strptime_IMp (py "05:30 PM") = Ok d /\ strftime_IMp d = py "05:30 PM".
Proof. split; [reflexivity | apply normalize_canonical; reflexivity]. Defined.

Lemma strftime_canonical_witness :
  valid_datetime (DT 0 5) = true /\ is_canonical_time (strftime_IMp (DT 0 5)) = true.
Proof. split; [reflexivity | apply strftime_canonical; reflexivity]. Defined.

Lemma strptime_valid_witness :
  strptime_IMp (py "12:05 am") = Ok (DT 0 5) /\ valid_datetime (DT 0 5) = true.
Proof. split; [vm_compute; reflexivity | apply (strptime_valid (py "12:05 am")); vm_compute; reflexivity]. Defined.

Lemma strptime_no_space_witness :
  Forall (fun c => is_space c = false) (py "5:30PM") /\
  strptime_IMp (py "5:30PM") = Raise (ValueError (py "time data " ++ py_repr (py "5:30PM") ++
                            py " does not match format " ++ py_repr time_format)).
Proof. split; [repeat constructor | apply strptime_no_space; repeat constructor]. Defined.
