(* ===== verification/TaskStore.v ===== *)
(** * TaskStore: the [schedules] collection the handlers share

    src/api.py opens one MongoDB collection at import time (lines 16-18)
    and the handlers call three of its methods: [insert_one] (line 113),
    [find] (line 120) and [delete_one({"task": name})] (line 127).  The
    collection is a library, so its behaviour is specified here by an
    interface: the type class [Collection] gives the operations and
    [CollectionLaws] what the handlers rely on, stated on the abstract
    contents (the documents in [find()] order).  [MemColl] implements the
    interface with a list and an id counter (MongoDB's natural order is
    the insertion order for a collection that is only appended to), and
    keeps its ids distinct and below the counter. *)

From S2P Require Import Prelude PyStr.

(** The document [task_scheduler] inserts: [{"task": task, "time": time}]. *)
Record task_doc := TaskDoc { doc_task : pystr; doc_time : pystr }.

#[export] Instance task_doc_eq_dec : EqDecision task_doc.
Proof. solve_decision. Defined.

(** A stored document with the [_id] the collection assigns. *)
Record stored_doc := Stored { sd_id : N; sd_doc : task_doc }.

(** ** The interface *)

Class Collection (C : Type) := {
  insert_one : task_doc -> C -> C;
  find_all : C -> list stored_doc;
  (** [delete_one({"task": name})]: the [deleted_count] and the new
      collection. *)
  delete_one : pystr -> C -> nat * C
}.

(** The documents of a collection, in [find()] order, without their ids. *)
Definition contents {C} `{Collection C} (c : C) : list task_doc := map sd_doc (find_all c).

Definition has_task (name : pystr) (d : task_doc) : bool := bool_decide (doc_task d = name).

(** The first document whose task is [name] is removed. *)
Fixpoint remove_first (name : pystr) (l : list task_doc) : list task_doc :=
  match l with
  | [] => []
  | d :: r => if has_task name d then r else d :: remove_first name r
  end.

Class CollectionLaws (C : Type) `{Collection C} : Type := {
  contents_insert_one d c : contents (insert_one d c) = contents c ++ [d];
  deleted_count name c :
    fst (delete_one name c) = if existsb (has_task name) (contents c) then 1 else 0;
  contents_delete_one name c :
    contents (snd (delete_one name c)) = remove_first name (contents c)
}.

(** ** The list implementation *)

Record mem_coll := MemColl { mc_docs : list stored_doc; mc_next : N }.

Definition mem_empty : mem_coll := MemColl [] 0.

Definition mem_insert (d : task_doc) (c : mem_coll) : mem_coll :=
  MemColl (mc_docs c ++ [Stored (mc_next c) d]) (mc_next c + 1)%N.

Fixpoint delete_first (name : pystr) (l : list stored_doc) : option (list stored_doc) :=
  match l with
  | [] => None
  | s :: r =>
      if has_task name (sd_doc s) then Some r
      else (fun r' => s :: r') <$> delete_first name r
  end.

Definition mem_delete (name : pystr) (c : mem_coll) : nat * mem_coll :=
  match delete_first name (mc_docs c) with
  | Some l => (1, MemColl l (mc_next c))
  | None => (0, c)
  end.

#[export] Instance mem_collection : Collection mem_coll := {
  insert_one := mem_insert;
  find_all := mc_docs;
  delete_one := mem_delete
}.

Lemma delete_first_None name l :
  delete_first name l = None <-> existsb (has_task name) (map sd_doc l) = false.
Proof.
  induction l as [|s l IH]; simpl; [done|].
  destruct (has_task name (sd_doc s)); simpl; [done|].
  rewrite <- IH. by destruct (delete_first name l).
Qed.

Lemma delete_first_Some name l l' :
  delete_first name l = Some l' -> map sd_doc l' = remove_first name (map sd_doc l).
Proof.
  revert l'; induction l as [|s l IH]; intros l'; simpl; [done|].
  destruct (has_task name (sd_doc s)); [by intros [= <-]|].
  destruct (delete_first name l) as [r|] eqn:E; simpl; [|done].
  intros [= <-]. simpl. by rewrite (IH r eq_refl).
Qed.

Lemma remove_first_absent name l :
  existsb (has_task name) l = false -> remove_first name l = l.
Proof.
  induction l as [|d l IH]; simpl; [done|].
  destruct (has_task name d); simpl; [done|]. intros H. by rewrite IH.
Qed.

#[export] Instance mem_collection_laws : CollectionLaws mem_coll.
Proof.
  split.
  - intros d c. unfold contents; simpl. by rewrite map_app.
  - intros name c. unfold contents; simpl. unfold mem_delete.
    destruct (delete_first name (mc_docs c)) eqn:E; simpl.
    + destruct (existsb _ _) eqn:E'; [done|]. by apply delete_first_None in E'; rewrite E in E'.
    + by apply delete_first_None in E as ->.
  - intros name c. unfold contents; simpl. unfold mem_delete.
    destruct (delete_first name (mc_docs c)) eqn:E; simpl.
    + by apply delete_first_Some.
    + apply delete_first_None in E. by rewrite remove_first_absent.
Qed.

(** ** The id invariant of the list implementation *)

(** Ids are distinct and below the counter, so the next insertion gets a
    fresh id. *)
Definition ids_ok (c : mem_coll) : Prop :=
  NoDup (map sd_id (mc_docs c)) /\ Forall (fun i => (i < mc_next c)%N) (map sd_id (mc_docs c)).

Lemma ids_ok_empty : ids_ok mem_empty.
Proof. split; constructor. Qed.

Lemma ids_ok_insert d c : ids_ok c -> ids_ok (mem_insert d c).
Proof.
  intros [Hnd Hlt]. unfold ids_ok, mem_insert; simpl. rewrite map_app; simpl. split.
  - apply list.NoDup_app. split; [done|]. split; [|apply list.NoDup_singleton].
    intros x Hx ->%list_elem_of_singleton.
    rewrite Forall_forall in Hlt. specialize (Hlt _ (proj1 (list_elem_of_In _ _) Hx)). lia.
  - apply Forall_app. split; [|constructor; [lia | constructor]].
    eapply Forall_impl; [|exact Hlt]. intros a Ha. simpl in *. lia.
Qed.

Lemma delete_first_sublist name l l' :
  delete_first name l = Some l' -> map sd_id l' `sublist_of` map sd_id l.
Proof.
  revert l'; induction l as [|s l IH]; intros l'; simpl; [done|].
  destruct (has_task name (sd_doc s)); [intros [= <-]; by apply sublist_cons|].
  destruct (delete_first name l) as [r|] eqn:E; simpl; [|done].
  intros [= <-]. simpl. apply sublist_skip. by apply IH.
Qed.

Lemma ids_ok_delete name c : ids_ok c -> ids_ok (snd (mem_delete name c)).
Proof.
  intros [Hnd Hlt]. unfold mem_delete.
  destruct (delete_first name (mc_docs c)) as [l|] eqn:E; simpl; [|by split].
  apply delete_first_sublist in E. split.
  - by eapply sublist_NoDup.
  - rewrite Forall_forall in *. intros x Hx. apply Hlt.
    apply list_elem_of_In. eapply elem_of_sublist; [|exact E]. by apply list_elem_of_In.
Qed.

(** ** Removing names that come from the contents *)

(** Names taken in order from the documents: the first one is present,
    and removing its first document keeps the others available. *)
Lemma remove_first_sublist x r l :
  x :: r `sublist_of` map doc_task l ->
  existsb (has_task x) l = true /\ r `sublist_of` map doc_task (remove_first x l).
Proof.
  induction l as [|d l IH]; simpl; intros Hs; [by apply sublist_nil_r in Hs|].
  destruct (has_task x d) eqn:Hd; unfold has_task in Hd; simpl;
    apply sublist_cons_r in Hs as [Hs | (r' & [= Hx <-] & Hs)].
  - split; [done|]. etrans; [apply sublist_cons, reflexivity | done].
  - done.
  - destruct (IH Hs) as [-> Hr]. split; [done|]. by apply sublist_cons.
  - rewrite bool_decide_eq_false in Hd. congruence.
Qed.

Lemma remove_first_length x l :
  existsb (has_task x) l = true -> length l = S (length (remove_first x l)).
Proof.
  induction l as [|d l IH]; simpl; [done|].
  destruct (has_task x d); simpl; [done|]. intros H. by rewrite (IH H).
Qed.
