(* ===== verification/Scheduler.v ===== *)
(** * Scheduler: [task_scheduler] (src/api.py lines 99-115)

    The handler extracts the task label with [re.search(r'-(.*?)\sat',
    ques)] (stripped, or ["No specific task mentioned"]), searches the
    upper-cased query for a time, raises [ValueError] when there is none,
    normalises the time through [strptime] and [strftime], inserts
    [{"task": task, "time": formatted_time}] and returns the set
    [{"task scheduled"}].  The collection is a parameter satisfying the
    [CollectionLaws] interface.  [find_label] is the label extraction
    written as a plain left-to-right scan; [task_label_spec] proves the
    regular-expression search equal to it.  [has_time_text] is the
    clock-time text of spec 4.2 between word boundaries; the time search
    succeeds exactly on the queries that have one ([time_search_iff],
    by soundness and completeness of the matchers). *)

From S2P Require Import Prelude PyStr Regex TimeFormat TaskStore.

Local Open Scope re_scope.

(** [.] matches every character but the newline. *)
Definition not_newline (c : ascii) : bool := negb (char_eqb c "010"%char).

(** [-(.*?)\sat] *)
Definition task_pattern : matcher :=
  m_char "-" ;; m_group 1 (m_star_lazy not_newline) ;; m_class is_space ;;
  m_char "a" ;; m_char "t".

Definition no_task_label : pystr := py "No specific task mentioned".
Definition no_time_msg : pystr := py "No valid time format found in the query.".
Definition task_scheduled : pyval := PSet [py "task scheduled"].

(** [task = task_match.group(1).strip() if task_match else "No specific task mentioned"] *)
Definition task_label (ques : pystr) : pystr :=
  match re_search task_pattern ques with
  | Some task_match => strip (default [] (group task_match 1))
  | None => no_task_label
  end.

Section WithCollection.
Context {C : Type} `{CollectionLaws C}.

(** The whole handler: the returned value and the collection after it,
    or the exception it raises. *)
Definition task_scheduler (ques : pystr) (coll : C) : res (pyval * C) :=
  let task := task_label ques in
  match re_search time_pattern (upper ques) with
  | None => Raise (ValueError no_time_msg)
  | Some time_match =>
      let time_str := upper (strip (default [] (group time_match 0))) in
      time_obj ← strptime_IMp time_str;
      let formatted_time := strftime_IMp time_obj in
      mret (task_scheduled, insert_one (TaskDoc task formatted_time) coll)
  end.
End WithCollection.

(** ** The label as a scan *)

(** After a ['-']: the text up to the first whitespace character followed
    by ["at"], if no newline comes before it. *)
Fixpoint label_scan (s : pystr) : option pystr :=
  match s with
  | c :: r =>
      if is_space c && is_prefix (py "at") r then Some []
      else if not_newline c then cons c <$> label_scan r else None
  | [] => None
  end.

(** The first ['-'] from which [label_scan] succeeds. *)
Fixpoint find_label (s : pystr) : option pystr :=
  match s with
  | c :: r => (if char_eqb "-" c then label_scan r else None) <||> find_label r
  | [] => None
  end.

(** The continuation of the group in [task_pattern]: [\sat]. *)
Definition space_at : cont := m_class is_space (m_char "a" (m_char "t" Some)).

(** Whether the matcher succeeded, with its group 1. *)
Definition grp1 (o : option mstate) : option (option pystr) :=
  (fun st => group_lookup 1 (ms_groups st)) <$> o.

Lemma at_groups d r g :
  ms_groups <$> m_char "a" (m_char "t" Some) (MS d r g) =
  if is_prefix (py "at") r then Some g else None.
Proof.
  destruct r as [|x [|y r]]; unfold m_char, m_class; simpl; [done| |];
    destruct (char_eqb "a" x); simpl; try done. by destruct (char_eqb "t" y).
Qed.

Lemma space_at_groups d c r g :
  ms_groups <$> space_at (MS d (c :: r) g) =
  if is_space c && is_prefix (py "at") r then Some g else None.
Proof.
  unfold space_at, m_class at 1; simpl. destruct (is_space c); simpl; [|done]. apply at_groups.
Qed.

(** The lazy group stops at the first whitespace followed by ["at"]. *)
Lemma lazy_label d0 g r w :
  grp1 (lazy_go not_newline
          (fun st' => space_at (MS (ms_done st') (ms_rest st')
                                   ((1, consumed d0 (ms_done st')) :: ms_groups st')))
          (rev w ++ d0) r g)
  = (fun l => Some (w ++ l)) <$> label_scan r.
Proof.
  revert w; induction r as [|c r IH]; intros w.
  - simpl. unfold space_at, m_class. done.
  - cbn [lazy_go label_scan ms_done ms_rest ms_groups].
    pose proof (space_at_groups (rev w ++ d0) c r ((1, consumed d0 (rev w ++ d0)) :: g)) as Hsa.
    destruct (is_space c && is_prefix (py "at") r) eqn:B.
    + destruct (space_at _) as [st|] eqn:E; cbn in Hsa; [|discriminate].
      injection Hsa as Hg. unfold grp1; simpl. rewrite Hg. simpl.
      rewrite consumed_app. simpl. by rewrite app_nil_r.
    + destruct (space_at _) as [st|] eqn:E; cbn in Hsa; [discriminate|].
      destruct (not_newline c); [|done].
      replace (c :: rev w ++ d0) with (rev (w ++ [c]) ++ d0) by (rewrite rev_app_distr; done).
      rewrite IH. destruct (label_scan r); simpl; [|done]. by rewrite <- app_assoc.
Qed.

Lemma task_pattern_at d c r :
  grp1 (task_pattern Some (MS d (c :: r) [])) =
  (fun l => Some l) <$> (if char_eqb "-" c then label_scan r else None).
Proof.
  unfold task_pattern, m_seq, m_char at 1, m_class at 1; cbn [ms_rest ms_done ms_groups].
  destruct (char_eqb "-" c); [|done].
  exact (lazy_label (c :: d) [] r []).
Qed.

Lemma task_pattern_nil d : task_pattern Some (MS d [] []) = None.
Proof. done. Qed.

Lemma search_label d s :
  (fun mo => group mo 1) <$> search_go task_pattern d s = Some <$> find_label s.
Proof.
  revert d; induction s as [|c r IH]; intros d; [done|].
  cbn [search_go find_label]. pose proof (task_pattern_at d c r) as Hat.
  pose proof (IH (c :: d)) as IHc. unfold grp1 in Hat.
  destruct (task_pattern Some (MS d (c :: r) [])) as [st|];
    destruct (if char_eqb "-" c then label_scan r else None); simpl in *;
    unfold group, mk_match in *; simpl in *; congruence.
Qed.

(** C8. The label [task_scheduler] stores is the text between the first
    ['-'] that is followed, on the same line, by whitespace and ["at"],
    and the first such whitespace, stripped: the regular-expression search
    equals the scan [find_label]. *)
Theorem task_label_spec ques :
  task_label ques = match find_label ques with Some g => strip g | None => no_task_label end.
Proof.
  unfold task_label, re_search. pose proof (search_label [] ques) as H.
  destruct (search_go task_pattern [] ques) as [mo|]; destruct (find_label ques); simpl in H;
    try congruence.
  injection H as ->. done.
Qed.

(** ** The time pattern only matches text with a colon *)

Definition L_time : lang :=
  L_seq L_empty (L_seq (L_class is_digit) (L_seq (L_alt (L_class is_digit) L_empty)
    (L_seq (L_class (char_eqb ":")) (L_seq (L_class is_digit) (L_seq (L_class is_digit)
    (L_seq (L_star is_space) (L_seq (L_class is_APMapm) (L_seq (L_class is_APMapm) L_empty)))))))).

Lemma time_pattern_sound : sound time_pattern (step L_time).
Proof.
  unfold time_pattern, L_time.
  repeat first [apply sound_seq | apply sound_opt | apply sound_boundary | apply sound_char
               | apply sound_class | apply sound_star].
Qed.

Lemma L_time_colon w gs : L_time w gs -> In ":"%char w.
Proof.
  unfold L_time, L_seq, L_alt, L_class, L_empty, L_star. intros H. unpack;
    rewrite ?app_nil_l; apply in_app_iff; right; simpl; auto.
Qed.

Lemma upper_char_colon c : upper_char c = ":"%char -> c = ":"%char.
Proof. destruct c as [[] [] [] [] [] [] [] []]; vm_compute; congruence. Qed.

(** ** Exactly which queries have a time *)

(** The pattern between its two [\b]. *)
Definition time_core : matcher :=
  m_class is_digit ;; m_opt (m_class is_digit) ;; m_char ":" ;;
  m_class is_digit ;; m_class is_digit ;; m_star is_space ;;
  m_class is_APMapm ;; m_class is_APMapm.

Definition L_time_core : lang :=
  L_seq (L_class is_digit) (L_seq (L_alt (L_class is_digit) L_empty)
    (L_seq (L_class (char_eqb ":")) (L_seq (L_class is_digit) (L_seq (L_class is_digit)
    (L_seq (L_star is_space) (L_seq (L_class is_APMapm) (L_class is_APMapm))))))).

(** The clock-time text of spec 4.2: one or two digits, a colon, two
    digits, any whitespace, two letters among [APMapm]. *)
Definition time_text (w : pystr) : Prop :=
  exists h m1 m2 sp a1 a2,
    w = h ++ [":"%char; m1; m2] ++ sp ++ [a1; a2] /\
    (length h = 1 \/ length h = 2) /\ Forall (fun c => is_digit c = true) h /\
    is_digit m1 = true /\ is_digit m2 = true /\ Forall (fun c => is_space c = true) sp /\
    is_APMapm a1 = true /\ is_APMapm a2 = true.

(** A time text with no word character just before or just after it:
    what [\b...\b] requires. *)
Definition has_time_text (s : pystr) : Prop :=
  exists pre w post, s = pre ++ w ++ post /\ time_text w /\
    word_before (rev pre) = false /\ word_after post = false.

Lemma time_pattern_split : time_pattern = (m_boundary ;; time_core ;; m_boundary).
Proof. reflexivity. Qed.

Lemma is_word_digit c : is_digit c = true -> is_word c = true.
Proof. unfold is_word. intros ->. by rewrite !orb_true_r. Qed.

Lemma is_word_APMapm c : is_APMapm c = true -> is_word c = true.
Proof. destruct c as [[] [] [] [] [] [] [] []]; vm_compute; congruence. Qed.

Lemma time_core_sound : sound time_core (step L_time_core).
Proof.
  unfold time_core, L_time_core.
  repeat first [apply sound_seq | apply sound_opt | apply sound_char | apply sound_class | apply sound_star].
Qed.

Lemma L_time_core_text w gs : L_time_core w gs -> time_text w.
Proof.
  unfold L_time_core, L_seq, L_alt, L_class, L_empty, L_star. intros H. unpack.
  all: bool_to_prop; unpack.
  - eexists [_; _], _, _, _, _, _. split; [reflexivity|]. repeat split; auto.
  - eexists [_], _, _, _, _, _. split; [reflexivity|]. repeat split; auto.
Qed.

(** The part of [time_core] after the hour digits. *)
Lemma time_tail_complete k d m1 m2 sp a1 a2 s g :
  is_digit m1 = true -> is_digit m2 = true -> Forall (fun c => is_space c = true) sp ->
  is_APMapm a1 = true -> is_APMapm a2 = true ->
  k (MS (a2 :: a1 :: rev sp ++ m2 :: m1 :: ":"%char :: d) s g) <> None ->
  (m_char ":" ;; m_class is_digit ;; m_class is_digit ;; m_star is_space ;;
   m_class is_APMapm ;; m_class is_APMapm) k (MS d (":"%char :: m1 :: m2 :: sp ++ a1 :: a2 :: s) g) <> None.
Proof.
  intros Hm1 Hm2 Fsp Ha1 Ha2 Hk. unfold m_seq, m_char.
  apply class_complete; [apply char_eqb_refl|]. apply class_complete; [done|].
  apply class_complete; [done|]. apply star_complete; [done|]. simpl.
  apply class_complete; [done|]. by apply class_complete.
Qed.

Lemma time_core_complete k d w s g :
  time_text w -> k (MS (rev w ++ d) s g) <> None -> time_core k (MS d (w ++ s) g) <> None.
Proof.
  intros (h & m1 & m2 & sp & a1 & a2 & -> & Hh & Fh & Hm1 & Hm2 & Fsp & Ha1 & Ha2) Hk.
  rewrite <- !app_assoc. rewrite !rev_app_distr, <- !app_assoc in Hk. simpl in Hk.
  unfold time_core, m_seq at 1, m_opt.
  destruct h as [|h1 [|h2 [|? ?]]]; simpl in Hh; try lia; inversion_clear Fh as [|? ? Hh1 Fh'];
    simpl; apply class_complete; try done.
  - apply alt_complete_r. by apply time_tail_complete.
  - inversion_clear Fh' as [|? ? Hh2 _]. apply alt_complete_l. apply class_complete; [done|].
    by apply time_tail_complete.
Qed.

Lemma time_text_ends w :
  time_text w -> (exists c w', w = c :: w' /\ is_word c = true) /\
                 (exists w' c, w = w' ++ [c] /\ is_word c = true).
Proof.
  intros (h & m1 & m2 & sp & a1 & a2 & -> & Hh & Fh & _ & _ & _ & _ & Ha2). split.
  - destruct h as [|h1 h]; [simpl in Hh; lia|]. inversion Fh; subst.
    eexists h1, _. split; [reflexivity | by apply is_word_digit].
  - exists (h ++ [":"%char; m1; m2] ++ sp ++ [a1]), a2. split; [by rewrite <- !app_assoc|].
    by apply is_word_APMapm.
Qed.

(** [re.search] with the time pattern succeeds exactly on the texts that
    contain a time text between word boundaries. *)
Lemma time_search_iff s : re_search time_pattern s <> None <-> has_time_text s.
Proof.
  split.
  - pose proof (sound_seq_rel _ _ _ _ sound_boundary_cond
                  (sound_seq_rel _ _ _ _ time_core_sound sound_boundary_cond)) as Hs.
    rewrite <- time_pattern_split in Hs.
    destruct (re_search time_pattern s) as [mo|] eqn:E; [intros _|done].
    destruct (re_search_sound _ _ _ _ Hs E)
      as (a & b & st' & -> & (st1 & [-> Hb1] & st2 & (w & gs & HL & R & D & G) & -> & Hb2) & _).
    simpl in *. apply L_time_core_text in HL.
    destruct (time_text_ends w HL) as [(c & w' & -> & Hc) (w'' & c' & Hw'' & Hc')].
    exists a, (c :: w'), (ms_rest st2). split; [by rewrite R|]. split; [done|].
    rewrite R in Hb1. simpl in Hb1. rewrite Hc in Hb1. split; [by destruct (word_before (rev a))|].
    rewrite D, Hw'', rev_app_distr in Hb2. simpl in Hb2. rewrite Hc' in Hb2.
    by destruct (word_after (ms_rest st2)).
  - intros (pre & w & post & -> & Hw & Hb & Ha). unfold re_search.
    apply search_go_complete. rewrite app_nil_r, time_pattern_split. unfold m_seq at 1.
    destruct (time_text_ends w Hw) as [(c & w' & Ew & Hc) (w'' & c' & Ew' & Hc')].
    apply boundary_complete; [simpl; rewrite Hb, Ew; simpl; by rewrite Hc|].
    apply time_core_complete; [done|]. apply boundary_complete; [|done].
    simpl. rewrite Ha, Ew', rev_app_distr. simpl. by rewrite Hc'.
Qed.

(** The messages of [strptime] are not the "No valid time format" one. *)
Lemma strptime_not_no_time s e : strptime_IMp s = Raise e -> e <> ValueError no_time_msg.
Proof.
  unfold strptime_IMp, py_int. repeat case_if; simpl; intros [= <-] [= H]; revert H;
    unfold no_time_msg, py; simpl; congruence.
Qed.

Section SchedulerTheorems.
Context {C : Type} `{CollectionLaws C}.

Lemma task_scheduler_Ok_spec ques (c c' : C) v :
  task_scheduler ques c = Ok (v, c') ->
  v = task_scheduled /\
  exists d, valid_datetime d = true /\
    contents c' = contents c ++ [TaskDoc (task_label ques) (strftime_IMp d)].
Proof.
  unfold task_scheduler. destruct (re_search time_pattern (upper ques)) as [tm|]; [|done].
  destruct (strptime_IMp _) as [d|] eqn:E; simpl; [|done].
  intros [= <- <-]. split; [done|]. exists d. split; [by eapply strptime_Ok_valid|].
  apply contents_insert_one.
Qed.

(** The collection after a success is the old one with one insertion. *)
Lemma task_scheduler_inserts ques (c c' : C) v :
  task_scheduler ques c = Ok (v, c') -> exists d, c' = insert_one d c.
Proof.
  unfold task_scheduler. destruct (re_search time_pattern (upper ques)) as [tm|]; [|done].
  destruct (strptime_IMp _) as [d|]; simpl; [|done]. intros [= _ <-]. eauto.
Qed.

Lemma task_scheduler_ValueError ques (c : C) e :
  task_scheduler ques c = Raise e -> exists msg, e = ValueError msg.
Proof.
  unfold task_scheduler. destruct (re_search time_pattern (upper ques)) as [tm|];
    [|intros [= <-]; eauto].
  unfold strptime_IMp. destruct (re_match strptime_pattern _) as [found|];
    [|intros [= <-]; eauto].
  destruct (negb _); [intros [= <-]; eauto|].
  unfold py_int. repeat case_if; simpl; intros [= <-]; eauto.
Qed.

(** C3. A query without a colon has no time: [task_scheduler] raises
    [ValueError("No valid time format found in the query.")]. *)
Theorem task_scheduler_no_colon ques (c : C) :
  ~ In ":"%char ques -> task_scheduler ques c = Raise (ValueError no_time_msg).
Proof.
  intros Hno. unfold task_scheduler.
  destruct (re_search time_pattern (upper ques)) as [tm|] eqn:E; [|done]. exfalso.
  destruct (re_search_lang _ _ _ _ time_pattern_sound E) as (a & w & gs & rest & Hq & HL & _).
  apply L_time_colon in HL.
  assert (In ":"%char (upper ques)) as Hin by (rewrite Hq; apply in_app_iff; right; apply in_app_iff; by left).
  unfold upper in Hin. apply in_map_iff in Hin as (c0 & Hc0 & Hin).
  apply upper_char_colon in Hc0. subst. done.
Qed.

(** C2. On success [task_scheduler] returns [{"task scheduled"}] and the
    collection has exactly one more document, at the end: the label of
    the query and the [strftime] rendering of a valid time of day. *)
Theorem task_scheduler_Ok ques (c c' : C) v :
  task_scheduler ques c = Ok (v, c') ->
  v = task_scheduled /\
  exists d, valid_datetime d = true /\
    contents c' = contents c ++ [TaskDoc (task_label ques) (strftime_IMp d)].
Proof. apply task_scheduler_Ok_spec. Qed.

(** C23. [task_scheduler] raises "No valid time format found in the
    query." exactly when the upper-cased query contains no time text (one
    or two digits, a colon, two digits, any whitespace, two of
    [APMapm]) between word boundaries: the backtracking search misses no
    such text. *)
Theorem task_scheduler_no_time ques (c : C) :
  task_scheduler ques c = Raise (ValueError no_time_msg) <-> ~ has_time_text (upper ques).
Proof.
  rewrite <- time_search_iff. unfold task_scheduler.
  destruct (re_search time_pattern (upper ques)) as [mo|]; [|split; [intros _ Hn; by apply Hn | done]].
  split; [|intros Hn; by contradict Hn].
  destruct (strptime_IMp _) as [d|e] eqn:E; simpl; [discriminate|].
  intros [= ->]. exfalso. by apply (strptime_not_no_time _ _ E).
Qed.

(** A time-shaped text that is no 12-hour time ("13:70 am") is
    found by the search but rejected by [strptime]: the handler raises
    [strptime]'s [ValueError], not the "No valid time format" one, and
    inserts nothing. *)
Theorem task_scheduler_out_of_range (c : C) :
  task_scheduler (py "schedule -read at 13:70 am") c =
  Raise (ValueError (py "time data '13:70 AM' does not match format '%I:%M %p'")).
Proof. vm_compute. reflexivity. Qed.
End SchedulerTheorems.

(** The label ends at the first whitespace followed by "at", also
    inside a word: in "schedule -read athena notes at 5:30 pm" the label
    is "read", not "read athena notes". *)
Theorem task_label_athena :
  task_label (py "schedule -read athena notes at 5:30 pm") = py "read".
Proof. vm_compute. reflexivity. Qed.

(** ** Witnesses *)

Lemma task_scheduler_Ok_witness :
  task_scheduler (py "schedule -gym at 7:05 am") mem_empty =
    Ok (task_scheduled, insert_one (TaskDoc (py "gym") (py "07:05 AM")) mem_empty) /\
  exists d, valid_datetime d = true /\
    contents (insert_one (TaskDoc (py "gym") (py "07:05 AM")) mem_empty) =
    contents mem_empty ++ [TaskDoc (task_label (py "schedule -gym at 7:05 am")) (strftime_IMp d)].
Proof.
  assert (H : task_scheduler (py "schedule -gym at 7:05 am") mem_empty =
    Ok (task_scheduled, insert_one (TaskDoc (py "gym") (py "07:05 AM")) mem_empty))
    by (vm_compute; reflexivity).
  split; [exact H | exact (proj2 (task_scheduler_Ok _ _ _ _ H))].
Defined.

Lemma task_scheduler_no_colon_witness :
  ~ In ":"%char (py "schedule gym") /\
  task_scheduler (py "schedule gym") mem_empty = Raise (ValueError no_time_msg).
Proof.
  assert (H : ~ In ":"%char (py "schedule gym")) by (cbn; intuition congruence).
  split; [exact H | exact (task_scheduler_no_colon _ mem_empty H)].
Defined.

