(* ===== verification/FactLookup.v ===== *)
(** * FactLookup: [wiki_answer] and [get_wikipedia_summary] (src/api.py lines 50-97)

    [wiki_answer] tests the command for question prefixes in a fixed order,
    removes the first one found with [str.replace] and strips the rest;
    the [define] branch passes [re.IGNORECASE] (the integer 2) as the
    [count] argument of [str.replace].  [get_wikipedia_summary] requests
    the summary URL, decodes the JSON body and keeps the first two
    sentences of its [extract] field; every exception inside its [try]
    becomes the string ["An error occurred: " + str(e)].

    The HTTP request is the one interaction with the outside: the class
    [SummaryService] gives the outcome of [requests.get(url).json()] for a
    URL, either a JSON value or the exception raised.  The JSON operations
    the code applies to the decoded value ([in], indexing, [.split]) are
    modelled for every JSON type, with CPython's exception messages. *)

From S2P Require Import Prelude PyStr.

(** ** JSON values and the service interface *)

Inductive json :=
| JNull
| JBool (b : bool)
| JInt (z : Z)
| JFloat
| JStr (s : pystr)
| JArr (l : list json)
| JObj (kv : list (pystr * json)).

(** The outcome of [requests.get(url, headers=...).json()]. *)
Inductive fetch_outcome :=
| FetchRaise (msg : pystr)        (* a [requests] or JSON decoding exception *)
| FetchJson (data : json).

Class SummaryService := { fetch_summary : pystr -> fetch_outcome }.

Definition summary_url (query : pystr) : pystr :=
  py "https://en.wikipedia.org/api/rest_v1/page/summary/" ++ query.

(** ** Python operations on the decoded value *)

(** The Python type name of a JSON value. *)
Definition json_type (j : json) : pystr :=
  match j with
  | JNull => py "NoneType" | JBool _ => py "bool" | JInt _ => py "int"
  | JFloat => py "float" | JStr _ => py "str" | JArr _ => py "list"
  | JObj _ => py "dict"
  end.

Definition not_iterable (j : json) : pyexn :=
  TypeError (py "argument of type '" ++ json_type j ++ py "' is not iterable").

(** [key in data]. *)
Definition json_in (key : pystr) (data : json) : res bool :=
  match data with
  | JObj kv => Ok (existsb (fun p => bool_decide (p.1 = key)) kv)
  | JArr l => Ok (existsb (fun j => match j with JStr s => bool_decide (s = key) | _ => false end) l)
  | JStr s => Ok (contains key s)
  | _ => Raise (not_iterable data)
  end.

(** A decoded JSON object keeps the last value of a repeated key. *)
Definition obj_lookup (key : pystr) (kv : list (pystr * json)) : option json :=
  fold_left (fun acc p => if bool_decide (p.1 = key) then Some p.2 else acc) kv None.

(** [data[key]] for a string key. *)
Definition json_getitem (key : pystr) (data : json) : res json :=
  match data with
  | JObj kv =>
      match obj_lookup key kv with
      | Some v => Ok v
      | None => Raise (KeyError (py_repr key))   (* unreachable after [in] *)
      end
  | JArr _ => Raise (TypeError (py "list indices must be integers or slices, not str"))
  | JStr _ => Raise (TypeError (py "string indices must be integers, not 'str'"))
  | _ => Raise (TypeError (py "'" ++ json_type data ++ py "' object is not subscriptable"))
  end.

(** [summary.split(sep)]. *)
Definition json_split (sep : pystr) (j : json) : res (list pystr) :=
  match j with
  | JStr s => Ok (split sep s)
  | _ => Raise (AttributeError (py "'" ++ json_type j ++ py "' object has no attribute 'split'"))
  end.

Definition not_found_msg : pystr := py "Sorry, I couldn't find any information on that topic.".
Definition not_understood_msg : pystr := py "Sorry, I didn't understand the question.".

(** The integer value of [re.IGNORECASE]. *)
Definition re_IGNORECASE : Z := 2.

Section WithService.
Context `{SummaryService}.

(** The body of the [try] block of [get_wikipedia_summary]. *)
Definition summary_body (query : pystr) (sentences : nat) : res pystr :=
  match fetch_summary (summary_url query) with
  | FetchRaise msg => Raise (RequestException msg)
  | FetchJson data =>
      json_in (py "extract") data ≫= fun has_extract : bool =>
      if has_extract then
        summary ← json_getitem (py "extract") data;
        parts ← json_split (py ". ") summary;
        mret (join (py ". ") (take sentences parts))
      else mret not_found_msg
  end.

(** [get_wikipedia_summary(query, sentences=2)]: the [except] turns every
    exception into a string. *)
Definition get_wikipedia_summary (query : pystr) : pystr :=
  match summary_body query 2 with
  | Ok s => s
  | Raise e => py "An error occurred: " ++ exn_str e
  end.

(** [command.replace(prefix, '').strip()] *)
Definition subject (prefix command : pystr) : pystr := strip (replace_all prefix [] command).

Definition wiki_answer (command : pystr) : pystr :=
  if contains (py "who is") command then get_wikipedia_summary (subject (py "who is") command)
  else if contains (py "what is") command then get_wikipedia_summary (subject (py "what is") command)
  else if contains (py "where is") command then get_wikipedia_summary (subject (py "where is") command)
  else if contains (py "when is") command then get_wikipedia_summary (subject (py "when is") command)
  else if contains (py "why is") command then get_wikipedia_summary (subject (py "why is") command)
  else if contains (py "tell me about") command then get_wikipedia_summary (subject (py "tell me about") command)
  else if contains (py "what are") command then get_wikipedia_summary (subject (py "what are") command)
  else if contains (py "who are") command then get_wikipedia_summary (subject (py "who are") command)
  else if contains (py "where are") command then get_wikipedia_summary (subject (py "where are") command)
  else if contains (py "when are") command then get_wikipedia_summary (subject (py "when are") command)
  else if contains (py "why are") command then get_wikipedia_summary (subject (py "why are") command)
  else if contains (py "tell me about") command then get_wikipedia_summary (subject (py "tell me about") command)
  else if contains (py "define") (lower command) then
    get_wikipedia_summary (strip (replace (py "define") [] command re_IGNORECASE))
  else not_understood_msg.
End WithService.

(** ** Theorems *)

Lemma obj_fold_Some key kv acc v :
  fold_left (fun acc (p : pystr * json) => if bool_decide (p.1 = key) then Some p.2 else acc) kv acc = Some v ->
  acc = Some v \/ existsb (fun p : pystr * json => bool_decide (p.1 = key)) kv = true.
Proof.
  revert acc; induction kv as [|[k x] kv IH]; intros acc; cbn [fold_left]; [by left|].
  case_bool_decide as Hk; intros Hf.
  - right. apply existsb_exists. exists (k, x). split; [by left | by apply bool_decide_eq_true].
  - destruct (IH _ Hf) as [Ha | Ha]; [by left|].
    right. apply existsb_exists in Ha as (p & Hp & Hb).
    apply existsb_exists. exists p. split; [by right | done].
Qed.

Lemma obj_lookup_in key kv v :
  obj_lookup key kv = Some v -> existsb (fun p : pystr * json => bool_decide (p.1 = key)) kv = true.
Proof. intros H. by destruct (obj_fold_Some key kv None v H). Qed.

(** A service that always fails, and one that always answers with the
    same summary, for concrete runs. *)
Definition offline_service : SummaryService :=
  {| fetch_summary := fun _ => FetchRaise (py "Connection refused") |}.

Definition mock_service (extract : pystr) : SummaryService :=
  {| fetch_summary := fun _ => FetchJson (JObj [(py "extract", JStr extract)]) |}.

Section SummaryTheorems.
Context `{SummaryService}.

(** When the service answers with an object whose [extract] is a
    string, the answer is its first two [". "]-separated sentences. *)
Lemma summary_of_extract q kv s :
  fetch_summary (summary_url q) = FetchJson (JObj kv) ->
  obj_lookup (py "extract") kv = Some (JStr s) ->
  get_wikipedia_summary q = join (py ". ") (take 2 (split (py ". ") s)).
Proof.
  intros Hf Hl. unfold get_wikipedia_summary, summary_body. rewrite Hf. cbn [json_in].
  rewrite (obj_lookup_in _ _ _ Hl). unfold mbind, res_mbind. cbn [res_bind json_getitem].
  rewrite Hl. done.
Qed.

(** C20. The fact answer is a prefix of the service's [extract] text:
    the code truncates, it never adds text. *)
Theorem summary_prefix q kv s :
  fetch_summary (summary_url q) = FetchJson (JObj kv) ->
  obj_lookup (py "extract") kv = Some (JStr s) ->
  exists r, s = get_wikipedia_summary q ++ r.
Proof.
  intros Hf Hl. rewrite (summary_of_extract q kv s Hf Hl).
  destruct (join_take_prefix (py ". ") (split (py ". ") s) 2) as [r Hr].
  exists r. by rewrite <- Hr, join_split.
Qed.

(** The [define] branch passes [re.IGNORECASE] (the integer 2) as
    the [count] of [str.replace], so only the first two occurrences of
    "define" are removed: "define define define x" looks up
    "define x". *)
Theorem wiki_define_count :
  wiki_answer (py "define define define x") = get_wikipedia_summary (py "define x").
Proof. vm_compute. reflexivity. Qed.
(** The question prefixes [wiki_answer] tests, in the order of the code
    (lines 51-73; the repeated "tell me about" is listed once). *)
Definition question_prefixes : list pystr :=
  map py ["who is"; "what is"; "where is"; "when is"; "why is"; "tell me about";
          "what are"; "who are"; "where are"; "when are"; "why are"]%string.

(** The question answered by the table: the first prefix, in order,
    that occurs in the command. *)
Definition first_prefix (command : pystr) : option pystr :=
  find (fun p => contains p command) question_prefixes.

(** C21. [wiki_answer]'s chain of tests is the table lookup of spec
    4.3: the first question prefix present in the command decides the
    subject; with none, "define" (anywhere, in any case) decides; else
    the fixed answer.  The second "tell me about" test (line 73) never
    changes the outcome. *)
Theorem wiki_answer_table command :
  wiki_answer command =
  match first_prefix command with
  | Some p => get_wikipedia_summary (subject p command)
  | None =>
      if contains (py "define") (lower command) then
        get_wikipedia_summary (strip (replace (py "define") [] command re_IGNORECASE))
      else not_understood_msg
  end.
Proof.
  unfold wiki_answer, first_prefix, question_prefixes. cbn [map find].
  repeat match goal with |- context [contains ?q command] => destruct (contains q command) end;
    reflexivity.
Qed.

(** A command with none of the question prefixes and no "define"
    gets "Sorry, I didn't understand the question." whatever the summary
    service answers: the service is not consulted (spec 4.3). *)
Theorem wiki_no_prefix command :
  Forall (fun p => contains p command = false) question_prefixes ->
  contains (py "define") (lower command) = false ->
  wiki_answer command = not_understood_msg.
Proof.
  intros Hp Hd. unfold question_prefixes in Hp. cbn [map] in Hp. rewrite !Forall_cons_iff in Hp. unpack.
  unfold wiki_answer, py in *. cbn [String.list_ascii_of_string] in *.
  repeat match goal with H : contains _ _ = false |- _ => rewrite H end.
  done.
Qed.
End SummaryTheorems.

(** ** Witnesses *)

Definition two_sentences : pystr := py "Gravity is a force. It attracts mass.".

Lemma summary_prefix_witness :
  @fetch_summary (mock_service two_sentences) (summary_url (py "gravity")) =
    FetchJson (JObj [(py "extract", JStr two_sentences)]) /\
  obj_lookup (py "extract") [(py "extract", JStr two_sentences)] = Some (JStr two_sentences) /\
  exists r, two_sentences = @get_wikipedia_summary (mock_service two_sentences) (py "gravity") ++ r.
Proof.
  assert (H1 : @fetch_summary (mock_service two_sentences) (summary_url (py "gravity")) =
    FetchJson (JObj [(py "extract", JStr two_sentences)])) by reflexivity.
  assert (H2 : obj_lookup (py "extract") [(py "extract", JStr two_sentences)] = Some (JStr two_sentences))
    by reflexivity.
  split; [exact H1 | split; [exact H2 | exact (summary_prefix _ _ _ H1 H2)]].
Defined.

Lemma wiki_no_prefix_witness :
  Forall (fun p => contains p (py "hello") = false) question_prefixes /\
  contains (py "define") (lower (py "hello")) = false /\
  @wiki_answer offline_service (py "hello") = not_understood_msg.
Proof.
  assert (H1 : Forall (fun p => contains p (py "hello") = false) question_prefixes)
    by (repeat constructor).
  assert (H2 : contains (py "define") (lower (py "hello")) = false) by reflexivity.
  split; [exact H1 | split; [exact H2 | exact (@wiki_no_prefix offline_service _ H1 H2)]].
Defined.
