(* ===== verification/Api.v ===== *)
(** * Api: the FastAPI handlers and the shared collection (src/api.py lines 28-47, 118-130)

    [schedule_task] classifies the lower-cased query by substring tests in
    the order of the code and turns a [ValueError] into HTTP 400 (any
    other exception would be FastAPI's 500); [get_tasks] lists the
    collection with the ids as strings; [delete_task] removes one document
    by exact task name or answers 404.  A request is one call of a
    handler on the collection; [reachable] is the set of collections a
    sequence of requests can produce from an empty one, and [serve] runs
    a sequence.  The handlers are written against the [CollectionLaws]
    and [SummaryService] interfaces; the theorems that hold for every
    collection are proved there, the concrete runs use [MemColl]. *)

From S2P Require Import Prelude PyStr Regex TimeFormat TaskStore Scheduler FactLookup.

Inductive response :=
| Resp200 (v : pyval)
| HTTPError (status_code : nat) (detail : pystr).

Definition hello_msg : pystr := py "Hello, I am your personal chatbot here to assist you.".
Definition hey_msg : pystr := py "Hey, I am your personal chatbot here to assist you.".
Definition purpose_msg : pystr :=
  py "I am a personal chatbot. I can assist you with scheduling tasks and informing you with general knowledge.".
Definition internal_error : pystr := py "Internal Server Error".
Definition not_found_detail : pystr := py "Task not found".
Definition deleted_msg : pystr := py "Task deleted successfully".

(** [str(ObjectId)]: the id as 24 lowercase hexadecimal digits. *)
Fixpoint hex_fixed (n : nat) (v : N) : pystr :=
  match n with
  | O => []
  | S n' => hex_fixed n' (v / 16)%N ++ [hex_digit (N.to_nat (v mod 16)%N)]
  end.

Definition oid_str (i : N) : pystr := hex_fixed 24 i.

(** [task['_id'] = str(task['_id'])] on a document of [find()]. *)
Definition task_value (s : stored_doc) : pyval :=
  PDict [(py "_id", PStr (oid_str (sd_id s)));
         (py "task", PStr (doc_task (sd_doc s)));
         (py "time", PStr (doc_time (sd_doc s)))].

(** [if "task" in ques or "schedule" in ques or "scheduler" in ques] *)
Definition is_schedule_query (ques : pystr) : bool :=
  contains (py "task") ques || contains (py "schedule") ques || contains (py "scheduler") ques.

(** [elif "hello" in ques and len(ques)==2] *)
Definition is_hello_query (ques : pystr) : bool :=
  contains (py "hello") ques && (length ques =? 2).

Inductive request :=
| PostSchedule (ques : pystr)
| GetTasks
| DeleteTask (task_name : pystr).

Section Handlers.
Context {C : Type} `{CollectionLaws C} `{SummaryService}.

Definition schedule_task (query_ques : pystr) (coll : C) : response * C :=
  let ques := lower query_ques in
  if is_schedule_query ques then
    match task_scheduler ques coll with
    | Ok (result, coll') => (Resp200 result, coll')
    | Raise (ValueError e) => (HTTPError 400 e, coll)
    | Raise _ => (HTTPError 500 internal_error, coll)
    end
  else if is_hello_query ques then (Resp200 (PStr hello_msg), coll)
  else if contains (py "hey") ques then (Resp200 (PStr hey_msg), coll)
  else if contains (py "your purpose") ques then (Resp200 (PStr purpose_msg), coll)
  else (Resp200 (PStr (wiki_answer ques)), coll).

Definition get_tasks (coll : C) : response :=
  Resp200 (PList (map task_value (find_all coll))).

Definition delete_task (task_name : pystr) (coll : C) : response * C :=
  let '(deleted_count, coll') := delete_one task_name coll in
  if deleted_count =? 0 then (HTTPError 404 not_found_detail, coll')
  else (Resp200 (PDict [(py "message", PStr deleted_msg)]), coll').

Definition handle (r : request) (coll : C) : response * C :=
  match r with
  | PostSchedule q => schedule_task q coll
  | GetTasks => (get_tasks coll, coll)
  | DeleteTask name => delete_task name coll
  end.

(** A sequence of requests, one after the other. *)
Fixpoint serve (rs : list request) (coll : C) : list response * C :=
  match rs with
  | [] => ([], coll)
  | r :: rs' =>
      let '(resp, coll') := handle r coll in
      let '(resps, coll'') := serve rs' coll' in
      (resp :: resps, coll'')
  end.

(** The collections the service can reach from an empty one. *)
Inductive reachable : C -> Prop :=
| reach_init coll : contents coll = [] -> reachable coll
| reach_step r coll : reachable coll -> reachable (snd (handle r coll)).

(** Every stored time is in the canonical form. *)
Definition times_canonical (coll : C) : Prop :=
  Forall (fun d => is_canonical_time (doc_time d) = true) (contents coll).
End Handlers.


(** ** What a request does to the collection *)

Lemma Forall_remove_first (P : task_doc -> Prop) name l :
  Forall P l -> Forall P (remove_first name l).
Proof.
  induction 1 as [|d l Hd Hl IH]; simpl; [constructor|].
  destruct (has_task name d); [done | by constructor].
Qed.

Section ApiTheorems.
Context {C : Type} `{CollectionLaws C} `{SummaryService}.

(** The three outcomes of [schedule_task]: an answer with the collection
    unchanged, an error with the collection unchanged, or a new task at
    the end of the collection. *)
Lemma schedule_task_cases q (c : C) :
  (exists v, schedule_task q c = (Resp200 v, c)) \/
  (exists msg, schedule_task q c = (HTTPError 400 msg, c)) \/
  (exists c' d, schedule_task q c = (Resp200 task_scheduled, c') /\
     is_schedule_query (lower q) = true /\ valid_datetime d = true /\
     contents c' = contents c ++ [TaskDoc (task_label (lower q)) (strftime_IMp d)]).
Proof.
  unfold schedule_task. destruct (is_schedule_query (lower q)) eqn:Hq.
  - destruct (task_scheduler (lower q) c) as [[v c']|e] eqn:E.
    + destruct (task_scheduler_Ok_spec _ _ _ _ E) as [-> (d & Hd & Hc)].
      right; right. eauto 10.
    + destruct (task_scheduler_ValueError _ _ _ E) as [msg ->]. right; left. eauto.
  - left. repeat case_if; eauto.
Qed.

Lemma handle_times_canonical r (c : C) :
  times_canonical c -> times_canonical (snd (handle r c)).
Proof.
  unfold times_canonical. intros Hc. destruct r as [q| |name]; simpl.
  - destruct (schedule_task_cases q c) as [[v ->]|[[msg ->]|(c' & d & -> & _ & Hd & Hc')]];
      simpl; [done|done|].
    rewrite Hc'. apply Forall_app. split; [done|]. constructor; [|constructor].
    by apply strftime_is_canonical.
  - done.
  - unfold delete_task. destruct (delete_one name c) as [n c'] eqn:E.
    pose proof (contents_delete_one name c) as Hd. rewrite E in Hd; simpl in Hd.
    destruct (n =? 0); simpl; rewrite Hd; by apply Forall_remove_first.
Qed.

(** C1. Whatever sequence of requests the service has handled since its
    collection was empty, every stored document's time is in the
    canonical ["HH:MM AM"] form. *)
Theorem reachable_times_canonical (c : C) : reachable c -> times_canonical c.
Proof.
  induction 1 as [c Hc|r c _ IH].
  - unfold times_canonical. rewrite Hc. constructor.
  - by apply handle_times_canonical.
Qed.
End ApiTheorems.

Lemma hello_len ques : contains (py "hello") ques = true -> 5 <= length ques.
Proof. intros H%contains_length. done. Qed.

Section ApiTheorems2.
Context {C : Type} `{CollectionLaws C} `{SummaryService}.

(** C10. A failed request leaves the collection as it was, and the
    only error status [schedule_task] produces is 400: [task_scheduler]
    raises nothing but [ValueError], so the 500 branch is dead. *)
Theorem schedule_error_unchanged q (c : C) code msg :
  fst (schedule_task q c) = HTTPError code msg -> code = 400 /\ snd (schedule_task q c) = c.
Proof.
  destruct (schedule_task_cases q c) as [[v ->]|[[m ->]|(c' & d & -> & _)]]; simpl;
    try discriminate. intros [= <- _]. done.
Qed.

(** C11. A request to [schedule_task] that succeeds either leaves the
    collection unchanged or adds exactly one document, whose time is
    canonical. *)
Theorem schedule_ok_store q (c c' : C) v :
  schedule_task q c = (Resp200 v, c') ->
  contents c' = contents c \/
  (v = task_scheduled /\ exists d, is_canonical_time (doc_time d) = true /\
                                   contents c' = contents c ++ [d]).
Proof.
  destruct (schedule_task_cases q c) as [[w ->]|[[m ->]|(c'' & d & -> & _ & Hd & Hc)]];
    intros [= <- <-]; [by left|].
  right. split; [done|]. eexists; split; [|exact Hc]. by apply strftime_is_canonical.
Qed.

(** C22. Queries without a scheduling keyword always get an answer
    (status 200) and never touch the collection: the fact lookup turns
    every failure into a string. *)
Theorem fact_path_total q (c : C) :
  is_schedule_query (lower q) = false -> exists s, schedule_task q c = (Resp200 (PStr s), c).
Proof. intros Hq. unfold schedule_task. rewrite Hq. repeat case_if; eauto. Qed.

(** C14. The ["hello"] branch of [schedule_task] is dead: no string
    contains ["hello"] and has length 2. *)
Theorem hello_branch_dead ques : is_hello_query ques = false.
Proof.
  unfold is_hello_query. destruct (contains (py "hello") ques) eqn:E; [|done].
  apply hello_len in E. simpl. apply Nat.eqb_neq. lia.
Qed.

(** The query "hello" is therefore not greeted: it falls through
    to the fact lookup, which does not understand it. *)
Theorem hello_not_greeted (c : C) :
  schedule_task (py "hello") c = (Resp200 (PStr not_understood_msg), c).
Proof. reflexivity. Qed.

(** "hey" is a substring test: "Who are they?" is answered with
    the greeting instead of a fact lookup. *)
Theorem they_greeted (c : C) :
  schedule_task (py "Who are they?") c = (Resp200 (PStr hey_msg), c).
Proof. reflexivity. Qed.

(** The specification's example: "schedule -submit report at
    5:30 pm" answers [{"task scheduled"}] and inserts
    [{task: "submit report", time: "05:30 PM"}]. *)
Theorem schedule_example (c : C) :
  schedule_task (py "schedule -submit report at 5:30 pm") c =
  (Resp200 task_scheduled, insert_one (TaskDoc (py "submit report") (py "05:30 PM")) c).
Proof. vm_compute. reflexivity. Qed.

Lemma delete_task_result name (c c' : C) r :
  delete_task name c = (r, c') ->
  contents c' = remove_first name (contents c) /\
  r = if existsb (has_task name) (contents c) then Resp200 (PDict [(py "message", PStr deleted_msg)])
      else HTTPError 404 not_found_detail.
Proof.
  unfold delete_task. pose proof (deleted_count name c) as Hn.
  pose proof (contents_delete_one name c) as Hd.
  destruct (delete_one name c) as [n c''] eqn:E; simpl in Hn, Hd. subst n.
  destruct (existsb (has_task name) (contents c)); simpl; intros [= <- <-]; split; done.
Qed.

(** C18. Round trip: a document inserted into the collection is listed
    by [get_tasks] as a dict with its id as a string and the task and
    time that were inserted. *)
Theorem insert_then_get_tasks d (c : C) :
  exists i l, get_tasks (insert_one d c) = Resp200 (PList l) /\
    In (PDict [(py "_id", PStr (oid_str i)); (py "task", PStr (doc_task d)); (py "time", PStr (doc_time d))]) l.
Proof.
  pose proof (contents_insert_one d c) as Hc. unfold contents in Hc.
  assert (In d (map sd_doc (find_all (insert_one d c)))) as Hin
    by (rewrite Hc; apply in_app_iff; right; by left).
  apply in_map_iff in Hin as ([i d'] & Hd & Hin). simpl in Hd; subst d'.
  exists i, (map task_value (find_all (insert_one d c))). split; [done|].
  exact (in_map task_value _ _ Hin).
Qed.

(** C19. Round trip: inserting a document under a new task name and
    deleting that name answers 200 and gives the collection's contents
    back. *)
Theorem insert_then_delete d (c : C) :
  existsb (has_task (doc_task d)) (contents c) = false ->
  fst (delete_task (doc_task d) (insert_one d c)) = Resp200 (PDict [(py "message", PStr deleted_msg)]) /\
  contents (snd (delete_task (doc_task d) (insert_one d c))) = contents c.
Proof.
  intros Hnew. destruct (delete_task (doc_task d) (insert_one d c)) as [r c'] eqn:E.
  apply delete_task_result in E as [Hc Hr]. rewrite contents_insert_one in Hc, Hr.
  assert (Hrf : forall l, existsb (has_task (doc_task d)) l = false ->
            remove_first (doc_task d) (l ++ [d]) = l).
  { induction l as [|x l IH]; simpl.
    - intros _. unfold has_task. by rewrite bool_decide_eq_true_2.
    - destruct (has_task (doc_task d) x); [done|]. simpl. intros Hl. by rewrite IH. }
  rewrite Hrf in Hc by done. rewrite existsb_app in Hr. simpl in Hr.
  unfold has_task at 2 in Hr. rewrite bool_decide_eq_true_2 in Hr by done.
  rewrite orb_true_r in Hr. by subst.
Qed.

(** C17. [delete_task]: the first document with that exact task name is
    removed, and the answer is 404 ["Task not found"] exactly when there
    was none (the collection is then unchanged). *)
Theorem delete_task_spec name (c c' : C) r :
  delete_task name c = (r, c') ->
  contents c' = remove_first name (contents c) /\
  r = if existsb (has_task name) (contents c) then Resp200 (PDict [(py "message", PStr deleted_msg)])
      else HTTPError 404 not_found_detail.
Proof. apply delete_task_result. Qed.
(** C31. Stored labels come from the lower-cased query, but
    [delete_task] compares names exactly: after "schedule -Gym at 5:30 pm"
    the label is "gym", and deleting "Gym" answers 404. *)
Theorem delete_case_mismatch (c : C) :
  existsb (has_task (py "Gym")) (contents c) = false ->
  fst (delete_task (py "Gym") (snd (schedule_task (py "schedule -Gym at 5:30 pm") c))) =
  HTTPError 404 not_found_detail.
Proof.
  intros Hn.
  assert (E : schedule_task (py "schedule -Gym at 5:30 pm") c =
    (Resp200 task_scheduled, insert_one (TaskDoc (py "gym") (py "05:30 PM")) c)) by (vm_compute; reflexivity).
  rewrite E; cbn [snd]. destruct (delete_task _ _) as [r c'] eqn:D. apply delete_task_result in D as [_ ->].
  by rewrite contents_insert_one, existsb_app, Hn.
Qed.
End ApiTheorems2.

(** ** Object ids as strings *)

Lemma hex_digit_inj a b : a < 16 -> b < 16 -> hex_digit a = hex_digit b -> a = b.
Proof.
  intros Ha Hb Hab.
  assert (In a (seq 0 16)) as Ia by (apply in_seq; lia).
  assert (In b (seq 0 16)) as Ib by (apply in_seq; lia).
  simpl in Ia, Ib. destruct_or!; subst; vm_compute in Hab; congruence.
Qed.

Lemma hex_fixed_inj n v w : hex_fixed n v = hex_fixed n w -> (v mod 16 ^ N.of_nat n = w mod 16 ^ N.of_nat n)%N.
Proof.
  revert v w; induction n as [|n IH]; intros v w; simpl.
  - intros _. by rewrite !N.mod_1_r.
  - intros [Hh Hd]%app_inj_tail.
    apply hex_digit_inj in Hd; [|pose proof (N.mod_lt v 16); lia | pose proof (N.mod_lt w 16); lia].
    apply N2Nat.inj in Hd. apply IH in Hh.
    rewrite Nat2N.inj_succ, N.pow_succ_r', !N.Div0.mod_mul_r. by rewrite Hd, Hh.
Qed.

(** [str(ObjectId)] is injective on 96-bit ids, so [get_tasks]
    shows distinct documents with distinct id strings. *)
Theorem oid_str_injective i j :
  (i < 16 ^ 24)%N -> (j < 16 ^ 24)%N -> oid_str i = oid_str j -> i = j.
Proof.
  intros Hi Hj H. apply hex_fixed_inj in H. simpl in H.
  by rewrite !N.mod_small in H by done.
Qed.

(** A lowercase hexadecimal digit. *)
Definition is_hex_lower (c : ascii) : bool :=
  is_digit c || ((97 <=? code c) && (code c <=? 102)).

Lemma hex_digit_lower n : n < 16 -> is_hex_lower (hex_digit n) = true.
Proof.
  intros Hn. assert (In n (seq 0 16)) as Hin by (apply in_seq; lia).
  simpl in Hin. destruct_or!; subst; reflexivity.
Qed.

Lemma hex_fixed_shape n v : length (hex_fixed n v) = n /\ forallb is_hex_lower (hex_fixed n v) = true.
Proof.
  revert v; induction n as [|n IH]; intros v; [done|]. simpl.
  destruct (IH (v / 16)%N) as [Hl Hf]. rewrite length_app, forallb_app, Hl, Hf. simpl.
  rewrite hex_digit_lower; [split; [lia | done]|].
  pose proof (N.mod_lt v 16 ltac:(lia)). lia.
Qed.

Section ListingShape.
Context {C : Type} `{CollectionLaws C}.

(** C27. The type of the [GET /tasks/] answer: a list with one entry per
    stored document, each a dict with exactly the keys ["_id"], ["task"]
    and ["time"] in that order, all strings, the id being 24 lowercase
    hexadecimal digits. *)
Theorem get_tasks_shape (c : C) :
  exists l, get_tasks c = Resp200 (PList l) /\ length l = length (contents c) /\
    Forall (fun v => exists i t tm,
      v = PDict [(py "_id", PStr i); (py "task", PStr t); (py "time", PStr tm)] /\
      length i = 24 /\ forallb is_hex_lower i = true) l.
Proof.
  exists (map task_value (find_all c)). split; [done|]. split.
  - unfold contents. by rewrite !length_map.
  - apply Forall_forall. intros v ([i d] & <- & _)%in_map_iff.
    exists (oid_str i), (doc_task d), (doc_time d). split; [done|]. apply hex_fixed_shape.
Qed.
End ListingShape.

(** ** Runs of the service *)

Section Runs.
Context {C : Type} `{CollectionLaws C} `{SummaryService}.

Lemma serve_reachable rs (c : C) : reachable c -> reachable (snd (serve rs c)).
Proof.
  revert c; induction rs as [|r rs IH]; intros c Hc; simpl; [done|].
  destruct (handle r c) as [resp c'] eqn:E. destruct (serve rs c') as [resps c''] eqn:E2.
  simpl. replace c'' with (snd (serve rs c')) by (by rewrite E2). apply IH.
  replace c' with (snd (handle r c)) by (by rewrite E). by constructor.
Qed.

(** The collection after a request is the old one, one insertion into
    it, or one [delete_one] on it. *)
Lemma handle_coll r (c : C) :
  snd (handle r c) = c \/ (exists d, snd (handle r c) = insert_one d c) \/
  (exists name, snd (handle r c) = snd (delete_one name c)).
Proof.
  destruct r as [q| |name]; simpl.
  - unfold schedule_task. repeat case_if; simpl; try by left.
    destruct (task_scheduler _ c) as [[v c']|[]] eqn:Ets; simpl; try by left.
    apply task_scheduler_inserts in Ets as [d ->]. right; left; eauto.
  - by left.
  - unfold delete_task. right; right. exists name.
    destruct (delete_one name c) as [n c']; simpl. by case_if.
Qed.
End Runs.

(** The list implementation keeps distinct ids below its counter in
    every reachable state. *)
Theorem mem_reachable_ids_ok `{SummaryService} (c : mem_coll) : reachable c -> ids_ok c.
Proof.
  induction 1 as [c Hc|r c _ IH].
  - unfold contents in Hc; simpl in Hc. apply map_eq_nil in Hc.
    unfold ids_ok. rewrite Hc. split; constructor.
  - destruct (handle_coll r c) as [->|[[d ->]|[name ->]]]; [done | by apply ids_ok_insert |].
    by apply ids_ok_delete.
Qed.

(** ** Witnesses *)

#[local] Existing Instance offline_service.

Definition gym_query : pystr := py "schedule -gym at 7:05 am".
Definition gym_doc : task_doc := TaskDoc (py "gym") (py "07:05 AM").

Lemma reachable_times_canonical_witness :
  reachable (snd (handle (PostSchedule gym_query) mem_empty)) /\
  times_canonical (snd (handle (PostSchedule gym_query) mem_empty)).
Proof.
  assert (Hr : reachable (snd (handle (PostSchedule gym_query) mem_empty)))
    by (apply reach_step, reach_init; reflexivity).
  split; [exact Hr | exact (reachable_times_canonical _ Hr)].
Defined.

Lemma schedule_error_unchanged_witness :
  fst (schedule_task (py "schedule -gym") mem_empty) = HTTPError 400 no_time_msg /\
  400 = 400 /\ snd (schedule_task (py "schedule -gym") mem_empty) = mem_empty.
Proof.
  assert (H : fst (schedule_task (py "schedule -gym") mem_empty) = HTTPError 400 no_time_msg)
    by (vm_compute; reflexivity).
  split; [exact H | exact (schedule_error_unchanged _ _ _ _ H)].
Defined.

Lemma schedule_ok_store_witness :
  schedule_task gym_query mem_empty = (Resp200 task_scheduled, mem_insert gym_doc mem_empty) /\
  (contents (mem_insert gym_doc mem_empty) = contents mem_empty \/
   (task_scheduled = task_scheduled /\ exists d, is_canonical_time (doc_time d) = true /\
      contents (mem_insert gym_doc mem_empty) = contents mem_empty ++ [d])).
Proof.
  assert (H : schedule_task gym_query mem_empty = (Resp200 task_scheduled, mem_insert gym_doc mem_empty))
    by (vm_compute; reflexivity).
  split; [exact H | exact (schedule_ok_store _ _ _ _ H)].
Defined.

Lemma delete_task_spec_witness :
  delete_task (py "gym") (mem_insert gym_doc mem_empty) =
    (Resp200 (PDict [(py "message", PStr deleted_msg)]), MemColl [] 1) /\
  contents (MemColl [] 1) = remove_first (py "gym") (contents (mem_insert gym_doc mem_empty)) /\
  Resp200 (PDict [(py "message", PStr deleted_msg)]) =
    (if existsb (has_task (py "gym")) (contents (mem_insert gym_doc mem_empty))
     then Resp200 (PDict [(py "message", PStr deleted_msg)]) else HTTPError 404 not_found_detail).
Proof.
  assert (H : delete_task (py "gym") (mem_insert gym_doc mem_empty) =
    (Resp200 (PDict [(py "message", PStr deleted_msg)]), MemColl [] 1)) by (vm_compute; reflexivity).
  split; [exact H | exact (delete_task_spec _ _ _ _ H)].
Defined.

Lemma insert_then_delete_witness :
  existsb (has_task (doc_task gym_doc)) (contents mem_empty) = false /\
  fst (delete_task (doc_task gym_doc) (insert_one gym_doc mem_empty)) =
    Resp200 (PDict [(py "message", PStr deleted_msg)]) /\
  contents (snd (delete_task (doc_task gym_doc) (insert_one gym_doc mem_empty))) = contents mem_empty.
Proof.
  assert (H : existsb (has_task (doc_task gym_doc)) (contents mem_empty) = false) by reflexivity.
  split; [exact H | exact (insert_then_delete _ _ H)].
Defined.

Lemma fact_path_total_witness :
  is_schedule_query (lower (py "What is gravity")) = false /\
  exists s, schedule_task (py "What is gravity") mem_empty = (Resp200 (PStr s), mem_empty).
Proof.
  assert (H : is_schedule_query (lower (py "What is gravity")) = false) by reflexivity.
  split; [exact H | exact (fact_path_total _ _ H)].
Defined.

Lemma mem_reachable_ids_ok_witness :
  reachable (snd (handle (PostSchedule gym_query) mem_empty)) /\
  ids_ok (snd (handle (PostSchedule gym_query) mem_empty)).
Proof.
  assert (Hr : reachable (snd (handle (PostSchedule gym_query) mem_empty)))
    by (apply reach_step, reach_init; reflexivity).
  split; [exact Hr | exact (mem_reachable_ids_ok _ Hr)].
Defined.

Lemma oid_str_injective_witness :
  (5 < 16 ^ 24)%N /\ oid_str 5 = oid_str 5 /\ 5%N = 5%N.
Proof.
  assert (H1 : (5 < 16 ^ 24)%N) by (vm_compute; reflexivity).
  assert (H2 : oid_str 5 = oid_str 5) by reflexivity.
  split; [exact H1 | split; [exact H2 | exact (oid_str_injective 5 5 H1 H1 H2)]].
Defined.

Lemma delete_case_mismatch_witness :
  existsb (has_task (py "Gym")) (contents mem_empty) = false /\
  fst (delete_task (py "Gym") (snd (schedule_task (py "schedule -Gym at 5:30 pm") mem_empty))) =
  HTTPError 404 not_found_detail.
Proof.
  assert (H : existsb (has_task (py "Gym")) (contents mem_empty) = false) by reflexivity.
  split; [exact H | exact (delete_case_mismatch _ H)].
Defined.
