(* ===== verification/Client.v ===== *)
(** * Client: the Streamlit page of src/api.py ([main], lines 150-199)

    The page has two parts, run top to bottom on every rerun.  The query
    form (lines 161-174) posts the query to [/schedule_task/] when it is
    submitted and shows the JSON answer with [st.success], or the
    [detail] of an error answer with [st.error].  The "Planned
    Activities" part (lines 176-199) requests [GET /tasks/], shows one
    checkbox per listed task labelled [Task: <task> at <time>], collects
    the [task] fields of the checked ones, and when "Completed Task" is
    pressed sends one [DELETE /delete_task/?task_name=...] per collected
    name, in order, reporting each answer.  The requests are calls of the
    handlers of [Api] on the shared collection, so what the form inserts
    is listed by the second part of the same run.  The query text, the
    submit and "Completed Task" buttons and the checkbox states are the
    inputs; the output is the sequence of elements the page writes
    (headings, success, error and plain messages, checkboxes).  The page
    title, the instructions expander and the footer around it are in
    [Process]. *)

From S2P Require Import Prelude PyStr TaskStore Scheduler FactLookup Api.

(** What the page writes: [st.markdown] of a heading, [st.success],
    [st.error] and [st.write] of a value, a checkbox with its label,
    [st.title], an [st.expander] with what is written inside it, the
    page settings of [st.set_page_config], and the exception that stops
    a run (Streamlit shows it in place). *)
Inductive ui_msg :=
| UiMarkdown (html : pystr)
| UiSuccess (v : pyval)
| UiError (v : pyval)
| UiWrite (v : pyval)
| UiCheckbox (label : pystr)
| UiTitle (text : pystr)
| UiExpander (label : pystr) (body : list ui_msg)
| UiPageConfig (page_title page_icon layout : pystr)
| UiException (e : pyexn).

(** [section_title(title, color)] (lines 150-151). *)
Definition section_title (title color : pystr) : ui_msg :=
  UiMarkdown (py "<h2 style='color: " ++ color ++ py ";'>" ++ title ++ py "</h2>").

(** [response.status_code]. *)
Definition status_code (r : response) : nat :=
  match r with Resp200 _ => 200 | HTTPError code _ => code end.

(** FastAPI's encoding of a returned value: a set becomes a list (the
    handlers only return the one-element set [{"task scheduled"}], so
    the order of a set does not arise). *)
Fixpoint jsonable (v : pyval) : pyval :=
  match v with
  | PStr s => PStr s
  | PSet l => PList (map PStr l)
  | PList l => PList (map jsonable l)
  | PDict kv => PDict (map (fun p => (p.1, jsonable p.2)) kv)
  end.

(** [response.json()] on the client: the encoded value of a 200 answer,
    [{"detail": ...}] for an [HTTPException], and a decoding error for
    FastAPI's plain-text 500 page. *)
Definition response_json (r : response) : res pyval :=
  match r with
  | Resp200 v => Ok (jsonable v)
  | HTTPError 500 _ => Raise (ValueError (py "Expecting value: line 1 column 1 (char 0)"))
  | HTTPError _ detail => Ok (PDict [(py "detail", PStr detail)])
  end.

(** A key of a decoded JSON object (keys are unique). *)
Fixpoint dict_get (k : pystr) (kv : list (pystr * pyval)) : option pyval :=
  match kv with
  | [] => None
  | (k', v) :: r => if bool_decide (k' = k) then Some v else dict_get k r
  end.

(** [value[k]] on a decoded value. *)
Definition getitem (k : pystr) (v : pyval) : res pyval :=
  match v with
  | PDict kv => match dict_get k kv with Some x => Ok x | None => Raise (KeyError (py_repr k)) end
  | PStr _ => Raise (TypeError (py "string indices must be integers, not 'str'"))
  | PList _ | PSet _ => Raise (TypeError (py "list indices must be integers or slices, not str"))
  end.

(** A string field of a listed task.  The listing of [get_tasks] only
    has string fields; a value of another type, which [requests] would
    convert to a parameter in its own way, is not modelled and raises. *)
Definition task_field (k : pystr) (task : pyval) : res pystr :=
  v ← getitem k task;
  match v with PStr s => Ok s | _ => Raise (TypeError (py "not a string")) end.

(** [f"Task: {task['task']} at {task['time']}"] *)
Definition checkbox_label (task time : pystr) : pystr := py "Task: " ++ task ++ py " at " ++ time.

(** Lines 182-187: one checkbox per task, and the [task] fields of the
    checked ones.  [checked] gives the state of the boxes in order
    (missing ones are unchecked). *)
Fixpoint selected_tasks (tasks : list pyval) (checked : list bool) : res (list ui_msg * list pystr) :=
  match tasks with
  | [] => Ok ([], [])
  | task :: rest =>
      name ← task_field (py "task") task;
      time ← task_field (py "time") task;
      rows ← selected_tasks rest (tail checked);
      Ok (UiCheckbox (checkbox_label name time) :: rows.1,
          if default false (head checked) then name :: rows.2 else rows.2)
  end.

Definition deleted_prefix : pystr := py "Deleted task: ".
Definition failed_prefix : pystr := py "Failed to delete task: ".
Definition no_tasks_msg : pystr := py "No tasks available for management.".
Definition retrieve_failed_msg : pystr := py "Failed to retrieve tasks.".
Definition planned_heading : ui_msg := section_title (py "Planned Activities") (py "#32CD32").
Definition talk_heading : ui_msg := section_title (py "talk to me buddy") (py "#FF6347").

Section Client.
Context {C : Type} `{CollectionLaws C} `{SummaryService}.

(** Lines 161-174: the query form. *)
Definition query_form (ques : pystr) (submit_button : bool) (coll : C) : res (list ui_msg * C) :=
  if submit_button then
    let '(response, coll') := schedule_task ques coll in
    body ← response_json response;
    if status_code response =? 200 then Ok ([talk_heading; UiSuccess body], coll')
    else detail ← getitem (py "detail") body; Ok ([talk_heading; UiError detail], coll')
  else Ok ([talk_heading], coll).

(** Lines 190-195: one DELETE request per selected name, in order. *)
Fixpoint complete_tasks (selected : list pystr) (coll : C) : list ui_msg * C :=
  match selected with
  | [] => ([], coll)
  | task_name :: rest =>
      let '(delete_response, coll') := delete_task task_name coll in
      let msg := if status_code delete_response =? 200 then UiSuccess (PStr (deleted_prefix ++ task_name))
                 else UiError (PStr (failed_prefix ++ task_name)) in
      let '(msgs, coll'') := complete_tasks rest coll' in
      (msg :: msgs, coll'')
  end.

(** Lines 176-199 for given checkbox states and button press.  A 200
    answer of [get_tasks] is always a list; any other answer is the
    error branch. *)
Definition planned_activities (checked : list bool) (completed : bool) (coll : C)
    : res (list ui_msg * C) :=
  match get_tasks coll with
  | Resp200 (PList []) => Ok ([planned_heading; UiWrite (PStr no_tasks_msg)], coll)
  | Resp200 (PList tasks) =>
      rows ← selected_tasks tasks checked;
      if completed then
        let '(msgs, coll') := complete_tasks rows.2 coll in
        Ok (planned_heading :: rows.1 ++ msgs, coll')
      else Ok (planned_heading :: rows.1, coll)
  | _ => Ok ([planned_heading; UiError (PStr retrieve_failed_msg)], coll)
  end.

(** Lines 161-199: one run of the page, the form first. *)
Definition page (ques : pystr) (submit_button : bool) (checked : list bool) (completed : bool)
    (coll : C) : res (list ui_msg * C) :=
  form ← query_form ques submit_button coll;
  tasks ← planned_activities checked completed form.2;
  Ok (form.1 ++ tasks.1, tasks.2).
End Client.

(** ** Theorems *)

(** The names of the documents whose box is checked, in order. *)
Fixpoint checked_names (l : list task_doc) (checked : list bool) : list pystr :=
  match l with
  | [] => []
  | d :: r =>
      if default false (head checked) then doc_task d :: checked_names r (tail checked)
      else checked_names r (tail checked)
  end.

Definition doc_checkbox (d : task_doc) : ui_msg := UiCheckbox (checkbox_label (doc_task d) (doc_time d)).

Lemma checked_names_sublist l checked : checked_names l checked `sublist_of` map doc_task l.
Proof.
  revert checked; induction l as [|d l IH]; intros checked; simpl; [done|].
  destruct (default false (head checked)); [apply sublist_skip | apply sublist_cons]; apply IH.
Qed.

(** On a listing of [get_tasks] the selection never raises: it shows one
    box per document and picks the names of the checked ones. *)
Lemma selected_of_listing l checked :
  selected_tasks (map task_value l) checked =
  Ok (map doc_checkbox (map sd_doc l), checked_names (map sd_doc l) checked).
Proof.
  revert checked; induction l as [|s l IH]; intros checked; simpl; [done|].
  rewrite IH. unfold mbind, res_mbind; simpl. by destruct (default false (head checked)).
Qed.

Section ClientTheorems.
Context {C : Type} `{CollectionLaws C} `{SummaryService}.

(** Deleting names taken from the contents in order: every request
    answers 200 and each removes one document. *)
Lemma complete_tasks_sublist sel (c : C) :
  sel `sublist_of` map doc_task (contents c) ->
  fst (complete_tasks sel c) = map (fun n => UiSuccess (PStr (deleted_prefix ++ n))) sel /\
  length (contents c) = length (contents (snd (complete_tasks sel c))) + length sel.
Proof.
  revert c; induction sel as [|x r IH]; intros c Hs; simpl; [split; [done | lia]|].
  destruct (remove_first_sublist _ _ _ Hs) as [Hx Hr].
  destruct (delete_task x c) as [resp c'] eqn:E.
  apply delete_task_result in E as [Hc ->]. rewrite Hx. cbn [status_code Nat.eqb].
  rewrite <- Hc in Hr. destruct (IH c' Hr) as [Hm Hl].
  destruct (complete_tasks r c') as [msgs c''] eqn:E2; simpl in *.
  rewrite Hm. split; [done|]. rewrite (remove_first_length x (contents c) Hx), <- Hc, Hl. lia.
Qed.

(** The task section on a non-empty collection: the heading, one box
    per document, and, when "Completed Task" is pressed, the answers of
    the deletions of the checked names. *)
Lemma planned_activities_listing checked completed (c : C) :
  contents c <> [] ->
  planned_activities checked completed c =
  Ok (if completed then
        (planned_heading :: map doc_checkbox (contents c) ++
           fst (complete_tasks (checked_names (contents c) checked) c),
         snd (complete_tasks (checked_names (contents c) checked) c))
      else (planned_heading :: map doc_checkbox (contents c), c)).
Proof.
  unfold contents. intros Hne. unfold planned_activities, get_tasks.
  pose proof (selected_of_listing (find_all c) checked) as Hsel.
  destruct (map task_value (find_all c)) as [|t ts] eqn:Em.
  - apply map_eq_nil in Em. by rewrite Em in Hne.
  - rewrite Hsel. unfold mbind, res_mbind; simpl.
    destruct completed; [|done]. by destruct (complete_tasks _ c).
Qed.

Lemma planned_activities_empty checked completed (c : C) :
  contents c = [] ->
  planned_activities checked completed c = Ok ([planned_heading; UiWrite (PStr no_tasks_msg)], c).
Proof.
  unfold contents, planned_activities, get_tasks. intros He.
  apply map_eq_nil in He. by rewrite He.
Qed.

(** The task section always answers, and without "Completed Task" it
    leaves the collection alone. *)
Lemma planned_activities_shape checked completed (c : C) :
  exists out c', planned_activities checked completed c = Ok (out, c') /\ (completed = false -> c' = c).
Proof.
  destruct (decide (contents c = [])) as [He|Hne].
  - rewrite planned_activities_empty by done. by eexists _, _.
  - rewrite planned_activities_listing by done. destruct completed; by eexists _, _.
Qed.

(** C25. Pressing "Completed Task" deletes exactly the checked tasks:
    the page shows one box per stored document, every DELETE answers 200
    and is reported as deleted, one message per checked box in listing
    order, and the collection loses one document per checked box (also
    when checked tasks share a name). *)
Theorem complete_checked_tasks checked (c c' : C) msgs :
  contents c <> [] ->
  planned_activities checked true c = Ok (msgs, c') ->
  msgs = planned_heading :: map doc_checkbox (contents c) ++
           map (fun n => UiSuccess (PStr (deleted_prefix ++ n))) (checked_names (contents c) checked) /\
  length (contents c) = length (contents c') + length (checked_names (contents c) checked).
Proof.
  intros Hne. rewrite planned_activities_listing by done. intros [= <- <-].
  destruct (complete_tasks_sublist (checked_names (contents c) checked) c) as [-> Hl];
    [apply checked_names_sublist | done].
Qed.

(** The task section never raises: on any collection, for any
    checkbox states and button press, the fields it reads are present
    strings. *)
Theorem planned_activities_total checked completed (c : C) :
  exists out, planned_activities checked completed c = Ok out.
Proof. destruct (planned_activities_shape checked completed c) as (out & c' & -> & _). by eexists. Qed.


(** Without "Completed Task" the task section changes nothing. *)
Lemma planned_view checked (c : C) : exists out, planned_activities checked false c = Ok (out, c).
Proof.
  destruct (planned_activities_shape checked false c) as (out & c' & -> & Hc).
  rewrite Hc by done. by eexists.
Qed.

(** The form always answers: [schedule_task] never gives the 500 page
    that [response.json()] could not decode. *)
Lemma query_form_total ques submit_button (c : C) :
  exists r, query_form ques submit_button c = Ok r.
Proof.
  unfold query_form. destruct submit_button; [|by eexists].
  destruct (schedule_task_cases ques c) as [[v E]|[[m E]|(c' & d & E & _)]]; rewrite E;
    unfold mbind, res_mbind; simpl; by eexists.
Qed.

(** A run of the page never raises. *)
Lemma page_total ques submit_button checked completed (c : C) :
  exists r, page ques submit_button checked completed c = Ok r.
Proof.
  unfold page. destruct (query_form_total ques submit_button c) as [[out c'] ->].
  unfold mbind, res_mbind; simpl. destruct (planned_activities_shape checked completed c') as (out' & c'' & -> & _).
  by eexists.
Qed.

(** The answer [{"task scheduled"}] only comes with one new document. *)
Lemma schedule_task_scheduled ques (c : C) :
  fst (schedule_task ques c) = Resp200 task_scheduled ->
  exists d, contents (snd (schedule_task ques c)) = contents c ++ [d].
Proof.
  unfold schedule_task. destruct (is_schedule_query (lower ques)).
  - destruct (task_scheduler (lower ques) c) as [[v c']|e] eqn:E; [|by destruct e].
    destruct (task_scheduler_Ok_spec _ _ _ _ E) as [_ (d & _ & Hc)]. eauto.
  - repeat case_if; discriminate.
Qed.

(** C29. The page runs the form before the task section: when a query
    is scheduled, the same run shows the confirmation (the set
    [{"task scheduled"}] arrives as the JSON list [["task scheduled"]])
    and lists the new task among the checkboxes. *)
Theorem page_lists_scheduled ques checked (c : C) :
  fst (schedule_task ques c) = Resp200 task_scheduled ->
  exists out d, page ques true checked false c = Ok (out, snd (schedule_task ques c)) /\
    contents (snd (schedule_task ques c)) = contents c ++ [d] /\
    In (UiSuccess (PList [PStr (py "task scheduled")])) out /\ In (doc_checkbox d) out.
Proof.
  intros Hr. destruct (schedule_task_scheduled ques c Hr) as [d Hd].
  unfold page, query_form. destruct (schedule_task ques c) as [resp c'] eqn:E.
  simpl in Hr, Hd |- *. subst resp. unfold mbind, res_mbind; simpl.
  rewrite planned_activities_listing by (rewrite Hd; by destruct (contents c)). simpl.
  exists ([talk_heading; UiSuccess (PList [PStr (py "task scheduled")])] ++
            planned_heading :: map doc_checkbox (contents c')), d.
  split; [done|]. split; [done|]. split; [by right; left|].
  apply in_app_iff; right; right. rewrite Hd, map_app. apply in_app_iff; right; by left.
Qed.

(** C30. A rejected query is shown as an error with the handler's
    detail, and the run leaves the collection as it was. *)
Theorem page_shows_rejection ques checked (c : C) msg :
  fst (schedule_task ques c) = HTTPError 400 msg ->
  exists out, page ques true checked false c = Ok (talk_heading :: UiError (PStr msg) :: out, c).
Proof.
  intros Hr. destruct (schedule_task_cases ques c) as [[v E]|[[m E]|(c' & d & E & _)]];
    rewrite E in Hr; simpl in Hr; try discriminate.
  injection Hr as <-. unfold page, query_form. rewrite E. unfold mbind, res_mbind; simpl.
  destruct (planned_view checked c) as [out ->]. by exists out.
Qed.
End ClientTheorems.

(** ** Witnesses *)

(** Two documents with the same task name, both checked. *)
Definition two_gyms : mem_coll := mem_insert gym_doc (mem_insert gym_doc mem_empty).

Definition two_gyms_out : list ui_msg :=
  [planned_heading; doc_checkbox gym_doc; doc_checkbox gym_doc;
   UiSuccess (PStr (deleted_prefix ++ py "gym")); UiSuccess (PStr (deleted_prefix ++ py "gym"))].

Lemma complete_checked_tasks_witness :
  contents two_gyms <> [] /\
  planned_activities [true; true] true two_gyms = Ok (two_gyms_out, MemColl [] 2) /\
  two_gyms_out = planned_heading :: map doc_checkbox (contents two_gyms) ++
    map (fun n => UiSuccess (PStr (deleted_prefix ++ n))) (checked_names (contents two_gyms) [true; true]) /\
  length (contents two_gyms) = length (contents (MemColl [] 2)) + length (checked_names (contents two_gyms) [true; true]).
Proof.
  assert (H1 : contents two_gyms <> []) by (vm_compute; discriminate).
  assert (H2 : planned_activities [true; true] true two_gyms = Ok (two_gyms_out, MemColl [] 2))
    by (vm_compute; reflexivity).
  split; [exact H1 | split; [exact H2 | exact (complete_checked_tasks _ _ _ _ H1 H2)]].
Defined.

#[local] Existing Instance offline_service.

Lemma page_lists_scheduled_witness :
  fst (schedule_task gym_query mem_empty) = Resp200 task_scheduled /\
  exists out d, page gym_query true [] false mem_empty = Ok (out, snd (schedule_task gym_query mem_empty)) /\
    contents (snd (schedule_task gym_query mem_empty)) = contents mem_empty ++ [d] /\
    In (UiSuccess (PList [PStr (py "task scheduled")])) out /\ In (doc_checkbox d) out.
Proof.
  assert (H : fst (schedule_task gym_query mem_empty) = Resp200 task_scheduled) by (vm_compute; reflexivity).
  split; [exact H | exact (page_lists_scheduled _ [] _ H)].
Defined.

Definition no_space_query : pystr := py "schedule -gym at 5:30pm".
Definition no_space_msg : pystr := py "time data '5:30PM' does not match format '%I:%M %p'".

Lemma page_shows_rejection_witness :
  fst (schedule_task no_space_query mem_empty) = HTTPError 400 no_space_msg /\
  exists out, page no_space_query true [] false mem_empty =
    Ok (talk_heading :: UiError (PStr no_space_msg) :: out, mem_empty).
Proof.
  assert (H : fst (schedule_task no_space_query mem_empty) = HTTPError 400 no_space_msg)
    by (vm_compute; reflexivity).
  split; [exact H | exact (page_shows_rejection _ [] _ _ H)].
Defined.
