(* ===== verification/Service.v ===== *)
(** * Service: the specification of the service and its refinement

    The specification (spec sections 3, 4.4 and 6) describes the service
    on a list of task records, without ids, as a relation [spec_step]
    between a request, the records before, the answer and the records
    after:
    - a query without a scheduling keyword gets some 200 string answer
      and leaves the records alone (the specification fixes the greeting
      and fact answers only loosely);
    - a scheduling query appends the record the extractor produces and
      answers [{"task scheduled"}], or answers 400 with the extractor's
      [ValueError] message and leaves the records alone;
    - the listing answers the records in order, each with a string [_id];
    - a deletion removes the first record with that name and answers 200,
      or answers 404 when there is none.
    [spec_run] chains steps.  The refinement theorems show that the
    handlers of [Api], over any collection satisfying [CollectionLaws],
    only take steps the specification allows, with [contents] as the
    abstraction of the collection.

    The extractor in these steps is the code's own extraction
    ([extract_task], the part of [task_scheduler] before [insert_one]),
    not the text of spec 4.2: where the two differ (the label ending at
    [\sat] inside a word, strptime's message for an unparsable time)
    the differences are findings proved in [Scheduler] and [TimeFormat].
    What the refinement checks is the rest: what is stored, in which
    order, which answer comes with which change, the listing without
    ids, and deletion by first exact match. *)

From S2P Require Import Prelude PyStr Regex TimeFormat TaskStore Scheduler FactLookup Api.

(** The extractor of spec 4.2, [extract(query) -> TaskRecord], as the
    code implements it: the part of [task_scheduler] before
    [insert_one]. *)
Definition extract_task (ques : pystr) : res task_doc :=
  match re_search time_pattern (upper ques) with
  | None => Raise (ValueError no_time_msg)
  | Some time_match =>
      time_obj ← strptime_IMp (upper (strip (default [] (group time_match 0))));
      mret (TaskDoc (task_label ques) (strftime_IMp time_obj))
  end.

(** A listed document as the specification sees it: without its id. *)
Definition drop_id (v : pyval) : pyval :=
  match v with
  | PDict kv => PDict (filter (fun p : pystr * pyval => bool_decide (p.1 <> py "_id")) kv)
  | _ => v
  end.

Definition record_value (d : task_doc) : pyval :=
  PDict [(py "task", PStr (doc_task d)); (py "time", PStr (doc_time d))].

Definition has_string_id (v : pyval) : Prop :=
  exists i kv, v = PDict ((py "_id", PStr i) :: kv).

Definition delete_ok : response := Resp200 (PDict [(py "message", PStr deleted_msg)]).

Inductive spec_step : request -> list task_doc -> response -> list task_doc -> Prop :=
| SChat q l s :
    is_schedule_query (lower q) = false ->
    spec_step (PostSchedule q) l (Resp200 (PStr s)) l
| SScheduled q l d :
    is_schedule_query (lower q) = true -> extract_task (lower q) = Ok d ->
    spec_step (PostSchedule q) l (Resp200 task_scheduled) (l ++ [d])
| SRejected q l msg :
    is_schedule_query (lower q) = true -> extract_task (lower q) = Raise (ValueError msg) ->
    spec_step (PostSchedule q) l (HTTPError 400 msg) l
| SList l vs :
    map drop_id vs = map record_value l -> Forall has_string_id vs ->
    spec_step GetTasks l (Resp200 (PList vs)) l
| SDeleted name l :
    existsb (has_task name) l = true ->
    spec_step (DeleteTask name) l delete_ok (remove_first name l)
| SNotFound name l :
    existsb (has_task name) l = false ->
    spec_step (DeleteTask name) l (HTTPError 404 not_found_detail) l.

Inductive spec_run : list request -> list task_doc -> list response -> list task_doc -> Prop :=
| run_nil l : spec_run [] l [] l
| run_cons r rs l resp l' resps l'' :
    spec_step r l resp l' -> spec_run rs l' resps l'' ->
    spec_run (r :: rs) l (resp :: resps) l''.

(** ** Refinement *)

Lemma drop_id_listing (l : list stored_doc) :
  map drop_id (map task_value l) = map record_value (map sd_doc l).
Proof. rewrite !map_map. apply map_ext. intros s. reflexivity. Qed.

Lemma listing_ids (l : list stored_doc) : Forall has_string_id (map task_value l).
Proof. apply Forall_forall. intros v ([i d] & <- & _)%in_map_iff. by eexists _, _. Qed.

Section Refinement.
Context {C : Type} `{CollectionLaws C} `{SummaryService}.

(** [task_scheduler] is the extractor followed by one [insert_one]. *)
Lemma task_scheduler_extract ques (c : C) :
  task_scheduler ques c =
  match extract_task ques with Ok d => Ok (task_scheduled, insert_one d c) | Raise e => Raise e end.
Proof.
  unfold task_scheduler, extract_task. destruct (re_search _ _); [|done].
  by destruct (strptime_IMp _).
Qed.

Lemma handle_spec_step r (c : C) :
  spec_step r (contents c) (fst (handle r c)) (contents (snd (handle r c))).
Proof.
  destruct r as [q| |name]; simpl.
  - unfold schedule_task. destruct (is_schedule_query (lower q)) eqn:Hq.
    + rewrite task_scheduler_extract. destruct (extract_task (lower q)) as [d|e] eqn:Ex.
      * simpl. rewrite contents_insert_one. by constructor.
      * destruct (task_scheduler_ValueError (lower q) c e) as [msg ->];
          [by rewrite task_scheduler_extract, Ex|].
        by constructor.
    + repeat case_if; by constructor.
  - constructor; [apply drop_id_listing | apply listing_ids].
  - destruct (delete_task name c) as [resp c'] eqn:E. simpl.
    apply delete_task_result in E as [-> ->].
    destruct (existsb _ _) eqn:Hx; [by apply SDeleted | rewrite remove_first_absent by done; by apply SNotFound].
Qed.

(** C28. Every request the handlers serve is a step of the
    specification, with the collection's contents as the abstract
    records: the answer and the records after are ones the
    specification allows. *)
Theorem handle_refines r (c : C) :
  spec_step r (contents c) (fst (handle r c)) (contents (snd (handle r c))).
Proof. apply handle_spec_step. Qed.

(** Every sequence of requests served from any collection is a run
    of the specification from its records, with the same answers and the
    records the collection ends with. *)
Theorem serve_refines rs (c : C) :
  spec_run rs (contents c) (fst (serve rs c)) (contents (snd (serve rs c))).
Proof.
  revert c; induction rs as [|r rs IH]; intros c; simpl; [constructor|].
  destruct (handle r c) as [resp c'] eqn:E. destruct (serve rs c') as [resps c''] eqn:E2. simpl.
  econstructor.
  - pose proof (handle_spec_step r c) as Hs. rewrite E in Hs. exact Hs.
  - pose proof (IH c') as Hr. rewrite E2 in Hr. exact Hr.
Qed.
End Refinement.
