(* ===== verification/Process.v ===== *)
(** * Process: the script as [streamlit run] executes it
    (src/api.py lines 133-159, 200-208)

    Streamlit runs the whole file again on every interaction, with
    [__name__] set to ["__main__"].  Each run sets the page (line 133),
    starts a thread running [uvicorn.run(app)] (line 207) and then calls
    [main()] (line 208), which writes the page header (lines 154-159,
    with the instructions of [display_instructions] when their button
    was pressed), the form and the task section ([Client.page]) and the
    footer (lines 201-204).  The server thread binds port 8000 at some
    later moment: the first thread to do so serves every request after
    it, and each later thread fails to bind an address already in use and
    ends.  A request sent while nothing listens raises [ConnectionError],
    which [main] does not catch: the run stops there.

    The process is a step relation: starting a run (lines 133, 207),
    running [main] (line 208) and a pending thread's attempt to bind are
    separate steps, so a bind may come before or after the requests of
    the run that started its thread.  Two non-ASCII characters of the
    instructions label are kept as their UTF-8 bytes.  The message of a
    [ConnectionError] holds an object address; the model keeps the URL. *)

From S2P Require Import Prelude PyStr TaskStore Scheduler FactLookup Api Client.

(** ** The static parts of the page *)

(** U+2139 U+FE0F, as UTF-8. *)
Definition info_symbol : pystr := map chr [226; 132; 185; 239; 184; 143].
Definition instructions_label : pystr := info_symbol ++ py " Instructions".

Definition nl : pystr := [chr 10].
Definition quoted (s : string) : pystr := [chr 34] ++ py s ++ [chr 34].

(** The triple-quoted text of lines 137-148, with its indentation. *)
Definition instructions_md : pystr :=
  nl ++ py "        ### How to Use FactBuddy Chat Bot:" ++ nl
  ++ py "        -**The chatbot can only answer the WH questions**" ++ nl
  ++ py "        - **Search for Facts**: Use the search bar to find quick information." ++ nl
  ++ py "        - **Schedule a Task**: To schedule a task, your prompt should include:" ++ nl
  ++ py "          - The words **" ++ quoted "schedule" ++ py "** or **" ++ quoted "task" ++ py "**." ++ nl
  ++ py "          - The task name should start with a **" ++ quoted "-"
  ++ py "** and end with **" ++ quoted "at" ++ py "**." ++ nl
  ++ py "          - The time given should definitely contain **am** or **pm**." ++ nl
  ++ py "        - **Case Insensitive**: The prompt is case insensitive." ++ nl
  ++ py "        - **The tasks can be erased one at a time**." ++ nl
  ++ py "        -**The tasks cann be completed one at a time.**" ++ nl
  ++ py "        ".

(** [display_instructions()] (lines 135-148). *)
Definition display_instructions : ui_msg :=
  UiExpander instructions_label [UiMarkdown instructions_md].

(** [st.set_page_config(...)] (line 133). *)
Definition page_config : ui_msg :=
  UiPageConfig (py "FactBuddy Chat Bot") (py ":robot_face:") (py "centered").

(** Lines 154-159: the button shows the instructions on the run that
    follows its press. *)
Definition page_header (show_instructions : bool) : list ui_msg :=
  [UiTitle (py "FactBuddy Chat Bot :robot_face:");
   UiMarkdown (py "<h4 style='text-align: center; color: grey;'>Your smart assistant for task scheduling and quick information.</h4>")]
  ++ (if show_instructions then [display_instructions] else []).

(** Lines 201-204. *)
Definition page_footer : list ui_msg :=
  [UiMarkdown (py "---"); UiTitle (py "Chatbot Task Operations")].

(** The inputs of one run: the instructions button, the query and its
    submit button, the checkboxes and the "Completed Task" button. *)
Record page_input := PageInput {
  in_show_instructions : bool;
  in_ques : pystr;
  in_submit : bool;
  in_checked : list bool;
  in_completed : bool
}.

Definition post_url : pystr := py "http://localhost:8000/schedule_task/".
Definition tasks_url : pystr := py "http://localhost:8000/tasks/".

(** [requests.exceptions.ConnectionError] for a URL. *)
Definition connection_error (url : pystr) : pyexn := RequestException url.

Section Main.
Context {C : Type} `{CollectionLaws C} `{SummaryService}.

(** [main()] (lines 153-204) when the server listens or not.  Without a
    server the first request raises: the form's POST when it was
    submitted, else the GET of the task section. *)
Definition main_run (inp : page_input) (listening : bool) (coll : C) : list ui_msg * C :=
  let header := page_header (in_show_instructions inp) in
  if listening then
    match page (in_ques inp) (in_submit inp) (in_checked inp) (in_completed inp) coll with
    | Ok (out, coll') => (header ++ out ++ page_footer, coll')
    | Raise e => (header ++ [UiException e], coll)   (* not reached: [page_total] *)
    end
  else if in_submit inp then
    (header ++ [talk_heading; UiException (connection_error post_url)], coll)
  else (header ++ [talk_heading; planned_heading; UiException (connection_error tasks_url)], coll).

(** ** The process *)

(** [p_phase]: a run has started and its [main()] has not run yet;
    [p_started]: server threads started; [p_pending]: threads that have
    not tried to bind yet; [p_failed]: threads that failed to bind;
    [p_listening]: a server listens on port 8000. *)
Record proc := Proc {
  p_phase : bool;
  p_started : nat;
  p_pending : nat;
  p_failed : nat;
  p_listening : bool;
  p_coll : C
}.

Definition proc_init (coll : C) : proc := Proc false 0 0 0 false coll.

Inductive label :=
| LStart
| LMain (inp : page_input)
| LBind.

(** The number of script runs a sequence of steps starts. *)
Fixpoint runs_started (ls : list label) : nat :=
  match ls with
  | [] => 0
  | LStart :: ls' => S (runs_started ls')
  | _ :: ls' => runs_started ls'
  end.

Inductive proc_step : proc -> label -> list ui_msg -> proc -> Prop :=
| step_start st :
    p_phase st = false ->
    proc_step st LStart [page_config]
      (Proc true (S (p_started st)) (S (p_pending st)) (p_failed st) (p_listening st) (p_coll st))
| step_main st inp :
    p_phase st = true ->
    proc_step st (LMain inp) (fst (main_run inp (p_listening st) (p_coll st)))
      (Proc false (p_started st) (p_pending st) (p_failed st) (p_listening st)
         (snd (main_run inp (p_listening st) (p_coll st))))
| step_bind st n :
    p_pending st = S n ->
    proc_step st LBind []
      (if p_listening st then Proc (p_phase st) (p_started st) n (S (p_failed st)) true (p_coll st)
       else Proc (p_phase st) (p_started st) n (p_failed st) true (p_coll st)).

(** The states reachable from a start with any collection, with the
    labels of the steps taken. *)
Inductive proc_trace : proc -> list label -> proc -> Prop :=
| trace_nil st : proc_trace st [] st
| trace_step st l out st' ls st'' :
    proc_step st l out st' -> proc_trace st' ls st'' -> proc_trace st (l :: ls) st''.
End Main.

(** ** Theorems *)

Section ProcessTheorems.
Context {C : Type} `{CollectionLaws C} `{SummaryService}.

(** Every server thread started is pending, has failed to bind, or is
    the one that listens; while nothing listens, no thread has failed
    and no request has reached the collection. *)
Definition proc_inv (coll0 : C) (st : proc (C:=C)) : Prop :=
  p_started st = p_pending st + p_failed st + (if p_listening st then 1 else 0) /\
  (p_listening st = false -> p_failed st = 0 /\ p_coll st = coll0).

(** Without a server, [main] changes nothing. *)
Lemma main_run_offline inp (coll : C) : snd (main_run inp false coll) = coll.
Proof. unfold main_run. by destruct (in_submit inp). Qed.

Lemma proc_inv_step coll0 st l out st' :
  proc_step st l out st' -> proc_inv coll0 st -> proc_inv coll0 st'.
Proof.
  unfold proc_inv. intros [st0 _ | st0 inp _ | st0 n Hn]; simpl; intros [Hc Hl].
  - split; [lia | done].
  - split; [done|]. intros Hf. rewrite Hf, main_run_offline. by apply Hl.
  - rewrite Hn in Hc. destruct (p_listening st0); simpl; split; try done; lia.
Qed.

(** Only the start of a run starts a thread. *)
Lemma started_step st l out st' :
  proc_step st l out st' -> p_started st' = p_started st + runs_started [l].
Proof. intros [st0 _ | st0 inp _ | st0 n Hn]; simpl; [lia | lia |]. destruct (p_listening st0); simpl; lia. Qed.

Lemma started_trace st ls st' :
  proc_trace st ls st' -> p_started st' = p_started st + runs_started ls.
Proof.
  induction 1 as [|st0 l out st1 ls st2 Hs _ IH]; [simpl; lia|].
  rewrite IH, (started_step _ _ _ _ Hs). destruct l; simpl; lia.
Qed.

Lemma proc_inv_trace coll0 st ls st' :
  proc_trace st ls st' -> proc_inv coll0 st -> proc_inv coll0 st'.
Proof.
  induction 1 as [|st0 l out st1 ls st2 Hs _ IH]; [done|].
  intros Hi. apply IH. by eapply proc_inv_step.
Qed.

End ProcessTheorems.

(** ** Witnesses *)

#[local] Existing Instance offline_service.

(** A first run whose request comes before its server thread binds, then
    a second run: the first thread serves, the second fails to bind. *)
Definition quiet_input : page_input := PageInput false [] false [] false.

Definition two_runs : list label := [LStart; LMain quiet_input; LBind; LStart; LBind].

Definition after_two_runs : proc (C:=mem_coll) := Proc true 2 0 1 true mem_empty.

