(* ===== verification/Http.v ===== *)
(** * Http: FastAPI's routing and validation in front of the handlers
    (src/api.py lines 24-29, 118-119, 125-126, 170, 178, 191)

    The decorators [@app.post("/schedule_task/")], [@app.get("/tasks/")]
    and [@app.delete("/delete_task/")] build the route table.  A request
    whose method and path match a route has its parameters validated
    first: the JSON body against [class Query(BaseModel): ques: str]
    (lines 24-25), the query string for [task_name: str] (line 126); a
    failed validation answers 422 without calling the handler.  A path
    that matches with another method answers 405; a path that matches
    once a trailing slash is added or removed is redirected (307,
    Starlette's [redirect_slashes]); anything else answers 404.
    [dispatch] is this layer over the handlers of [Api]; the theorems
    show that it never answers 500, that only the two mutating routes
    change the collection, and that the requests the page sends reach
    the handlers unchanged: those requests are built, as the page
    builds them, from its URLs and its [json=] and [params=] arguments
    (lines 170, 178, 191), and the server listens where [uvicorn.run]
    puts it (line 207).  The 422 messages are pydantic 2's; a body is
    absent, not JSON, or a JSON value.  Other methods, HEAD included,
    answer 405 on a known path: FastAPI's routes accept only the
    methods of their decorator. *)

From S2P Require Import Prelude PyStr TaskStore Scheduler FactLookup Api Client Process.

Inductive http_method := GET | POST | DELETE | OtherMethod (name : pystr).

#[export] Instance http_method_eq_dec : EqDecision http_method.
Proof. solve_decision. Defined.

(** The body of a request: none, one that is not JSON, or a JSON value. *)
Inductive http_body := NoBody | InvalidJson | JsonBody (j : json).

Record http_request := HttpRequest {
  rq_method : http_method;
  rq_path : pystr;
  rq_query : list (pystr * pystr);
  rq_body : http_body
}.

Inductive http_answer :=
| Answer (r : response)
| Redirect (location : pystr).

Definition schedule_path : pystr := py "/schedule_task/".
Definition tasks_path : pystr := py "/tasks/".
Definition delete_path : pystr := py "/delete_task/".

(** The route table of the decorators (lines 28, 118, 125). *)
Definition routes : list (http_method * pystr) :=
  [(POST, schedule_path); (GET, tasks_path); (DELETE, delete_path)].

Definition path_known (p : pystr) : bool := existsb (fun rt => bool_decide (rt.2 = p)) routes.

Definition route_matches (m : http_method) (p : pystr) : bool :=
  existsb (fun rt => bool_decide (rt = (m, p))) routes.

Definition route_not_found : pystr := py "Not Found".
Definition method_not_allowed : pystr := py "Method Not Allowed".
Definition missing_msg : pystr := py "Field required".
Definition string_type_msg : pystr := py "Input should be a valid string".
Definition model_type_msg : pystr := py "Input should be a valid dictionary or object to extract fields from".
Definition json_invalid_msg : pystr := py "JSON decode error".

(** [Query] (lines 24-25): the body must be an object whose [ques] is a
    string; other fields are ignored.  [inl] is the validation error. *)
Definition validate_query (body : http_body) : pystr + pystr :=
  match body with
  | JsonBody (JObj kv) =>
      match obj_lookup (py "ques") kv with
      | Some (JStr s) => inr s
      | Some _ => inl string_type_msg
      | None => inl missing_msg
      end
  | JsonBody _ => inl model_type_msg
  | InvalidJson => inl json_invalid_msg
  | NoBody => inl missing_msg
  end.

(** A scalar query parameter: the last value given for the key. *)
Definition query_param (key : pystr) (q : list (pystr * pystr)) : option pystr :=
  fold_left (fun acc p => if bool_decide (p.1 = key) then Some p.2 else acc) q None.

Fixpoint drop_slashes (p : pystr) : pystr :=
  match p with
  | c :: r => if char_eqb c "/"%char then drop_slashes r else p
  | [] => []
  end.

(** [path.rstrip("/")]. *)
Definition rstrip_slash (p : pystr) : pystr := rev (drop_slashes (rev p)).

(** The path Starlette tries when no route matches. *)
Definition redirect_path (p : pystr) : pystr :=
  if bool_decide (head (rev p) = Some "/"%char) then rstrip_slash p else p ++ py "/".

(** ** The requests the page sends *)

(** [uvicorn.run(app)] listens on port 8000 of the local host. *)
Definition server_origin : pystr := py "http://localhost:8000".

(** The path of a URL on the server. *)
Definition url_path (url : pystr) : pystr :=
  if is_prefix server_origin url then drop (length server_origin) url else url.

(** [requests.post(url, json=...)] with string values, [requests.get(url)]
    and [requests.delete(url, params=...)]. *)
Definition requests_post (url : pystr) (json_kw : list (pystr * pystr)) : http_request :=
  HttpRequest POST (url_path url) [] (JsonBody (JObj (map (fun kv => (kv.1, JStr kv.2)) json_kw))).
Definition requests_get (url : pystr) : http_request := HttpRequest GET (url_path url) [] NoBody.
Definition requests_delete (url : pystr) (params : list (pystr * pystr)) : http_request :=
  HttpRequest DELETE (url_path url) params NoBody.

Definition delete_url : pystr := py "http://localhost:8000/delete_task/".

(** Line 170, line 178 and line 191. *)
Definition form_request (ques : pystr) : http_request := requests_post post_url [(py "ques", ques)].
Definition listing_request : http_request := requests_get tasks_url.
Definition delete_request (task_name : pystr) : http_request :=
  requests_delete delete_url [(py "task_name", task_name)].

Definition status_of (r : response) : nat :=
  match r with Resp200 _ => 200 | HTTPError code _ => code end.

Section Dispatch.
Context {C : Type} `{CollectionLaws C} `{SummaryService}.

(** The endpoint of a matched route: validation, then the handler. *)
Definition endpoint (r : http_request) (coll : C) : response * C :=
  match rq_method r with
  | POST =>
      match validate_query (rq_body r) with
      | inr ques => schedule_task ques coll
      | inl msg => (HTTPError 422 msg, coll)
      end
  | GET => (get_tasks coll, coll)
  | DELETE =>
      match query_param (py "task_name") (rq_query r) with
      | Some task_name => delete_task task_name coll
      | None => (HTTPError 422 missing_msg, coll)
      end
  | OtherMethod _ => (HTTPError 405 method_not_allowed, coll)   (* not reached *)
  end.

(** Starlette's router: a full match, else 405 for a known path, else the
    slash redirect, else 404. *)
Definition dispatch (r : http_request) (coll : C) : http_answer * C :=
  if route_matches (rq_method r) (rq_path r) then
    let '(resp, coll') := endpoint r coll in (Answer resp, coll')
  else if path_known (rq_path r) then (Answer (HTTPError 405 method_not_allowed), coll)
  else if negb (bool_decide (rq_path r = py "/")) && path_known (redirect_path (rq_path r)) then
    (Redirect (redirect_path (rq_path r)), coll)
  else (Answer (HTTPError 404 route_not_found), coll).
End Dispatch.

(** ** Theorems *)

(** Membership in a short literal list. *)
Ltac in_list := apply list_elem_of_In; simpl; repeat (first [left; reflexivity | right]).

(** An implication from a changed collection, where it did not change. *)
Ltac unchanged := let Hn := fresh "Hn" in intros Hn; by destruct Hn.

Section HttpTheorems.
Context {C : Type} `{CollectionLaws C} `{SummaryService}.

(** [schedule_task] answers 200 or 400, and only a 200 changes the
    collection. *)
Lemma schedule_task_status q (c : C) :
  (status_of (schedule_task q c).1 = 200 \/ status_of (schedule_task q c).1 = 400) /\
  (contents (schedule_task q c).2 <> contents c -> status_of (schedule_task q c).1 = 200).
Proof.
  destruct (schedule_task_cases q c) as [[v ->]|[[m ->]|(c' & d & -> & _)]]; simpl;
    (split; [auto | intros Hn; try done; by destruct Hn]).
Qed.

(** [delete_task] answers 200 or 404, and only a 200 changes the
    collection. *)
Lemma delete_task_status name (c : C) :
  (status_of (delete_task name c).1 = 200 \/ status_of (delete_task name c).1 = 404) /\
  (contents (delete_task name c).2 <> contents c -> status_of (delete_task name c).1 = 200).
Proof.
  destruct (delete_task name c) as [resp c'] eqn:E. simpl.
  apply delete_task_result in E as [Hc Hr]. destruct (existsb (has_task name) (contents c)) eqn:Hx.
  - rewrite Hr. auto.
  - rewrite Hr, Hc, remove_first_absent by done. simpl. split; [auto | done].
Qed.

(** The answers of a matched route. *)
Lemma endpoint_status r (c : C) :
  status_of (endpoint r c).1 ∈ [200; 400; 404; 405; 422] /\
  (contents (endpoint r c).2 <> contents c -> status_of (endpoint r c).1 = 200 /\ rq_method r ∈ [POST; DELETE]).
Proof.
  unfold endpoint, get_tasks. destruct (rq_method r) as [| | |m]; simpl.
  - split; [in_list | unchanged].
  - destruct (validate_query (rq_body r)) as [msg|q]; [split; [in_list | unchanged]|].
    destruct (schedule_task_status q c) as [[Hs|Hs] Hc]; rewrite Hs;
      (split; [in_list | intros Hn; split; [first [done | rewrite <- Hs; by apply Hc] | in_list]]).
  - destruct (query_param _ (rq_query r)) as [n|]; [|split; [in_list | unchanged]].
    destruct (delete_task_status n c) as [[Hs|Hs] Hc]; rewrite Hs;
      (split; [in_list | intros Hn; split; [first [done | rewrite <- Hs; by apply Hc] | in_list]]).
  - split; [in_list | unchanged].
Qed.

(** C24. The service never answers 500: every HTTP request is either
    redirected (a path missing or adding its trailing slash) or answered
    200, 400, 404, 405 or 422, and the collection changes only with a
    200 answer of a POST or DELETE route; redirects, routing errors and
    failed validations leave it as it was. *)
Theorem dispatch_answers r (coll : C) :
  (exists loc, dispatch r coll = (Redirect loc, coll)) \/
  exists resp coll', dispatch r coll = (Answer resp, coll') /\
    status_of resp ∈ [200; 400; 404; 405; 422] /\
    (contents coll' <> contents coll -> status_of resp = 200 /\ rq_method r ∈ [POST; DELETE]).
Proof.
  unfold dispatch. destruct (route_matches (rq_method r) (rq_path r)).
  - right. pose proof (endpoint_status r coll) as He.
    destruct (endpoint r coll) as [resp c']. by exists resp, c'.
  - destruct (path_known (rq_path r)); [right; eexists _, _; split; [done | split; [in_list | unchanged]]|].
    destruct (_ && _); [left; by eexists|].
    right; eexists _, _; split; [done | split; [in_list | unchanged]].
Qed.

(** C26. The requests the page sends reach the handlers unchanged: the
    form's [requests.post(post_url, json={"ques": ques})] (line 170),
    the listing's [requests.get(tasks_url)] (line 178) and the
    deletions' [requests.delete(.., params={"task_name": task_name})]
    (line 191), built from the page's URLs and arguments, match the
    routes, pass validation and are answered by [schedule_task],
    [get_tasks] and [delete_task] on the same collection, as [Client]
    calls them. *)
Theorem client_requests_routed ques name (coll : C) :
  dispatch (form_request ques) coll = (Answer (schedule_task ques coll).1, (schedule_task ques coll).2) /\
  dispatch listing_request coll = (Answer (get_tasks coll), coll) /\
  dispatch (delete_request name) coll = (Answer (delete_task name coll).1, (delete_task name coll).2).
Proof.
  split; [|split]; unfold dispatch, endpoint; simpl.
  - by destruct (schedule_task ques coll).
  - done.
  - by destruct (delete_task name coll).
Qed.
End HttpTheorems.

(** ** Examples *)

#[local] Existing Instance offline_service.

(** A path without its trailing slash is redirected to the route. *)
Example tasks_without_slash :
  dispatch (HttpRequest GET (py "/tasks") [] NoBody) mem_empty = (Redirect tasks_path, mem_empty).
Proof. reflexivity. Qed.

(** A DELETE without [task_name] fails validation (422), not with the
    handler's 404. *)
Example delete_without_name :
  dispatch (HttpRequest DELETE delete_path [] NoBody) mem_empty = (Answer (HTTPError 422 missing_msg), mem_empty).
Proof. reflexivity. Qed.

Example schedule_by_get :
  dispatch (HttpRequest GET schedule_path [] NoBody) mem_empty = (Answer (HTTPError 405 method_not_allowed), mem_empty).
Proof. reflexivity. Qed.

(** [ques] must be a string: a number is rejected, not converted. *)
Example ques_not_string :
  dispatch (HttpRequest POST schedule_path [] (JsonBody (JObj [(py "ques", JInt 5)]))) mem_empty =
  (Answer (HTTPError 422 string_type_msg), mem_empty).
Proof. reflexivity. Qed.
