(* ===== verification/Session.v ===== *)
(** * Session: the page over several reruns (src/api.py lines 157-195)

    Every click in the browser reruns the whole script.  What survives
    a rerun is Streamlit's widget state: the value of each widget, found
    again in the next run by the widget's identity.  The checkboxes of
    the task section are created with [key=f"task_{index}"] (line 186):
    their identity is their position in the listing.  Streamlit's
    checkbox identity is the key alone, or the key together with the
    label, depending on its version; both schemes are modelled
    ([id_scheme]).  At the end of a run the state of the widgets that
    were not rendered is dropped ([keep_rendered]).

    A session holds its widget state and the boxes its last run showed,
    each with its mark.  An event is what triggers a rerun: a load, the
    instructions button (line 157), a click on a box (line 186), the
    form's submit button (line 168) or the "Completed Task" button
    (line 189).  [session_run] is one rerun against the shared
    collection; [sys_step] interleaves the reruns of several browser
    sessions on one collection.  The server is assumed to listen
    ([Process] covers the runs before it does). *)

From Stdlib Require Import DecimalNat.
From stdpp Require Import gmap.
From S2P Require Import Prelude PyStr TaskStore FactLookup Api Client Process.

(** ** Widget identities *)

(** [str(n)] of a natural number, in decimal without leading zeros. *)
Fixpoint uint_str (u : Decimal.uint) : pystr :=
  match u with
  | Decimal.Nil => []
  | Decimal.D0 u => "0"%char :: uint_str u
  | Decimal.D1 u => "1"%char :: uint_str u
  | Decimal.D2 u => "2"%char :: uint_str u
  | Decimal.D3 u => "3"%char :: uint_str u
  | Decimal.D4 u => "4"%char :: uint_str u
  | Decimal.D5 u => "5"%char :: uint_str u
  | Decimal.D6 u => "6"%char :: uint_str u
  | Decimal.D7 u => "7"%char :: uint_str u
  | Decimal.D8 u => "8"%char :: uint_str u
  | Decimal.D9 u => "9"%char :: uint_str u
  end.

Definition str_nat (n : nat) : pystr := uint_str (Nat.to_uint n).

(** [f"task_{index}"] (line 186). *)
Definition checkbox_key (index : nat) : pystr := py "task_" ++ str_nat index.

(** How Streamlit finds a widget again in the next run: by its key, or
    by its key and its label. *)
Inductive id_scheme := KeyOnly | KeyAndLabel.

Definition widget_id (sch : id_scheme) (key label : pystr) : pystr * pystr :=
  match sch with
  | KeyOnly => (key, [])
  | KeyAndLabel => (key, label)
  end.

(** The value of each widget the session has seen, by identity. *)
Abbreviation widgets := (gmap (pystr * pystr) bool).

Section Boxes.
Variable sch : id_scheme.

(** The identity of the box of the document at [index] (line 186). *)
Definition box_id (index : nat) (d : task_doc) : pystr * pystr :=
  widget_id sch (checkbox_key index) (checkbox_label (doc_task d) (doc_time d)).

Definition box_ids (docs : list task_doc) : list (pystr * pystr) := imap box_id docs.

(** [st.checkbox] returns the stored value, or [False] for a widget it
    has not seen. *)
Definition box_values (ws : widgets) (docs : list task_doc) : list bool :=
  (fun i => default false (ws !! i)) <$> box_ids docs.
End Boxes.

(** The state of the widgets rendered in a run is kept, the rest is
    dropped. *)
Definition keep_rendered (rendered : list (pystr * pystr)) (ws : widgets) : widgets :=
  filter (fun kv => kv.1 ∈ rendered) ws.

(** ** Sessions and events *)

Record session := Session {
  s_widgets : widgets;
  (** the boxes the last run showed: the document and the mark *)
  s_view : list (task_doc * bool)
}.

Definition session_new : session := Session ∅ [].

Inductive event :=
| EvLoad
| EvInstructions
| EvToggle (index : nat)
| EvSubmit (ques : pystr)
| EvComplete.

Definition ev_instructions (ev : event) : bool := match ev with EvInstructions => true | _ => false end.
Definition ev_complete (ev : event) : bool := match ev with EvComplete => true | _ => false end.
Definition ev_submit (ev : event) : bool := match ev with EvSubmit _ => true | _ => false end.
Definition ev_ques (ev : event) : pystr := match ev with EvSubmit q => q | _ => [] end.

(** A run that neither clicks a box nor submits the form. *)
Definition ev_passive (ev : event) : bool :=
  match ev with EvToggle _ | EvSubmit _ => false | _ => true end.

(** The names of the boxes the session shows checked, in order. *)
Definition shown_checked (ss : session) : list pystr :=
  map doc_task (map fst (filter (fun dv => dv.2 = true) (s_view ss))).

(** What a session's state is after any run: the marks it shows are
    the stored values of the boxes shown, and it stores nothing else. *)
Definition session_inv (sch : id_scheme) (ss : session) : Prop :=
  (s_view ss).*2 = box_values sch (s_widgets ss) (s_view ss).*1 /\
  forall i x, s_widgets ss !! i = Some x -> i ∈ box_ids sch (s_view ss).*1.

Section Run.
Context {C : Type} `{CollectionLaws C} `{SummaryService}.
Variable sch : id_scheme.

(** A click on a box flips the value of the box shown at that index
    before the rerun. *)
Definition toggle (ev : event) (ss : session) : widgets :=
  match ev with
  | EvToggle i =>
      match s_view ss !! i with
      | Some (d, v) => <[box_id sch i d := negb v]> (s_widgets ss)
      | None => s_widgets ss
      end
  | _ => s_widgets ss
  end.

(** One rerun of the script (lines 153-204) on the shared collection:
    the boxes read their values from the widget state as they are
    rendered, after the form's request. *)
Definition session_run (ev : event) (ss : session) (coll : C) : list ui_msg * session * C :=
  let ws := toggle ev ss in
  let header := page_header (ev_instructions ev) in
  match query_form (ev_ques ev) (ev_submit ev) coll with
  | Ok (form, c1) =>
      let docs := contents c1 in
      let checked := box_values sch ws docs in
      match planned_activities checked (ev_complete ev) c1 with
      | Ok (sec, c2) =>
          (header ++ form ++ sec ++ page_footer,
           Session (keep_rendered (box_ids sch docs) ws) (zip docs checked), c2)
      | Raise e => (header ++ form ++ [UiException e], ss, c1)   (* not reached *)
      end
  | Raise e => (header ++ [UiException e], ss, coll)   (* not reached *)
  end.

(** Browser sessions on one collection. *)
Record system := System { sys_sessions : list session; sys_coll : C }.

Inductive sys_step : system -> nat -> event -> list ui_msg -> system -> Prop :=
| sys_open sy :
    sys_step sy (length (sys_sessions sy)) EvLoad []
      (System (sys_sessions sy ++ [session_new]) (sys_coll sy))
| sys_run sy j ev ss out ss' c' :
    sys_sessions sy !! j = Some ss ->
    session_run ev ss (sys_coll sy) = (out, ss', c') ->
    sys_step sy j ev out (System (<[j := ss']> (sys_sessions sy)) c').

Inductive sys_reach (c0 : C) : system -> Prop :=
| reach_init : sys_reach c0 (System [] c0)
| reach_step sy j ev out sy' : sys_reach c0 sy -> sys_step sy j ev out sy' -> sys_reach c0 sy'.
End Run.

(** ** Theorems *)

Lemma uint_str_inj u v : uint_str u = uint_str v -> u = v.
Proof.
  revert v; induction u; intros []; simpl; intros E; try discriminate; [done|..];
    injection E as E; f_equal; auto.
Qed.

Lemma checkbox_key_inj i j : checkbox_key i = checkbox_key j -> i = j.
Proof.
  unfold checkbox_key, str_nat. intros E%app_inv_head%uint_str_inj.
  by rewrite <- (Unsigned.of_to i), <- (Unsigned.of_to j), E.
Qed.

Section SessionTheorems.
Context {C : Type} `{CollectionLaws C} `{SummaryService}.
Variable sch : id_scheme.

(** Boxes at different positions have different identities. *)
Lemma box_id_index i j d e : box_id sch i d = box_id sch j e -> i = j.
Proof.
  unfold box_id, widget_id. intros E%(f_equal fst). apply checkbox_key_inj. by destruct sch.
Qed.

Lemma length_box_values (ws : widgets) (docs : list task_doc) : length (box_values sch ws docs) = length docs.
Proof. unfold box_values, box_ids. by rewrite length_fmap, length_imap. Qed.

Lemma box_values_lookup (ws : widgets) (docs : list task_doc) i :
  box_values sch ws docs !! i = (fun d => default false (ws !! box_id sch i d)) <$> docs !! i.
Proof. unfold box_values, box_ids. by rewrite list_lookup_fmap, list_lookup_imap; destruct (docs !! i). Qed.

Lemma keep_rendered_lookup (rendered : list (pystr * pystr)) (ws : widgets) i : i ∈ rendered -> keep_rendered rendered ws !! i = ws !! i.
Proof.
  intros Hi. unfold keep_rendered. destruct (ws !! i) as [x|] eqn:E.
  - by apply map_lookup_filter_Some.
  - apply map_lookup_filter_None. by left.
Qed.

Lemma keep_rendered_Some (rendered : list (pystr * pystr)) (ws : widgets) i x : keep_rendered rendered ws !! i = Some x -> i ∈ rendered.
Proof. unfold keep_rendered. by intros [_ ?]%map_lookup_filter_Some. Qed.

Lemma box_values_keep (docs : list task_doc) (ws : widgets) :
  box_values sch (keep_rendered (box_ids sch docs) ws) docs = box_values sch ws docs.
Proof.
  unfold box_values. apply list_fmap_ext. intros i x Hx.
  rewrite keep_rendered_lookup; [done|]. by eapply list_elem_of_lookup_2.
Qed.

(** Every run takes the branches that answer ([query_form_total],
    [planned_activities_shape]). *)
Lemma session_run_Ok ev ss (coll : C) :
  exists form c1 sec c2,
    query_form (ev_ques ev) (ev_submit ev) coll = Ok (form, c1) /\
    planned_activities (box_values sch (toggle sch ev ss) (contents c1)) (ev_complete ev) c1 = Ok (sec, c2) /\
    session_run sch ev ss coll =
      (page_header (ev_instructions ev) ++ form ++ sec ++ page_footer,
       Session (keep_rendered (box_ids sch (contents c1)) (toggle sch ev ss))
               (zip (contents c1) (box_values sch (toggle sch ev ss) (contents c1))), c2).
Proof.
  destruct (query_form_total (ev_ques ev) (ev_submit ev) coll) as [[form c1] Hf].
  destruct (planned_activities_shape (box_values sch (toggle sch ev ss) (contents c1)) (ev_complete ev) c1)
    as (sec & c2 & Hp & _).
  exists form, c1, sec, c2. unfold session_run. by rewrite Hf, Hp.
Qed.

(** Every run leaves its session in the invariant, whatever it was. *)
Lemma session_run_inv ev ss (coll : C) : session_inv sch (session_run sch ev ss coll).1.2.
Proof.
  destruct (session_run_Ok ev ss coll) as (form & c1 & sec & c2 & _ & _ & ->).
  unfold session_inv; simpl. rewrite fst_zip, snd_zip by (rewrite length_box_values; lia).
  split; [by rewrite box_values_keep | intros i x; apply keep_rendered_Some].
Qed.

Lemma sys_reach_inv (c0 : C) sy : sys_reach sch c0 sy -> Forall (session_inv sch) (sys_sessions sy).
Proof.
  induction 1 as [|sy j ev out sy' _ IH Hs]; [constructor|].
  destruct Hs as [sy|sy j' ev' ss out' ss' c' _ Hr]; simpl.
  - apply Forall_app; split; [done|]. constructor; [|constructor]. split; [done|]. simpl. intros i x. by rewrite lookup_empty.
  - apply Forall_insert; [done|]. pose proof (session_run_inv ev' ss (sys_coll sy)) as Hi.
    by rewrite Hr in Hi.
Qed.

(** The mark a session shows at position [i] is the stored value of the
    box at [i]. *)
Lemma view_mark ss i e b :
  session_inv sch ss -> s_view ss !! i = Some (e, b) -> b = default false (s_widgets ss !! box_id sch i e).
Proof.
  intros [Hv _] Hi. assert (Hb : (s_view ss).*2 !! i = Some b) by (rewrite list_lookup_fmap, Hi; done).
  rewrite Hv, box_values_lookup, list_lookup_fmap, Hi in Hb. by injection Hb.
Qed.

Lemma checked_names_view (v : list (task_doc * bool)) :
  checked_names v.*1 v.*2 = map doc_task (map fst (filter (fun dv => dv.2 = true) v)).
Proof.
  induction v as [|[d b] v IH]; [done|]. rewrite filter_cons. simpl.
  destruct b; case_decide; simpl; try done; rewrite <- IH; reflexivity.
Qed.
(** The box stored under the identity a box at [i] would have was
    shown at [i], with that value. *)
Lemma box_id_rendered ss i d x :
  session_inv sch ss -> s_widgets ss !! box_id sch i d = Some x ->
  exists e, s_view ss !! i = Some (e, x) /\ box_id sch i e = box_id sch i d.
Proof.
  intros Hinv Hx. pose proof (proj2 Hinv _ _ Hx) as Hin. unfold box_ids in Hin.
  apply elem_of_lookup_imap in Hin as (j & e & Hid & Hj).
  pose proof (box_id_index _ _ _ _ Hid) as <-.
  rewrite list_lookup_fmap in Hj. destruct (s_view ss !! i) as [[e' b]|] eqn:Hi; [|done].
  injection Hj as <-. exists e'. split; [|done].
  by rewrite (view_mark ss i e' b Hinv Hi), <- Hid, Hx.
Qed.

(** Without a submit the form sends nothing. *)
Lemma unsubmitted_form ev (coll : C) :
  ev_submit ev = false -> query_form (ev_ques ev) (ev_submit ev) coll = Ok ([talk_heading], coll).
Proof. by intros ->. Qed.

(** A passive run does not click and does not submit. *)
Lemma passive_run ev ss (coll : C) :
  ev_passive ev = true -> toggle sch ev ss = s_widgets ss /\ query_form (ev_ques ev) (ev_submit ev) coll = Ok ([talk_heading], coll).
Proof. intros Hp. split; [by destruct ev|]. apply unsubmitted_form. by destruct ev. Qed.

Lemma box_ids_NoDup (docs : list task_doc) : NoDup (box_ids sch docs).
Proof.
  apply NoDup_alt. intros i j x. unfold box_ids. rewrite !list_lookup_imap_Some.
  intros (d & _ & ->) (e & _ & Hid). by apply (box_id_index _ _ _ _ Hid).
Qed.

(** A session stores at most one value per box it shows. *)
Lemma widgets_size ss : session_inv sch ss -> size (s_widgets ss) <= length (s_view ss).
Proof.
  intros [_ Hd]. rewrite <- size_dom.
  transitivity (size (list_to_set (C:=gset (pystr * pystr)) (box_ids sch (s_view ss).*1))).
  - apply subseteq_size. intros k [x Hx]%elem_of_dom. apply elem_of_list_to_set. by eapply Hd.
  - rewrite size_list_to_set by apply box_ids_NoDup. unfold box_ids. by rewrite length_imap, length_fmap.
Qed.

(** A "Completed Task" press on the listing the session shows deletes
    the names shown checked, each with a 200 answer. *)
Lemma complete_run_shown ss (coll : C) :
  session_inv sch ss -> contents coll = (s_view ss).*1 ->
  exists out ss', session_run sch EvComplete ss coll = (out, ss', snd (complete_tasks (shown_checked ss) coll)) /\
    (exists pre post, out = pre ++ map (fun n => UiSuccess (PStr (deleted_prefix ++ n))) (shown_checked ss) ++ post) /\
    length (contents coll) = length (contents (snd (complete_tasks (shown_checked ss) coll))) + length (shown_checked ss).
Proof.
  intros Hinv Hc.
  destruct (session_run_Ok EvComplete ss coll) as (form & c1 & sec & c2 & Hf & Hp & ->).
  destruct (passive_run EvComplete ss coll) as [Hw Hf']; [done|].
  rewrite Hf' in Hf. injection Hf as <- <-. rewrite Hw in Hp |- *. cbn [ev_complete] in Hp.
  assert (Hsel : checked_names (contents coll) (box_values sch (s_widgets ss) (contents coll)) = shown_checked ss).
  { rewrite Hc, <- (proj1 Hinv). apply checked_names_view. }
  assert (Hsub : shown_checked ss `sublist_of` map doc_task (contents coll))
    by (rewrite <- Hsel; apply checked_names_sublist).
  destruct (complete_tasks_sublist _ coll Hsub) as [Hm Hl].
  destruct (decide (contents coll = [])) as [He|Hne].
  - rewrite planned_activities_empty in Hp by done. injection Hp as <- <-.
    rewrite He in Hsub. apply sublist_nil_r in Hsub. rewrite Hsub in Hl |- *.
    eexists _, _. split; [reflexivity|]. split; [by eexists [], _ | done].
  - rewrite planned_activities_listing in Hp by done. rewrite Hsel in Hp. injection Hp as <- <-.
    eexists _, _. split; [reflexivity|]. split; [|done]. rewrite Hm.
    exists (page_header false ++ [talk_heading] ++ planned_heading :: map doc_checkbox (contents coll)), page_footer.
    cbn [app ev_instructions]. by rewrite <- !app_assoc.
Qed.

(** ** Claims *)

(** C9. A "Completed Task" press deletes what the user sees checked when
    the collection has not changed since the session's last run: in
    every reachable state of the browser sessions, the press removes one
    document per name shown checked, in order, and reports each as
    deleted. *)
Theorem complete_deletes_shown (c0 : C) sy j ss out sy' :
  sys_reach sch c0 sy -> sys_sessions sy !! j = Some ss ->
  contents (sys_coll sy) = (s_view ss).*1 ->
  sys_step sch sy j EvComplete out sy' ->
  sys_coll sy' = snd (complete_tasks (shown_checked ss) (sys_coll sy)) /\
  (exists pre post, out = pre ++ map (fun n => UiSuccess (PStr (deleted_prefix ++ n))) (shown_checked ss) ++ post) /\
  length (contents (sys_coll sy)) = length (contents (sys_coll sy')) + length (shown_checked ss).
Proof.
  intros Hr Hj Hc Hs. inversion Hs as [|sy0 j0 ev ss0 out0 ss' c' Hj' Hrun]; subst.
  rewrite Hj in Hj'. injection Hj' as <-.
  assert (Hinv : session_inv sch ss) by (eapply Forall_lookup_1; [apply (sys_reach_inv c0 sy Hr) | done]).
  destruct (complete_run_shown ss _ Hinv Hc) as (out' & ss'' & Hrun' & Hm & Hl).
  rewrite Hrun' in Hrun. injection Hrun as <- <- <-. cbn [sys_coll]. by subst.
Qed.

(** C15. Marks stay with positions: after a run that neither clicks nor
    submits, the box at position [i] shows the document now at [i] with
    the mark the box at [i] had before, whichever document that was,
    provided the two boxes have the same identity.  With key-only
    identities (Streamlit's checkbox keyed by [task_{index}]) this is
    always the case, so deleting or adding documents moves marks onto
    other tasks. *)
Theorem marks_follow_position ss ev (coll : C) i d :
  session_inv sch ss -> ev_passive ev = true -> contents coll !! i = Some d ->
  s_view (session_run sch ev ss coll).1.2 !! i =
    Some (d, match s_view ss !! i with
             | Some (e, b) => b && bool_decide (box_id sch i e = box_id sch i d)
             | None => false
             end).
Proof.
  intros Hinv Hp Hd.
  destruct (session_run_Ok ev ss coll) as (form & c1 & sec & c2 & Hf & _ & ->).
  destruct (passive_run ev ss coll Hp) as [Hw Hf']. rewrite Hf' in Hf. injection Hf as _ <-.
  cbn [fst snd s_view]. rewrite Hw, lookup_zip_with, Hd. simpl. rewrite box_values_lookup, Hd. simpl.
  destruct (s_widgets ss !! box_id sch i d) as [x|] eqn:Ex; simpl.
  - destruct (box_id_rendered ss i d x Hinv Ex) as (e & -> & Hid).
    by rewrite bool_decide_true, andb_true_r.
  - destruct (s_view ss !! i) as [[e b]|] eqn:Hi; [|done]. rewrite (view_mark ss i e b Hinv Hi).
    case_bool_decide as Hid; [by rewrite Hid, Ex | by rewrite andb_false_r].
Qed.

(** C16. A click on a box, on the listing the session shows, flips the
    mark of that box and of no other: the next run shows the same
    documents with only the clicked mark changed (a click outside the
    listing changes nothing). *)
Theorem click_flips_box ss (coll : C) i :
  session_inv sch ss -> contents coll = (s_view ss).*1 ->
  s_view (session_run sch (EvToggle i) ss coll).1.2 = alter (fun dv => (dv.1, negb dv.2)) i (s_view ss).
Proof.
  intros Hinv Hc.
  destruct (session_run_Ok (EvToggle i) ss coll) as (form & c1 & sec & c2 & Hf & _ & ->).
  rewrite unsubmitted_form in Hf by done. injection Hf as _ <-.
  cbn [fst snd s_view]. rewrite Hc. apply list_eq. intros k.
  rewrite lookup_zip_with, box_values_lookup, list_lookup_fmap.
  destruct (decide (k = i)) as [->|Hki].
  - rewrite list_lookup_alter, decide_True by done. unfold toggle.
    destruct (s_view ss !! i) as [[e b]|]; simpl; [|done]. by rewrite lookup_insert_eq.
  - rewrite list_lookup_alter_ne by done. unfold toggle.
    destruct (s_view ss !! k) as [[e b]|] eqn:Hk; simpl; [|done].
    rewrite (view_mark ss k e b Hinv Hk). destruct (s_view ss !! i) as [[d v]|]; [|done].
    rewrite lookup_insert_ne; [done|]. intros Hid. apply Hki. symmetry. exact (box_id_index _ _ _ _ Hid).
Qed.

(** The widget state of a browser session stays bounded by what
    it shows: in every reachable state, each session stores at most one
    value per box of its last listing; the state of deleted tasks does
    not accumulate. *)
Theorem widget_state_bounded (c0 : C) sy ss :
  sys_reach sch c0 sy -> ss ∈ sys_sessions sy -> size (s_widgets ss) <= length (s_view ss).
Proof.
  intros Hr Hin. pose proof (sys_reach_inv c0 sy Hr) as Hall. rewrite Forall_forall in Hall.
  apply widgets_size, Hall. by apply list_elem_of_In.
Qed.
End SessionTheorems.

(** ** Scenarios *)

#[local] Existing Instance offline_service.

Definition doc_gym : task_doc := TaskDoc (py "gym") (py "07:05 AM").
Definition doc_read : task_doc := TaskDoc (py "read") (py "09:00 PM").
Definition doc_call : task_doc := TaskDoc (py "call") (py "10:30 AM").
Definition coll_two : mem_coll := mem_insert doc_read (mem_insert doc_gym mem_empty).
Definition coll_three : mem_coll := mem_insert doc_call coll_two.

Definition sys_of (r : list ui_msg * session * mem_coll) : system := System [r.1.2] r.2.

(** One user: open the page, check the first box, press "Completed
    Task", and reload. *)
Definition run_load sch := session_run sch EvLoad session_new coll_two.
Definition run_check sch := session_run sch (EvToggle 0) (run_load sch).1.2 (run_load sch).2.
Definition run_complete sch := session_run sch EvComplete (run_check sch).1.2 (run_check sch).2.
Definition run_reload sch := session_run sch EvLoad (run_complete sch).1.2 (run_complete sch).2.
Definition run_complete_again sch := session_run sch EvComplete (run_reload sch).1.2 (run_reload sch).2.

Lemma sys_run_eq sch (sy : system (C:=mem_coll)) j ev ss :
  sys_sessions sy !! j = Some ss ->
  sys_step sch sy j ev (session_run sch ev ss (sys_coll sy)).1.1
    (System (<[j := (session_run sch ev ss (sys_coll sy)).1.2]> (sys_sessions sy)) (session_run sch ev ss (sys_coll sy)).2).
Proof. intros Hj. eapply sys_run; [exact Hj|]. by destruct (session_run sch ev ss (sys_coll sy)) as [[]]. Qed.

Lemma sys_checked_reach sch : sys_reach sch coll_two (sys_of (run_check sch)).
Proof.
  eapply reach_step; [|apply (sys_run_eq sch (sys_of (run_load sch)) 0); reflexivity].
  eapply reach_step; [|apply (sys_run_eq sch (System [session_new] coll_two) 0); reflexivity].
  eapply reach_step; [apply reach_init | exact (sys_open sch (System [] coll_two))].
Qed.

Lemma complete_deletes_shown_witness :
  sys_reach KeyOnly coll_two (sys_of (run_check KeyOnly)) /\
  sys_sessions (sys_of (run_check KeyOnly)) !! 0 = Some (run_check KeyOnly).1.2 /\
  contents (sys_coll (sys_of (run_check KeyOnly))) = (s_view (run_check KeyOnly).1.2).*1 /\
  sys_step KeyOnly (sys_of (run_check KeyOnly)) 0 EvComplete (run_complete KeyOnly).1.1 (sys_of (run_complete KeyOnly)) /\
  (sys_coll (sys_of (run_complete KeyOnly)) =
     snd (complete_tasks (shown_checked (run_check KeyOnly).1.2) (sys_coll (sys_of (run_check KeyOnly)))) /\
   (exists pre post, (run_complete KeyOnly).1.1 =
      pre ++ map (fun n => UiSuccess (PStr (deleted_prefix ++ n))) (shown_checked (run_check KeyOnly).1.2) ++ post) /\
   length (contents (sys_coll (sys_of (run_check KeyOnly)))) =
     length (contents (sys_coll (sys_of (run_complete KeyOnly)))) + length (shown_checked (run_check KeyOnly).1.2)).
Proof.
  assert (Hr := sys_checked_reach KeyOnly).
  assert (Hj : sys_sessions (sys_of (run_check KeyOnly)) !! 0 = Some (run_check KeyOnly).1.2) by reflexivity.
  assert (Hc : contents (sys_coll (sys_of (run_check KeyOnly))) = (s_view (run_check KeyOnly).1.2).*1)
    by (vm_compute; reflexivity).
  assert (Hs := sys_run_eq KeyOnly (sys_of (run_check KeyOnly)) 0 EvComplete _ Hj).
  do 4 (split; [assumption|]).
  exact (complete_deletes_shown KeyOnly coll_two _ 0 _ _ _ Hr Hj Hc Hs).
Defined.

(** With key-only identities the mark of the deleted first task passes
    to the task that moves into its place. *)
Lemma marks_follow_position_witness :
  session_inv KeyOnly (run_complete KeyOnly).1.2 /\ ev_passive EvLoad = true /\
  contents (run_complete KeyOnly).2 !! 0 = Some doc_read /\
  s_view (run_reload KeyOnly).1.2 !! 0 = Some (doc_read, true).
Proof.
  assert (Hi := session_run_inv KeyOnly EvComplete (run_check KeyOnly).1.2 (run_check KeyOnly).2).
  assert (Hd : contents (run_complete KeyOnly).2 !! 0 = Some doc_read) by (vm_compute; reflexivity).
  split; [exact Hi|]. split; [reflexivity|]. split; [exact Hd|].
  unfold run_reload. rewrite (marks_follow_position KeyOnly _ EvLoad _ 0 doc_read Hi eq_refl Hd).
  vm_compute. reflexivity.
Defined.

Lemma click_flips_box_witness :
  session_inv KeyOnly (run_load KeyOnly).1.2 /\
  contents (run_load KeyOnly).2 = (s_view (run_load KeyOnly).1.2).*1 /\
  s_view (run_check KeyOnly).1.2 = alter (fun dv => (dv.1, negb dv.2)) 0 (s_view (run_load KeyOnly).1.2).
Proof.
  assert (Hi := session_run_inv KeyOnly EvLoad session_new coll_two).
  assert (Hc : contents (run_load KeyOnly).2 = (s_view (run_load KeyOnly).1.2).*1) by (vm_compute; reflexivity).
  split; [exact Hi|]. split; [exact Hc|].
  exact (click_flips_box KeyOnly _ _ 0 Hi Hc).
Defined.

Lemma widget_state_bounded_witness :
  sys_reach KeyAndLabel coll_two (sys_of (run_check KeyAndLabel)) /\
  (run_check KeyAndLabel).1.2 ∈ sys_sessions (sys_of (run_check KeyAndLabel)) /\
  size (s_widgets (run_check KeyAndLabel).1.2) <= length (s_view (run_check KeyAndLabel).1.2).
Proof.
  assert (Hr := sys_checked_reach KeyAndLabel).
  assert (Hin : (run_check KeyAndLabel).1.2 ∈ sys_sessions (sys_of (run_check KeyAndLabel))) by left.
  split; [exact Hr|]. split; [exact Hin|].
  exact (widget_state_bounded KeyAndLabel coll_two _ _ Hr Hin).
Defined.

(** The user checks only "gym" and presses "Completed Task"; the next
    load shows "read" checked, and a second press deletes it. *)
Example unchecked_task_deleted :
  s_view (run_check KeyOnly).1.2 = [(doc_gym, true); (doc_read, false)] /\
  contents (run_complete KeyOnly).2 = [doc_read] /\
  s_view (run_reload KeyOnly).1.2 = [(doc_read, true)] /\
  contents (run_complete_again KeyOnly).2 = [].
Proof. vm_compute. repeat split. Qed.

(** With identities by key and label the mark does not pass on. *)
Example label_identity_unmarks :
  s_view (run_reload KeyAndLabel).1.2 = [(doc_read, false)] /\
  contents (run_complete_again KeyAndLabel).2 = [doc_read].
Proof. vm_compute. repeat split. Qed.

(** Two browser sessions on one collection: the first checks "read"
    (box 1) of [gym; read; call]; the second checks "gym" and completes
    it; then the first presses "Completed Task".  With key-only
    identities "call" is deleted and "read" stays; with key-and-label
    identities nothing is deleted and no message says so. *)
Definition interleaved (sch : id_scheme) : list ui_msg * mem_coll :=
  let r1 := session_run sch EvLoad session_new coll_three in
  let r1 := session_run sch (EvToggle 1) r1.1.2 r1.2 in
  let r2 := session_run sch EvLoad session_new r1.2 in
  let r2 := session_run sch (EvToggle 0) r2.1.2 r2.2 in
  let r2 := session_run sch EvComplete r2.1.2 r2.2 in
  let r1 := session_run sch EvComplete r1.1.2 r2.2 in
  (r1.1.1, r1.2).

Example interleaved_complete_wrong_task :
  contents (interleaved KeyOnly).2 = [doc_read] /\
  In (UiSuccess (PStr (deleted_prefix ++ doc_task doc_call))) (interleaved KeyOnly).1 /\
  contents (interleaved KeyAndLabel).2 = [doc_read; doc_call].
Proof. vm_compute. split; [reflexivity|]. split; [|reflexivity]. repeat (first [left; reflexivity | right]). Qed.
